(** * Assignments, submissions and quiz auto-grading of the TTLS backend

    A shallow embedding of [src/routes/assignments.js] together with the
    Mongoose schemas it persists through ([QuizQuestion], [Assignment],
    [Submission]) and the [protect] and [authorize] middlewares.

    - JavaScript numbers are IEEE 754 binary64 values: they are modelled by
      Rocq's primitive floats, whose [+], [*], [/] and comparisons are the
      same operations.
    - JavaScript strings are modelled by [string], a character standing for
      a code unit in the range 0..255 (the Latin-1 block); [toLowerCase]
      and [trim] are given for that range.
    - ObjectIds are natural numbers; dates are integers (milliseconds).
    - The Mongo collections are lists of documents, threaded through the
      route handlers as an explicit store. *)

From Stdlib Require Import List String Ascii Bool Arith ZArith Lia.
From Stdlib Require Import Permutation.
From Stdlib Require Import PrimFloat Uint63 SpecFloat FloatOps FloatAxioms.
Import ListNotations.

Local Open Scope string_scope.
Local Open Scope nat_scope.
Local Open Scope list_scope.

(* ================================================================= *)
(** ** The fragment of JavaScript the routes rely on *)

Module JS.

Definition number := float.

(** ToBoolean on a number: [0], [-0] and [NaN] are falsy. *)
Definition truthy (x : number) : bool := ((x <? 0) || (0 <? x))%float.

(** [x || d] on a number [x]. *)
Definition or (x d : number) : number := if truthy x then x else d.

(** [x || d] where [x] may be [undefined]. *)
Definition or_undef (x : option number) (d : number) : number :=
  match x with
  | Some v => or v d
  | None => d
  end.

(** The Number value of an array length or index (exact: such values
    stay below 2^53). *)
Definition of_nat (n : nat) : number :=
  PrimFloat.of_uint63 (Uint63.of_Z (Z.of_nat n)).

Definition two52 : number := 4503599627370496%float.

(** [Math.round]: the nearest integral Number, a tie going to the one
    closer to +infinity.  Beyond [2^52] in magnitude every Number is
    integral.  Below it, adding and removing [2^52] rounds to an integer,
    from which the floor and the fractional part are exact. *)
Definition Math_round (x : number) : number :=
  if (is_nan x || (two52 <=? abs x))%float then x
  else
    let r := (if 0 <=? x then (x + two52) - two52
              else (x - two52) + two52)%float in
    if (r =? x)%float then x
    else
      let f := (if x <? r then r - 1 else r)%float in
      let up := (0.5 <=? x - f)%float in
      let res := (if up then f + 1 else f)%float in
      if ((res =? 0) && (x <? 0))%float then (-0)%float else res.

(** *** Strings *)

Definition code (c : ascii) : nat := nat_of_ascii c.

(** WhiteSpace and LineTerminator code points below 256:
    TAB, LF, VT, FF, CR, SPACE and NO-BREAK SPACE. *)
Definition isWhiteSpace (c : ascii) : bool :=
  let n := code c in
  ((9 <=? n) && (n <=? 13)) || (n =? 32) || (n =? 160).

(** Code points below 256 that have a lower-case mapping:
    A-Z, and the Latin-1 capitals U+00C0-U+00DE except U+00D7. *)
Definition isUpper (c : ascii) : bool :=
  let n := code c in
  ((65 <=? n) && (n <=? 90))
  || ((192 <=? n) && (n <=? 214))
  || ((216 <=? n) && (n <=? 222)).

Definition lowerChar (c : ascii) : ascii :=
  if isUpper c then ascii_of_nat (code c + 32) else c.

Fixpoint toLowerCase (s : string) : string :=
  match s with
  | EmptyString => EmptyString
  | String c r => String (lowerChar c) (toLowerCase r)
  end.

Fixpoint trimStart (s : string) : string :=
  match s with
  | EmptyString => EmptyString
  | String c r => if isWhiteSpace c then trimStart r else s
  end.

Fixpoint trimEnd (s : string) : string :=
  match s with
  | EmptyString => EmptyString
  | String c r =>
      match trimEnd r with
      | EmptyString => if isWhiteSpace c then EmptyString
                       else String c EmptyString
      | r' => String c r'
      end
  end.

Definition trim (s : string) : string := trimEnd (trimStart s).

(** [x || d] on a string that may be [undefined]: [''] is falsy. *)
Definition str_or (x : option string) (d : string) : string :=
  match x with
  | Some EmptyString => d
  | Some s => s
  | None => d
  end.

(** [String(x)] on a string that may be [undefined]. *)
Definition String_ (x : option string) : string :=
  match x with
  | Some s => s
  | None => "undefined"
  end.

(** [x || []] on an array that may be [undefined] (arrays are truthy). *)
Definition arr_or {A : Type} (x : option (list A)) : list A :=
  match x with
  | Some l => l
  | None => []
  end.

(** [xs.includes(x)] on an array of strings. *)
Definition includes (xs : list string) (x : string) : bool :=
  existsb (String.eqb x) xs.

End JS.

(* ================================================================= *)
(** ** Documents (the Mongoose schemas) *)

Definition ObjectId := nat.
Definition Date := Z.

(** Attachment and submission file sub-documents:
    [{ filename, url, fileType, public_id }]. *)
Record File := mkFile {
  filename : string;
  url : option string;
  fileType : string;
  public_id : option string
}.

(** [QuizQuestionSchema]. *)
Module QuizQuestion.

Inductive kind :=
| multiple_choice | identification | enumeration | essay | file_upload.

Record t := mk {
  _id : ObjectId;
  question : string;
  type : kind;
  options : list string;
  correctAnswer : option string;
  correctAnswers : list string;
  points : JS.number;              (* default: 1 *)
  order : JS.number                (* default: 0 *)
}.

End QuizQuestion.

(** [AssignmentSchema]. *)
Module Assignment.

Inductive kind := mini_project | major_project | quiz | assignment | essay.

Definition is_quiz (k : kind) : bool :=
  match k with quiz => true | _ => false end.

Record t := mk {
  _id : ObjectId;
  title : string;
  description : option string;
  instructions : option string;
  lesson : option ObjectId;
  type : kind;                     (* default: 'assignment' *)
  dueDate : option Date;
  createdBy : ObjectId;
  attachments : list File;
  questions : list QuizQuestion.t;
  totalPoints : JS.number;         (* default: 0 *)
  allowAutomaticGrading : bool;    (* default: true *)
  allowResubmission : bool         (* default: false *)
}.

End Assignment.

(** [AnswerSchema]: [isCorrect] is a Boolean that may be [null]
    ([Some None]) or absent ([None]). *)
Module Answer.

Record t := mk {
  questionId : ObjectId;           (* required *)
  answer : option string;
  answers : list string;
  files : list File;
  isCorrect : option (option bool);
  points : option JS.number;
  feedback : option string
}.

End Answer.

(** [SubmissionSchema]. *)
Module Submission.

Record t := mk {
  _id : ObjectId;
  assignment : ObjectId;           (* required *)
  student : ObjectId;              (* required *)
  content : option string;
  answers : list Answer.t;
  files : list File;
  grade : option JS.number;        (* absent or null: [None] *)
  totalPoints : option JS.number;
  feedback : option string;
  isGraded : bool;                 (* default: false *)
  autoGraded : bool;               (* default: false *)
  submittedAt : Date;              (* default: Date.now *)
  gradedAt : option Date;
  resubmitted : bool;              (* default: false *)
  resubmittedAt : option Date;
  previousContent : option string;
  previousAnswers : list Answer.t;
  previousFiles : list File
}.

End Submission.

(* ================================================================= *)
(** ** Request payloads *)

(** One element of the [answers] array a student posts.  Besides what the
    route reads ([questionId], [answer], [answers], [type], [fileIndex]) it
    may carry any other field of [AnswerSchema], which the spread
    [{...answer}] keeps. *)
Module RawAnswer.

Record t := mk {
  questionId : option ObjectId;
  answer : option string;
  answers : option (list string);
  type : option string;
  fileIndex : option nat;
  files : option (list File);
  isCorrect : option (option bool);
  points : option JS.number;
  feedback : option string
}.

End RawAnswer.

(** ** The auto-grader *)

(** One element of [gradedAnswers]; [isCorrect] is [null] ([None]) for the
    kinds that are not auto-graded. *)
Module Graded.

Record t := mk {
  questionId : ObjectId;
  question : string;
  type : QuizQuestion.kind;
  answer : string;
  answers : list string;
  isCorrect : option bool;
  points : JS.number;
  maxPoints : JS.number
}.

End Graded.

Record GradingResult := mkGradingResult {
  totalScore : JS.number;
  totalPoints : JS.number;
  gradedAnswers : list Graded.t
}.

(** [answers.find(a => a.questionId &&
                       a.questionId.toString() === question._id.toString())] *)
Definition answerFor (answers : list RawAnswer.t) (question : QuizQuestion.t)
  : option RawAnswer.t :=
  find (fun a => match RawAnswer.questionId a with
                 | Some id => id =? QuizQuestion._id question
                 | None => false
                 end) answers.

(** [answer?.answer] and [answer?.answers]. *)
Definition answerOf (answer : option RawAnswer.t) : option string :=
  match answer with
  | Some a => RawAnswer.answer a
  | None => None
  end.

Definition answersOf (answer : option RawAnswer.t) : option (list string) :=
  match answer with
  | Some a => RawAnswer.answers a
  | None => None
  end.

(** The number of student answers found among the correct ones:
    [studentAnswers.filter(sa => correctAnswers.includes(sa)).length]. *)
Definition correctCount (correctAnswers studentAnswers : list string) : nat :=
  List.length (filter (JS.includes correctAnswers) studentAnswers).

(** The body of the [forEach] of [autoGradeQuiz], up to the two
    accumulators: the pair [(isCorrect, points)] of one question. *)
Definition gradeQuestion (question : QuizQuestion.t)
    (answer : option RawAnswer.t) : option bool * JS.number :=
  match QuizQuestion.type question with
  | QuizQuestion.essay | QuizQuestion.file_upload =>
      (None, 0%float)
  | QuizQuestion.multiple_choice =>
      let correctAnswer := QuizQuestion.correctAnswer question in
      let studentAnswer := JS.str_or (answerOf answer) "" in
      let isCorrect :=
        String.eqb (JS.trim (JS.toLowerCase studentAnswer))
                   (JS.trim (JS.toLowerCase (JS.String_ correctAnswer))) in
      (Some isCorrect,
       if isCorrect then JS.or (QuizQuestion.points question) 1%float
       else 0%float)
  | QuizQuestion.identification =>
      let correctAnswer :=
        JS.trim (JS.toLowerCase
                   (JS.str_or (QuizQuestion.correctAnswer question) "")) in
      let studentAnswer :=
        JS.trim (JS.toLowerCase (JS.str_or (answerOf answer) "")) in
      let isCorrect := String.eqb studentAnswer correctAnswer in
      (Some isCorrect,
       if isCorrect then JS.or (QuizQuestion.points question) 1%float
       else 0%float)
  | QuizQuestion.enumeration =>
      let correctAnswers :=
        map (fun a => JS.trim (JS.toLowerCase a))
            (QuizQuestion.correctAnswers question) in
      let studentAnswers :=
        map (fun a => JS.trim (JS.toLowerCase a))
            (JS.arr_or (answersOf answer)) in
      let correctCount := correctCount correctAnswers studentAnswers in
      let totalCorrect := List.length correctAnswers in
      if 0 <? totalCorrect then
        ((Some ((correctCount =? totalCorrect)
                && (List.length studentAnswers =? totalCorrect))),
         (JS.of_nat correctCount / JS.of_nat totalCorrect
          * JS.or (QuizQuestion.points question) 1)%float)
      else
        (Some false, 0%float)
  end.

(** The record pushed onto [gradedAnswers] for one question. *)
Definition gradedAnswer (answers : list RawAnswer.t)
    (question : QuizQuestion.t) : Graded.t :=
  let answer := answerFor answers question in
  let outcome := gradeQuestion question answer in
  {| Graded.questionId := QuizQuestion._id question;
     Graded.question := QuizQuestion.question question;
     Graded.type := QuizQuestion.type question;
     Graded.answer := JS.str_or (answerOf answer) "";
     Graded.answers := JS.arr_or (answersOf answer);
     Graded.isCorrect := fst outcome;
     Graded.points := snd outcome;
     Graded.maxPoints := JS.or (QuizQuestion.points question) 1%float |}.

(** One iteration of the [forEach]: the three accumulators
    [totalScore], [totalPoints] and [gradedAnswers] after one question. *)
Definition gradeStep (answers : list RawAnswer.t)
    (acc : GradingResult) (question : QuizQuestion.t) : GradingResult :=
  let g := gradedAnswer answers question in
  {| totalScore := (totalScore acc + Graded.points g)%float;
     totalPoints :=
       (totalPoints acc + JS.or (QuizQuestion.points question) 1)%float;
     gradedAnswers := gradedAnswers acc ++ [g] |}.

Definition autoGradeQuiz (assignment : Assignment.t)
    (answers : list RawAnswer.t) : GradingResult :=
  match Assignment.questions assignment with
  | [] =>
      {| totalScore := 0%float; totalPoints := 0%float;
         gradedAnswers := [] |}
  | questions =>
      fold_left (gradeStep answers) questions
        {| totalScore := 0%float; totalPoints := 0%float;
           gradedAnswers := [] |}
  end.

(* ================================================================= *)
(** ** Requests, responses and the store *)

(** [req.user], the decoded token set by the [protect] middleware. *)
Module User.

Inductive role := student | teacher | admin.

Definition role_eqb (a b : role) : bool :=
  match a, b with
  | student, student | teacher, teacher | admin, admin => true
  | _, _ => false
  end.

Record t := mk { id : ObjectId; role_of : role }.

End User.

(** The middleware [authorize(...roles)]: [roles.includes(req.user.role)]. *)
Definition authorize (roles : list User.role) (user : User.t) : bool :=
  existsb (User.role_eqb (User.role_of user)) roles.

(** [res.status(status).json({ success: true, data })] and
    [res.status(status).json({ success: false, message })]. *)
Inductive Response (A : Type) : Type :=
| success (status : nat) (data : A)
| failure (status : nat) (message : string).

Arguments success {A} status data.
Arguments failure {A} status message.

(** A file as multer hands it over in [req.files]. *)
Record MulterFile := mkMulterFile {
  originalname : string;
  mimetype : string;
  buffer : option string;
  path : option string
}.

(** What Cloudinary answers to an upload. *)
Record Uploaded := mkUploaded {
  secure_url : string;
  uploaded_public_id : string
}.

(** A JSON value that is not an array; the routes never look inside. *)
Inductive Json :=
| Jnull
| Jbool (b : bool)
| Jnumber (x : JS.number)
| Jstring (s : string)
| Jobject (text : string).

(** One element of the [questions] array of a create or update request. *)
Module RawQuestion.

Record t := mk {
  question : option string;
  type : option QuizQuestion.kind;
  options : option (list string);
  correctAnswer : option string;
  correctAnswers : option (list string);
  points : option JS.number;
  order : option JS.number
}.

End RawQuestion.

(** The plain object the routes build from a raw question. *)
Module QuestionInput.

Record t := mk {
  question : string;
  type : QuizQuestion.kind;
  options : list string;
  correctAnswer : string;
  correctAnswers : list string;
  points : JS.number;
  order : JS.number
}.

End QuestionInput.

(** The [questions] field of a request body, by what the route does with
    it: nothing when it is falsy; [JSON.parse] when it is a string, which
    throws on text that is not JSON; otherwise the value, parsed or given,
    is an array or it is not.  An element of an array is an object
    ([Some]) or [null] ([None]). *)
Inductive QuestionsPayload :=
| q_absent
| q_garbled (text : string)
| q_other (v : Json)
| q_items (l : list (option RawQuestion.t)).

(** The [answers] field of a submit request: falsy, a string [JSON.parse]
    throws on, or an array of answer objects.  Values of any other shape
    are not covered. *)
Inductive AnswersPayload :=
| a_absent
| a_garbled (text : string)
| a_items (l : list RawAnswer.t).

(** The value of the variable [parsedQuestions] once the parsing block is
    left: the mapped array (or the initial [[]]); or the array as received,
    when mapping it threw; or the value that is not an array. *)
Inductive ParsedQuestions :=
| normalized (qs : list QuestionInput.t)
| raw_array (l : list (option RawQuestion.t))
| raw_value (v : Json).

Record CreateBody := mkCreateBody {
  b_title : option string;
  b_description : option string;
  b_instructions : option string;
  b_type : option Assignment.kind;
  b_dueDate : option Date;
  b_lessonId : option ObjectId;
  b_questions : QuestionsPayload;
  b_allowAutomaticGrading : option bool;
  b_allowResubmission : option bool
}.

Record SubmitBody := mkSubmitBody {
  b_content : option string;
  b_answers : AnswersPayload
}.

(** One element of the [answers] array of a grading request. *)
Module GradeEntry.

Record t := mk {
  questionId : option ObjectId;
  points : option JS.number;
  feedback : option string;
  isCorrect : option (option bool)
}.

End GradeEntry.

Record GradeBody := mkGradeBody {
  b_grade : option JS.number;
  b_feedback : option string;
  b_gradedAnswers : option (list GradeEntry.t)
}.

Record Distribution := mkDistribution {
  excellent : nat;
  good : nat;
  satisfactory : nat;
  needsImprovement : nat;
  d_ungraded : nat
}.

Record SubmissionSummary := mkSummary {
  s_id : ObjectId;
  s_student : ObjectId;
  s_grade : option JS.number;
  s_submittedAt : Date
}.

Record Statistics := mkStatistics {
  total : nat;
  graded : nat;
  ungraded : nat;
  average : JS.number;
  gradeDistribution : Distribution;
  st_submissions : list SubmissionSummary
}.

(** The two collections and the next ObjectId to hand out. *)
Record Store := mkStore {
  assignments : list Assignment.t;
  submissions : list Submission.t;
  nextId : ObjectId
}.

(* ================================================================= *)
(** ** The route handlers *)

(** [x || null] on a string that may be [undefined]. *)
Definition orNull (x : option string) : option string :=
  match x with
  | Some EmptyString => None
  | other => other
  end.

(** [Model.findById(id)]. *)
Definition findAssignment (store : Store) (id : ObjectId)
  : option Assignment.t :=
  find (fun a => Assignment._id a =? id) (assignments store).

(** [Submission.findOne({ assignment, student })]. *)
Definition findSubmission (store : Store) (assignment student : ObjectId)
  : option Submission.t :=
  find (fun s => (Submission.assignment s =? assignment)
                 && (Submission.student s =? student))
       (submissions store).

(** [Submission.findOne({ _id, assignment })]. *)
Definition findSubmissionById (store : Store) (id assignment : ObjectId)
  : option Submission.t :=
  find (fun s => (Submission._id s =? id)
                 && (Submission.assignment s =? assignment))
       (submissions store).

(** [doc.save()] on a loaded document: the stored document with that
    [_id] is replaced. *)
Fixpoint saveDoc {A : Type} (same : A -> bool) (doc : A) (docs : list A)
  : list A :=
  match docs with
  | [] => []
  | d :: rest => if same d then doc :: rest else d :: saveDoc same doc rest
  end.

Definition saveAssignment (a : Assignment.t) (store : Store) : Store :=
  {| assignments :=
       saveDoc (fun d => Assignment._id d =? Assignment._id a) a
               (assignments store);
     submissions := submissions store;
     nextId := nextId store |}.

Definition saveSubmission (s : Submission.t) (store : Store) : Store :=
  {| assignments := assignments store;
     submissions :=
       saveDoc (fun d => Submission._id d =? Submission._id s) s
               (submissions store);
     nextId := nextId store |}.

(** [array.map((x, index) => f x index)], from a starting index. *)
Fixpoint mapi {A B : Type} (f : A -> nat -> B) (l : list A) (index : nat)
  : list B :=
  match l with
  | [] => []
  | x :: rest => f x index :: mapi f rest (S index)
  end.

(** The elements of an array when none of them is [null]. *)
Fixpoint elements {A : Type} (l : list (option A)) : option (list A) :=
  match l with
  | [] => Some []
  | None :: _ => None
  | Some x :: rest =>
      match elements rest with
      | Some xs => Some (x :: xs)
      | None => None
      end
  end.

(** The callback of [parsedQuestions.map((q, index) => ...)]. *)
Definition normalizeQuestion (q : RawQuestion.t) (index : nat)
  : QuestionInput.t :=
  {| QuestionInput.question := JS.str_or (RawQuestion.question q) "";
     QuestionInput.type :=
       match RawQuestion.type q with
       | Some k => k
       | None => QuizQuestion.multiple_choice
       end;
     QuestionInput.options := JS.arr_or (RawQuestion.options q);
     QuestionInput.correctAnswer :=
       JS.str_or (RawQuestion.correctAnswer q) "";
     QuestionInput.correctAnswers := JS.arr_or (RawQuestion.correctAnswers q);
     QuestionInput.points := JS.or_undef (RawQuestion.points q) 1%float;
     QuestionInput.order :=
       match RawQuestion.order q with
       | Some o => o
       | None => JS.of_nat index
       end |}.

(** [parsedQuestions.reduce((sum, q) => sum + (q.points || 1), 0)]. *)
Definition sumPoints (qs : list QuestionInput.t) : JS.number :=
  fold_left (fun sum q => (sum + JS.or (QuestionInput.points q) 1)%float)
            qs 0%float.

(** The parsing block of the create and update routes, entered with a
    truthy [questions]: the final values of [parsedQuestions] and
    [totalPoints].  Reading a property of a [null] element throws inside
    [map], after [parsedQuestions] was assigned the array; the [catch]
    only logs. *)
Definition parseQuestions (questions : QuestionsPayload)
  : ParsedQuestions * JS.number :=
  match questions with
  | q_absent => (normalized [], 0%float)
  | q_garbled _ => (normalized [], 0%float)
  | q_other v => (raw_value v, 0%float)
  | q_items l =>
      match elements l with
      | Some qs =>
          let mapped := mapi normalizeQuestion qs 0 in
          (normalized mapped, sumPoints mapped)
      | None => (raw_array l, 0%float)
      end
  end.

(** The sub-documents made of plain question objects, each given a fresh
    [_id]. *)
Fixpoint questionDocs (first : ObjectId) (qs : list QuestionInput.t)
  : list QuizQuestion.t :=
  match qs with
  | [] => []
  | q :: rest =>
      {| QuizQuestion._id := first;
         QuizQuestion.question := QuestionInput.question q;
         QuizQuestion.type := QuestionInput.type q;
         QuizQuestion.options := QuestionInput.options q;
         QuizQuestion.correctAnswer := Some (QuestionInput.correctAnswer q);
         QuizQuestion.correctAnswers := QuestionInput.correctAnswers q;
         QuizQuestion.points := QuestionInput.points q;
         QuizQuestion.order := QuestionInput.order q |}
      :: questionDocs (S first) rest
  end.

(** [required: true] on a String path rejects the empty string. *)
Definition present (s : string) : bool :=
  match s with
  | EmptyString => false
  | _ => true
  end.

(** [AnswerSchema] applied to a submitted answer: [questionId] is
    required, the arrays default to [[]], fields outside the schema are
    dropped. *)
Definition castAnswer (a : RawAnswer.t) : option Answer.t :=
  match RawAnswer.questionId a with
  | Some id =>
      Some {| Answer.questionId := id;
              Answer.answer := RawAnswer.answer a;
              Answer.answers := JS.arr_or (RawAnswer.answers a);
              Answer.files := JS.arr_or (RawAnswer.files a);
              Answer.isCorrect := RawAnswer.isCorrect a;
              Answer.points := RawAnswer.points a;
              Answer.feedback := RawAnswer.feedback a |}
  | None => None
  end.

Fixpoint castAnswers (l : list RawAnswer.t) : option (list Answer.t) :=
  match l with
  | [] => Some []
  | a :: rest =>
      match castAnswer a, castAnswers rest with
      | Some d, Some ds => Some (d :: ds)
      | _, _ => None
      end
  end.

(** The merge of the grading result into one submitted answer:
    [{ ...answer, isCorrect: graded?.isCorrect, points: graded?.points || 0 }]
    with [graded = gradedAnswers.find(g => g.questionId.toString() ===
    answer.questionId?.toString())]. *)
Definition mergeGraded (gradedAnswers : list Graded.t) (answer : RawAnswer.t)
  : RawAnswer.t :=
  let graded :=
    find (fun g => match RawAnswer.questionId answer with
                   | Some id => Graded.questionId g =? id
                   | None => false
                   end) gradedAnswers in
  {| RawAnswer.questionId := RawAnswer.questionId answer;
     RawAnswer.answer := RawAnswer.answer answer;
     RawAnswer.answers := RawAnswer.answers answer;
     RawAnswer.type := RawAnswer.type answer;
     RawAnswer.fileIndex := RawAnswer.fileIndex answer;
     RawAnswer.files := RawAnswer.files answer;
     RawAnswer.isCorrect :=
       match graded with
       | Some g => Some (Graded.isCorrect g)
       | None => None
       end;
     RawAnswer.points :=
       Some (match graded with
             | Some g => JS.or (Graded.points g) 0%float
             | None => 0%float
             end);
     RawAnswer.feedback := RawAnswer.feedback answer |}.

(** The override of one stored answer by a grading request:
    [gradedAnswers.find(g => g.questionId && g.questionId.toString() ===
    answer.questionId?.toString())], then the three conditional fields. *)
Definition overrideAnswer (gradedAnswers : list GradeEntry.t)
    (answer : Answer.t) : Answer.t :=
  match find (fun g => match GradeEntry.questionId g with
                       | Some id => id =? Answer.questionId answer
                       | None => false
                       end) gradedAnswers with
  | Some graded =>
      {| Answer.questionId := Answer.questionId answer;
         Answer.answer := Answer.answer answer;
         Answer.answers := Answer.answers answer;
         Answer.files := Answer.files answer;
         Answer.isCorrect :=
           match GradeEntry.isCorrect graded with
           | Some c => Some c
           | None => Answer.isCorrect answer
           end;
         Answer.points :=
           match GradeEntry.points graded with
           | Some p => Some p
           | None => Answer.points answer
           end;
         Answer.feedback :=
           match GradeEntry.feedback graded with
           | Some f => Some f
           | None => Answer.feedback answer
           end |}
  | None => answer
  end.

(** [submission.answers.reduce((sum, a) => sum + (a.points || 0), 0)]. *)
Definition answersScore (answers : list Answer.t) : JS.number :=
  fold_left (fun sum a => (sum + JS.or_undef (Answer.points a) 0)%float)
            answers 0%float.

Section Routes.

(** What lies outside the repository: whether Cloudinary is configured;
    what an upload of [(buffer, originalname, folder)] resolves to,
    [None] when it rejects; and what the document layer makes of a
    [questions] value that is not an array of plain question objects,
    [None] when it refuses the value. *)
Variable hasCloudinary : bool.
Variable uploadBufferToCloudinary :
  string -> string -> string -> option Uploaded.
Variable castQuestions : ParsedQuestions -> option (list QuestionInput.t).

Definition cloudFile (f : MulterFile) (uploaded : Uploaded) : File :=
  {| url := Some (secure_url uploaded);
     public_id := Some (uploaded_public_id uploaded);
     filename := originalname f;
     fileType := mimetype f |}.

Definition localFile (f : MulterFile) : File :=
  {| filename := originalname f;
     fileType := mimetype f;
     url := orNull (path f);
     public_id := None |}.

(** [for (const f of req.files)] with Cloudinary: a file without buffer
    is skipped, a rejected upload ends the request ([None]). *)
Fixpoint uploadEach (folder : string) (files : list MulterFile)
    (saved : list File) : option (list File) :=
  match files with
  | [] => Some saved
  | f :: rest =>
      match buffer f with
      | None => uploadEach folder rest saved
      | Some b =>
          match uploadBufferToCloudinary b (originalname f) folder with
          | Some uploaded =>
              uploadEach folder rest (saved ++ [cloudFile f uploaded])
          | None => None
          end
      end
  end.

(** The attachment block shared by the three writing routes. *)
Definition saveFiles (folder : string) (files : list MulterFile)
    (saved : list File) : option (list File) :=
  if hasCloudinary then uploadEach folder files saved
  else Some (saved ++ map localFile files).

(** What the document layer keeps of [parsedQuestions]: an array of
    plain question objects as it is, anything else as the layer casts
    it; every question needs a text ([required]). *)
Definition documentQuestions (parsedQuestions : ParsedQuestions)
  : option (list QuestionInput.t) :=
  match (match parsedQuestions with
         | normalized qs => Some qs
         | other => castQuestions other
         end) with
  | Some qs =>
      if forallb (fun q => present (QuestionInput.question q)) qs
      then Some qs else None
  | None => None
  end.

(** *** POST / *)
Definition create (store : Store) (user : User.t) (body : CreateBody)
    (files : list MulterFile) : Store * Response Assignment.t :=
  if negb (authorize [User.teacher; User.admin] user) then
    (store, failure 403 "Not authorized to access this route")
  else
    let '(parsedQuestions, totalPoints) :=
      match b_type body with
      | Some Assignment.quiz => parseQuestions (b_questions body)
      | _ => (normalized [], 0%float)
      end in
    match b_title body, documentQuestions parsedQuestions with
    | Some title, Some qs =>
        if negb (present title) then
          (store, failure 500 "Failed to create assignment")
        else
          let document (attachments : list File) :=
            {| Assignment._id := nextId store;
               Assignment.title := title;
               Assignment.description := b_description body;
               Assignment.instructions := b_instructions body;
               Assignment.lesson := b_lessonId body;
               Assignment.type :=
                 match b_type body with
                 | Some k => k
                 | None => Assignment.assignment
                 end;
               Assignment.dueDate := b_dueDate body;
               Assignment.createdBy := User.id user;
               Assignment.attachments := attachments;
               Assignment.questions := questionDocs (S (nextId store)) qs;
               Assignment.totalPoints := totalPoints;
               Assignment.allowAutomaticGrading :=
                 match b_allowAutomaticGrading body with
                 | Some b => b
                 | None =>
                     match b_type body with
                     | Some k => Assignment.is_quiz k
                     | None => false
                     end
                 end;
               Assignment.allowResubmission :=
                 match b_allowResubmission body with
                 | Some b => b
                 | None => false
                 end |} in
          let created :=
            {| assignments := assignments store ++ [document []];
               submissions := submissions store;
               nextId := S (nextId store) + List.length qs |} in
          match files with
          | [] => (created, success 201 (document []))
          | _ =>
              match saveFiles "ttls_assignments" files [] with
              | Some saved =>
                  (saveAssignment (document saved) created,
                   success 201 (document saved))
              | None =>
                  (created, failure 500 "Failed to upload attachments")
              end
          end
    | _, _ => (store, failure 500 "Failed to create assignment")
    end.

(** *** PUT /:id *)
Definition update (store : Store) (id : ObjectId) (user : User.t)
    (body : CreateBody) (files : list MulterFile)
  : Store * Response Assignment.t :=
  if negb (authorize [User.teacher; User.admin] user) then
    (store, failure 403 "Not authorized to access this route")
  else
    match findAssignment store id with
    | None => (store, failure 404 "Assignment not found")
    | Some assignment =>
        if negb (Assignment.createdBy assignment =? User.id user)
           && negb (User.role_eqb (User.role_of user) User.admin)
        then (store, failure 403 "Not authorized to edit this assignment")
        else
          (* the new questions and totalPoints, when [questions] is
             truthy; [None] when the document layer refuses them *)
          let questions :=
            match b_questions body with
            | q_absent =>
                Some (Assignment.questions assignment,
                      Assignment.totalPoints assignment, 0)
            | payload =>
                let '(parsedQuestions, totalPoints) :=
                  parseQuestions payload in
                match documentQuestions parsedQuestions with
                | Some qs =>
                    Some (questionDocs (nextId store) qs, totalPoints,
                          List.length qs)
                | None => None
                end
            end in
          let attachments :=
            match files with
            | [] => Some (Assignment.attachments assignment)
            | _ => saveFiles "ttls_assignments" files
                     (Assignment.attachments assignment)
            end in
          match attachments, questions with
          | None, _ => (store, failure 500 "Failed to upload attachments")
          | Some _, None =>
              (store, failure 500 "Failed to update assignment")
          | Some saved, Some (qs, totalPoints, fresh) =>
              let updated :=
                {| Assignment._id := Assignment._id assignment;
                   Assignment.title :=
                     match b_title body with
                     | Some t =>
                         if present t then t
                         else Assignment.title assignment
                     | None => Assignment.title assignment
                     end;
                   Assignment.description :=
                     match b_description body with
                     | Some d => Some d
                     | None => Assignment.description assignment
                     end;
                   Assignment.instructions :=
                     match b_instructions body with
                     | Some i => Some i
                     | None => Assignment.instructions assignment
                     end;
                   Assignment.lesson :=
                     match b_lessonId body with
                     | Some l => Some l
                     | None => Assignment.lesson assignment
                     end;
                   Assignment.type :=
                     match b_type body with
                     | Some k => k
                     | None => Assignment.type assignment
                     end;
                   Assignment.dueDate :=
                     match b_dueDate body with
                     | Some d => Some d
                     | None => Assignment.dueDate assignment
                     end;
                   Assignment.createdBy := Assignment.createdBy assignment;
                   Assignment.attachments := saved;
                   Assignment.questions := qs;
                   Assignment.totalPoints := totalPoints;
                   Assignment.allowAutomaticGrading :=
                     match b_allowAutomaticGrading body with
                     | Some b => b
                     | None => Assignment.allowAutomaticGrading assignment
                     end;
                   Assignment.allowResubmission :=
                     match b_allowResubmission body with
                     | Some b => b
                     | None => Assignment.allowResubmission assignment
                     end |} in
              let saved_store := saveAssignment updated store in
              ({| assignments := assignments saved_store;
                  submissions := submissions saved_store;
                  nextId := nextId store + fresh |},
               success 200 updated)
          end
    end.

(** The file block of one quiz answer: a ['file-upload'] answer naming
    an existing [req.files[fileIndex]] gets that file pushed onto its
    [files]; with Cloudinary a missing buffer or a rejected upload leaves
    the answer as it is (the error is only logged). *)
Definition attachAnswerFile (files : list MulterFile) (answer : RawAnswer.t)
  : RawAnswer.t :=
  let push (file : File) :=
    {| RawAnswer.questionId := RawAnswer.questionId answer;
       RawAnswer.answer := RawAnswer.answer answer;
       RawAnswer.answers := RawAnswer.answers answer;
       RawAnswer.type := RawAnswer.type answer;
       RawAnswer.fileIndex := RawAnswer.fileIndex answer;
       RawAnswer.files := Some (JS.arr_or (RawAnswer.files answer) ++ [file]);
       RawAnswer.isCorrect := RawAnswer.isCorrect answer;
       RawAnswer.points := RawAnswer.points answer;
       RawAnswer.feedback := RawAnswer.feedback answer |} in
  match RawAnswer.type answer, RawAnswer.fileIndex answer with
  | Some kind, Some fileIndex =>
      if String.eqb kind "file-upload" then
        match nth_error files fileIndex with
        | Some f =>
            if hasCloudinary then
              match buffer f with
              | Some b =>
                  match uploadBufferToCloudinary b (originalname f)
                          "ttls_submissions" with
                  | Some uploaded => push (cloudFile f uploaded)
                  | None => answer
                  end
              | None => answer
              end
            else push (localFile f)
        | None => answer
        end
      else answer
  | _, _ => answer
  end.

(** *** POST /:id/submit *)
Definition submit (now : Date) (store : Store) (id : ObjectId)
    (user : User.t) (body : SubmitBody) (files : list MulterFile)
  : Store * Response Submission.t :=
  match findAssignment store id with
  | None => (store, failure 404 "Assignment not found")
  | Some assignment =>
      let existingSubmission := findSubmission store id (User.id user) in
      let isResubmission :=
        match existingSubmission with Some _ => true | None => false end in
      if isResubmission && negb (Assignment.allowResubmission assignment)
      then
        (store,
         failure 400 "Resubmission is not allowed for this assignment")
      else
        let parsedAnswers :=
          match b_answers body with
          | a_items l => l
          | a_absent | a_garbled _ => []
          end in
        let filesSaved :=
          match files with
          | [] => Some []
          | _ => saveFiles "ttls_submissions" files []
          end in
        match filesSaved with
        | None => (store, failure 500 "Failed to upload submission files")
        | Some filesSaved =>
            let parsedAnswers := map (attachAnswerFile files) parsedAnswers in
            let autoGraded :=
              Assignment.is_quiz (Assignment.type assignment)
              && Assignment.allowAutomaticGrading assignment
              && (0 <? List.length parsedAnswers) in
            let gradingResult := autoGradeQuiz assignment parsedAnswers in
            let grade :=
              if autoGraded then Some (totalScore gradingResult) else None in
            let totalPoints :=
              if autoGraded then totalPoints gradingResult
              else JS.or (Assignment.totalPoints assignment) 100%float in
            let parsedAnswers :=
              if autoGraded
              then map (mergeGraded (gradedAnswers gradingResult))
                       parsedAnswers
              else parsedAnswers in
            match castAnswers parsedAnswers with
            | None => (store, failure 500 "Failed to submit")
            | Some answers =>
                match existingSubmission with
                | Some existing =>
                    let submission :=
                      {| Submission._id := Submission._id existing;
                         Submission.assignment :=
                           Submission.assignment existing;
                         Submission.student := Submission.student existing;
                         Submission.content := b_content body;
                         Submission.answers := answers;
                         Submission.files := filesSaved;
                         Submission.grade :=
                           if autoGraded then grade
                           else Submission.grade existing;
                         Submission.totalPoints :=
                           if autoGraded then Some totalPoints
                           else Submission.totalPoints existing;
                         Submission.feedback := Submission.feedback existing;
                         Submission.isGraded :=
                           if autoGraded then true
                           else Submission.isGraded existing;
                         Submission.autoGraded :=
                           Submission.autoGraded existing;
                         Submission.submittedAt := now;
                         Submission.gradedAt :=
                           if autoGraded then Some now
                           else Submission.gradedAt existing;
                         Submission.resubmitted := true;
                         Submission.resubmittedAt := Some now;
                         Submission.previousContent :=
                           Submission.content existing;
                         Submission.previousAnswers :=
                           Submission.answers existing;
                         Submission.previousFiles :=
                           Submission.files existing |} in
                    (saveSubmission submission store,
                     success 201 submission)
                | None =>
                    let submission :=
                      {| Submission._id := nextId store;
                         Submission.assignment := Assignment._id assignment;
                         Submission.student := User.id user;
                         Submission.content := b_content body;
                         Submission.answers := answers;
                         Submission.files := filesSaved;
                         Submission.grade := grade;
                         Submission.totalPoints := Some totalPoints;
                         Submission.feedback := None;
                         Submission.isGraded := autoGraded;
                         Submission.autoGraded := autoGraded;
                         Submission.submittedAt := now;
                         Submission.gradedAt := None;
                         Submission.resubmitted := false;
                         Submission.resubmittedAt := None;
                         Submission.previousContent := None;
                         Submission.previousAnswers := [];
                         Submission.previousFiles := [] |} in
                    ({| assignments := assignments store;
                        submissions := submissions store ++ [submission];
                        nextId := S (nextId store) |},
                     success 201 submission)
                end
            end
        end
  end.

(** *** PUT /:assignmentId/submissions/:submissionId/grade *)
Definition gradeManually (now : Date) (store : Store)
    (assignmentId submissionId : ObjectId) (user : User.t)
    (body : GradeBody) : Store * Response Submission.t :=
  if negb (authorize [User.teacher; User.admin] user) then
    (store, failure 403 "Not authorized to access this route")
  else
    match findSubmissionById store submissionId assignmentId with
    | None => (store, failure 404 "Submission not found")
    | Some submission =>
        (* [.populate('assignment')]: the document, or null *)
        let populated :=
          findAssignment store (Submission.assignment submission) in
        (* the answers and the recomputed total, when per-answer grades
           apply; reading [type] of a null assignment throws *)
        let regraded :=
          match b_gradedAnswers body with
          | Some gradedAnswers =>
              match populated with
              | Some assignment =>
                  if Assignment.is_quiz (Assignment.type assignment) then
                    let answers :=
                      map (overrideAnswer gradedAnswers)
                          (Submission.answers submission) in
                    Some (answers, Some (answersScore answers))
                  else Some (Submission.answers submission, None)
              | None => None
              end
          | None => Some (Submission.answers submission, None)
          end in
        match regraded with
        | None => (store, failure 500 "Failed to grade submission")
        | Some (answers, recomputed) =>
            let graded :=
              {| Submission._id := Submission._id submission;
                 Submission.assignment := Submission.assignment submission;
                 Submission.student := Submission.student submission;
                 Submission.content := Submission.content submission;
                 Submission.answers := answers;
                 Submission.files := Submission.files submission;
                 Submission.grade :=
                   match b_grade body, recomputed with
                   | Some g, _ => Some g
                   | None, Some totalScore => Some totalScore
                   | None, None => Submission.grade submission
                   end;
                 Submission.totalPoints :=
                   Submission.totalPoints submission;
                 Submission.feedback :=
                   match b_feedback body with
                   | Some f => Some f
                   | None => Submission.feedback submission
                   end;
                 Submission.isGraded := true;
                 Submission.autoGraded := Submission.autoGraded submission;
                 Submission.submittedAt := Submission.submittedAt submission;
                 Submission.gradedAt := Some now;
                 Submission.resubmitted := Submission.resubmitted submission;
                 Submission.resubmittedAt :=
                   Submission.resubmittedAt submission;
                 Submission.previousContent :=
                   Submission.previousContent submission;
                 Submission.previousAnswers :=
                   Submission.previousAnswers submission;
                 Submission.previousFiles :=
                   Submission.previousFiles submission |} in
            (saveSubmission graded store, success 200 graded)
        end
    end.

(** *** GET /:id/statistics *)

(** [s.grade !== undefined && s.grade !== null]. *)
Definition hasGrade (s : Submission.t) : bool :=
  match Submission.grade s with Some _ => true | None => false end.

(** A comparison of [s.grade] with a Number; it is false of an absent or
    null grade wherever the route relies on it. *)
Definition gradeIs (test : JS.number -> bool) (s : Submission.t) : bool :=
  match Submission.grade s with Some g => test g | None => false end.

Definition listStatistics (store : Store) (id : ObjectId) (user : User.t)
  : Response Statistics :=
  if negb (authorize [User.teacher; User.admin] user) then
    failure 403 "Not authorized to access this route"
  else
    match findAssignment store id with
    | None => failure 404 "Assignment not found"
    | Some _ =>
        let submissions :=
          filter (fun s => Submission.assignment s =? id)
                 (submissions store) in
        let total := List.length submissions in
        let graded := List.length (filter hasGrade submissions) in
        let average :=
          if 0 <? total then
            JS.or
              (fold_left
                 (fun sum s =>
                    (sum + JS.or_undef (Submission.grade s) 0)%float)
                 (filter hasGrade submissions) 0%float
               / JS.of_nat graded)%float
              0%float
          else 0%float in
        success 200
          {| total := total;
             graded := graded;
             ungraded := total - graded;
             average := (JS.Math_round (average * 100) / 100)%float;
             gradeDistribution :=
               {| excellent :=
                    List.length
                      (filter (gradeIs (fun g => 90 <=? g)%float)
                              submissions);
                  good :=
                    List.length
                      (filter
                         (gradeIs (fun g => (80 <=? g) && (g <? 90))%float)
                         submissions);
                  satisfactory :=
                    List.length
                      (filter
                         (gradeIs (fun g => (70 <=? g) && (g <? 80))%float)
                         submissions);
                  needsImprovement :=
                    List.length
                      (filter (gradeIs (fun g => g <? 70)%float)
                              submissions);
                  d_ungraded :=
                    List.length
                      (filter (fun s => negb (hasGrade s)) submissions) |};
             st_submissions :=
               map (fun s =>
                      {| s_id := Submission._id s;
                         s_student := Submission.student s;
                         s_grade := Submission.grade s;
                         s_submittedAt := Submission.submittedAt s |})
                   submissions |}
    end.

End Routes.

(* ================================================================= *)
(** ** Reading the handlers declaratively *)

(** Lower-casing followed by trimming, as the grader applies to every
    string it compares. *)
Definition normalise (s : string) : string := JS.trim (JS.toLowerCase s).

(** The single answer string the grader reads for a question: that of the
    first answer carrying the question's id, the empty string when there is
    none or it is empty. *)
Definition studentAnswer (answers : list RawAnswer.t) (q : QuizQuestion.t)
  : string :=
  JS.str_or (answerOf (answerFor answers q)) "".

(** The answer list the grader reads for an enumeration question. *)
Definition studentAnswers (answers : list RawAnswer.t) (q : QuizQuestion.t)
  : list string :=
  JS.arr_or (answersOf (answerFor answers q)).

(** The number of entries of [student], duplicates included, that occur in
    [correct]. *)
Fixpoint occurring (correct student : list string) : nat :=
  match student with
  | [] => 0
  | s :: rest =>
      (if in_dec string_dec s correct then 1 else 0) + occurring correct rest
  end.

(** A string made of white space only. *)
Fixpoint blank (s : string) : bool :=
  match s with
  | EmptyString => true
  | String c r => JS.isWhiteSpace c && blank r
  end.

(** The sum of a list of Numbers, accumulated from 0 from the left, as
    [reduce((sum, x) => sum + x, 0)] does. *)
Definition sumOf (xs : list JS.number) : JS.number :=
  fold_left PrimFloat.add xs 0%float.

(** A question whose points are neither [0] nor [NaN], as every question
    built by the create and update routes is. *)
Definition hasPoints (q : QuizQuestion.t) : Prop :=
  JS.truthy (QuizQuestion.points q) = true.

(** The answers a submit request carries. *)
Definition submittedAnswers (body : SubmitBody) : list RawAnswer.t :=
  match b_answers body with
  | a_items l => l
  | a_absent | a_garbled _ => []
  end.

(** The first question of an assignment with a given id. *)
Definition questionWithId (a : Assignment.t) (id : ObjectId)
  : option QuizQuestion.t :=
  find (fun q => QuizQuestion._id q =? id) (Assignment.questions a).

(** What a stored answer owes to a submitted one once the grading result
    is merged in: the same question id and answer, and the correctness and
    points computed for the first question carrying that id (points that
    are [NaN] counting as 0); nothing and 0 points when the assignment has
    no such question. *)
Definition mergedFrom (a : Assignment.t) (answers : list RawAnswer.t)
    (raw : RawAnswer.t) (stored : Answer.t) : Prop :=
  RawAnswer.questionId raw = Some (Answer.questionId stored)
  /\ Answer.answer stored = RawAnswer.answer raw
  /\ Answer.answers stored = JS.arr_or (RawAnswer.answers raw)
  /\ match questionWithId a (Answer.questionId stored) with
     | Some q =>
         let g := gradedAnswer answers q in
         Answer.isCorrect stored = Some (Graded.isCorrect g)
         /\ Answer.points stored = Some (JS.or (Graded.points g) 0%float)
     | None =>
         Answer.isCorrect stored = None
         /\ Answer.points stored = Some 0%float
     end.

(** The number of stored submissions of a student for an assignment. *)
Definition submissionCount (store : Store) (assignment student : ObjectId)
  : nat :=
  List.length
    (filter (fun s => (Submission.assignment s =? assignment)
                      && (Submission.student s =? student))
            (submissions store)).

(** The submissions of an assignment, and the grades of the graded ones. *)
Definition submissionsOf (store : Store) (id : ObjectId)
  : list Submission.t :=
  filter (fun s => Submission.assignment s =? id) (submissions store).

Fixpoint gradesOf (subs : list Submission.t) : list JS.number :=
  match subs with
  | [] => []
  | s :: rest =>
      match Submission.grade s with
      | Some g => g :: gradesOf rest
      | None => gradesOf rest
      end
  end.

(** The mean of a list of grades. *)
Definition mean (grades : list JS.number) : JS.number :=
  (sumOf grades / JS.of_nat (List.length grades))%float.

(** The mean as the statistics route takes it: a grade that is [NaN]
    counts as 0, and so does a mean that is [NaN], as that of no grade
    is. *)
Definition meanOrZero (grades : list JS.number) : JS.number :=
  JS.or (mean (map (fun g => JS.or g 0%float) grades)) 0%float.

(** Rounding to two decimals, [Math.round(x * 100) / 100]. *)
Definition round2 (x : JS.number) : JS.number :=
  (JS.Math_round (x * 100) / 100)%float.

(** The number of submissions whose grade is present and passes a test. *)
Definition countGraded (test : JS.number -> bool) (subs : list Submission.t)
  : nat :=
  List.length
    (filter (fun s => match Submission.grade s with
                      | Some g => test g
                      | None => false
                      end) subs).

(** The number of submissions without a grade. *)
Definition countUngraded (subs : list Submission.t) : nat :=
  List.length
    (filter (fun s => match Submission.grade s with
                      | Some _ => false
                      | None => true
                      end) subs).



(** The invariant of an assignment: [totalPoints] is the sum of the
    points of its questions. *)
Definition totalPointsInvariant (a : Assignment.t) : Prop :=
  Assignment.totalPoints a
  = sumOf (map QuizQuestion.points (Assignment.questions a)).

(** A [questions] payload that is a list of question objects. *)
Definition questionList (l : list RawQuestion.t) : QuestionsPayload :=
  q_items (map Some l).





(* ================================================================= *)
(** ** The [protect] middleware and the reading routes *)

(** The fields of [userSchema] that the middleware and the routes read. *)
Module UserDoc.

Inductive status := pending | approved | rejected | suspended.

Definition is_suspended (s : status) : bool :=
  match s with suspended => true | _ => false end.

Record t := mk {
  _id : ObjectId;
  idNumber : string;
  firstName : string;
  lastName : string;
  email : string;
  role : User.role;
  status_of : status;              (* default: 'pending' *)
  profilePicture : option string
}.

End UserDoc.

(** [User.findById(id)]. *)
Definition findUser (users : list UserDoc.t) (id : ObjectId)
  : option UserDoc.t :=
  find (fun u => UserDoc._id u =? id) users.

(** [s.split(' ')]: the pieces between single spaces, at least one. *)
Fixpoint splitOnSpace (s : string) : list string :=
  match s with
  | EmptyString => [EmptyString]
  | String c r =>
      if Ascii.eqb c " "%char then EmptyString :: splitOnSpace r
      else
        match splitOnSpace r with
        | piece :: pieces => String c piece :: pieces
        | [] => [String c EmptyString]
        end
  end.

(** What a middleware does with a request: hands it on with [req.user]
    set, or answers it. *)
Inductive Guard :=
| next (user : User.t)
| refused (status : nat) (message : string).

Section Protect.

(** [jwt.verify(token, secret)]: the decoded payload, [None] when it
    throws. *)
Variable jwt_verify : string -> option User.t.

(** The middleware [protect], on the [authorization] header. *)
Definition protect (users : list UserDoc.t) (authorization : option string)
  : Guard :=
  let token :=
    match authorization with
    | Some header =>
        if String.prefix "Bearer" header
        then nth_error (splitOnSpace header) 1
        else None
    | None => None
    end in
  match token with
  | None | Some EmptyString =>
      refused 401 "Not authorized to access this route"
  | Some token =>
      match jwt_verify token with
      | None => refused 401 "Not authorized to access this route"
      | Some decoded =>
          match findUser users (User.id decoded) with
          | Some user =>
              if UserDoc.is_suspended (UserDoc.status_of user) then
                refused 403
                  "Your account has been suspended. Please contact admin."
              else next decoded
          | None => next decoded
          end
      end
  end.

End Protect.

(** [docs.sort({ submittedAt: -1 })]: latest first (documents of the same
    date keep their order). *)
Fixpoint insertByDate (s : Submission.t) (sorted : list Submission.t)
  : list Submission.t :=
  match sorted with
  | [] => [s]
  | t :: rest =>
      if (Submission.submittedAt t <=? Submission.submittedAt s)%Z
      then s :: sorted
      else t :: insertByDate s rest
  end.

Definition latestFirst (docs : list Submission.t) : list Submission.t :=
  fold_right insertByDate [] docs.

(** A submission with its [assignment] populated by ['title type']:
    the id, title and type of the assignment, [None] (null) when the
    assignment is gone. *)
Record OwnSubmission := mkOwnSubmission {
  own_submission : Submission.t;
  own_assignment : option (ObjectId * string * Assignment.kind)
}.

(** A submission with its [student] populated by
    ['firstName lastName email idNumber profilePicture']. *)
Record StudentRef := mkStudentRef {
  ref_id : ObjectId;
  ref_firstName : string;
  ref_lastName : string;
  ref_email : string;
  ref_idNumber : string;
  ref_profilePicture : option string
}.

Record ReceivedSubmission := mkReceivedSubmission {
  received_submission : Submission.t;
  received_student : option StudentRef
}.

(** An assignment with its [createdBy] populated by
    ['firstName lastName profilePicture']. *)
Record CreatorRef := mkCreatorRef {
  creator_id : ObjectId;
  creator_firstName : string;
  creator_lastName : string;
  creator_profilePicture : option string
}.

Record FoundAssignment := mkFoundAssignment {
  found_assignment : Assignment.t;
  found_creator : option CreatorRef
}.

(** *** GET /:id *)
Definition getAssignment (users : list UserDoc.t) (store : Store)
    (id : ObjectId) : Response FoundAssignment :=
  match findAssignment store id with
  | Some a =>
      success 200
        {| found_assignment := a;
           found_creator :=
             match findUser users (Assignment.createdBy a) with
             | Some u =>
                 Some {| creator_id := UserDoc._id u;
                         creator_firstName := UserDoc.firstName u;
                         creator_lastName := UserDoc.lastName u;
                         creator_profilePicture := UserDoc.profilePicture u |}
             | None => None
             end |}
  | None => failure 404 "Not found"
  end.

(** *** GET /submissions/student *)
Definition getStudentSubmissions (store : Store) (user : User.t)
    (lessonId : option ObjectId) : Response (list OwnSubmission) :=
  if negb (authorize [User.student] user) then
    failure 403 "Not authorized to access this route"
  else
    let assignmentIds :=
      match lessonId with
      | Some lesson =>
          Some (map Assignment._id
                    (filter (fun a => match Assignment.lesson a with
                                      | Some l => l =? lesson
                                      | None => false
                                      end)
                            (assignments store)))
      | None => None
      end in
    let subs :=
      filter (fun s =>
                (Submission.student s =? User.id user)
                && match assignmentIds with
                   | Some ids =>
                       existsb (Nat.eqb (Submission.assignment s)) ids
                   | None => true
                   end)
             (submissions store) in
    success 200
      (map (fun s =>
              {| own_submission := s;
                 own_assignment :=
                   match findAssignment store (Submission.assignment s) with
                   | Some a =>
                       Some (Assignment._id a, Assignment.title a,
                             Assignment.type a)
                   | None => None
                   end |})
           (latestFirst subs)).

(** *** GET /:id/submissions *)
Definition getSubmissions (users : list UserDoc.t) (store : Store)
    (id : ObjectId) (user : User.t) : Response (list ReceivedSubmission) :=
  if negb (authorize [User.teacher; User.admin] user) then
    failure 403 "Not authorized to access this route"
  else
    success 200
      (map (fun s =>
              {| received_submission := s;
                 received_student :=
                   match findUser users (Submission.student s) with
                   | Some u =>
                       Some {| ref_id := UserDoc._id u;
                               ref_firstName := UserDoc.firstName u;
                               ref_lastName := UserDoc.lastName u;
                               ref_email := UserDoc.email u;
                               ref_idNumber := UserDoc.idNumber u;
                               ref_profilePicture :=
                                 UserDoc.profilePicture u |}
                   | None => None
                   end |})
           (latestFirst
              (filter (fun s => Submission.assignment s =? id)
                      (submissions store)))).

(* ================================================================= *)
(** ** More declarative readings *)

(** The (assignment, student) pair a submission belongs to. *)
Definition pairOf (s : Submission.t) : ObjectId * ObjectId :=
  (Submission.assignment s, Submission.student s).

(** A store as the database keeps it: ids are unique within a collection
    and older than the next id, and no two submissions belong to the same
    (assignment, student) pair. *)
Definition consistent (store : Store) : Prop :=
  NoDup (map Assignment._id (assignments store))
  /\ Forall (fun a => Assignment._id a < nextId store) (assignments store)
  /\ NoDup (map Submission._id (submissions store))
  /\ Forall (fun s => Submission._id s < nextId store) (submissions store)
  /\ NoDup (map pairOf (submissions store)).

(** The question ids a list of submitted answers names, in order. *)
Fixpoint answeredIds (answers : list RawAnswer.t) : list ObjectId :=
  match answers with
  | [] => []
  | x :: rest =>
      match RawAnswer.questionId x with
      | Some id => id :: answeredIds rest
      | None => answeredIds rest
      end
  end.

(** Dates that never increase along a list. *)
Fixpoint newestFirst (docs : list Submission.t) : Prop :=
  match docs with
  | [] => True
  | s :: rest =>
      Forall (fun t =>
                (Submission.submittedAt t <= Submission.submittedAt s)%Z)
             rest
      /\ newestFirst rest
  end.

(** Whether a submit is auto-graded: a quiz with automatic grading and
    at least one answer. *)
Definition gradedOnSubmit (a : Assignment.t) (body : SubmitBody) : bool :=
  Assignment.is_quiz (Assignment.type a)
  && Assignment.allowAutomaticGrading a
  && (0 <? List.length (submittedAnswers body)).

(** What a stored answer keeps of a submitted one that is not graded:
    everything the request says, its own points and correctness
    included. *)
Definition storedAsSent (raw : RawAnswer.t) (stored : Answer.t) : Prop :=
  RawAnswer.questionId raw = Some (Answer.questionId stored)
  /\ Answer.answer stored = RawAnswer.answer raw
  /\ Answer.answers stored = JS.arr_or (RawAnswer.answers raw)
  /\ Answer.isCorrect stored = RawAnswer.isCorrect raw
  /\ Answer.points stored = RawAnswer.points raw
  /\ Answer.feedback stored = RawAnswer.feedback raw.

(** The part of a submission that grading does not touch. *)
Definition sameWork (s t : Submission.t) : Prop :=
  Submission._id t = Submission._id s
  /\ Submission.assignment t = Submission.assignment s
  /\ Submission.student t = Submission.student s
  /\ Submission.content t = Submission.content s
  /\ Submission.files t = Submission.files s
  /\ Submission.totalPoints t = Submission.totalPoints s
  /\ Submission.autoGraded t = Submission.autoGraded s
  /\ Submission.submittedAt t = Submission.submittedAt s
  /\ Submission.resubmitted t = Submission.resubmitted s
  /\ Submission.resubmittedAt t = Submission.resubmittedAt s
  /\ Submission.previousContent t = Submission.previousContent s
  /\ Submission.previousAnswers t = Submission.previousAnswers s
  /\ Submission.previousFiles t = Submission.previousFiles s
  /\ Forall2 (fun x y =>
                Answer.questionId y = Answer.questionId x
                /\ Answer.answer y = Answer.answer x
                /\ Answer.answers y = Answer.answers x
                /\ Answer.files y = Answer.files x)
             (Submission.answers s) (Submission.answers t).

(** The submissions of a store that do not belong to a given
    (assignment, student) pair, and those that do not have a given id. *)
Definition ofOtherPairs (assignment student : ObjectId) (store : Store)
  : list Submission.t :=
  filter (fun s => negb ((Submission.assignment s =? assignment)
                         && (Submission.student s =? student)))
         (submissions store).

Definition otherThan (id : ObjectId) (store : Store) : list Submission.t :=
  filter (fun s => negb (Submission._id s =? id)) (submissions store).

(** Whether a submission is for an assignment of the lesson asked for,
    when one is asked for. *)
Definition inLesson (store : Store) (lessonId : option ObjectId)
    (s : Submission.t) : Prop :=
  match lessonId with
  | Some lesson =>
      exists a : Assignment.t,
        In a (assignments store)
        /\ Assignment._id a = Submission.assignment s
        /\ Assignment.lesson a = Some lesson
  | None => True
  end.

(** A token without a space in it. *)
Fixpoint noSpace (s : string) : bool :=
  match s with
  | EmptyString => true
  | String c r => negb (Ascii.eqb c " "%char) && noSpace r
  end.

(** A user whose account is stored as suspended. *)
Definition suspendedIn (users : list UserDoc.t) (id : ObjectId) : Prop :=
  exists doc : UserDoc.t,
    findUser users id = Some doc
    /\ UserDoc.status_of doc = UserDoc.suspended.

(** What the files of a stored answer are, given the submitted answer:
    the files it came with, followed by at most one file of the request,
    and by one only when the answer is a ['file-upload'] answer whose
    [fileIndex] names that file. *)
Definition filesOfAnswer (files : list MulterFile) (raw : RawAnswer.t)
    (stored : Answer.t) : Prop :=
  exists added : list File,
    Answer.files stored = JS.arr_or (RawAnswer.files raw) ++ added
    /\ List.length added <= 1
    /\ (added <> [] ->
        RawAnswer.type raw = Some "file-upload"
        /\ exists (i : nat) (f : MulterFile),
             RawAnswer.fileIndex raw = Some i
             /\ nth_error files i = Some f
             /\ map filename added = [originalname f]
             /\ map fileType added = [mimetype f]).

(** A request body that supplies nothing. *)
Definition nothingSupplied (body : CreateBody) : Prop :=
  b_title body = None
  /\ b_description body = None
  /\ b_instructions body = None
  /\ b_type body = None
  /\ b_dueDate body = None
  /\ b_lessonId body = None
  /\ b_questions body = q_absent
  /\ b_allowAutomaticGrading body = None
  /\ b_allowResubmission body = None.

(** A file Cloudinary rejects. *)
Definition rejected
    (uploadBufferToCloudinary : string -> string -> string -> option Uploaded)
    (folder : string) (f : MulterFile) : Prop :=
  exists b, buffer f = Some b
            /\ uploadBufferToCloudinary b (originalname f) folder = None.

(** The files that come with a buffer. *)
Definition buffered (files : list MulterFile) : list MulterFile :=
  filter (fun f => match buffer f with Some _ => true | None => false end)
         files.

(* ================================================================= *)
(** ** Sample data *)

Definition noFile : list File := [].

Definition q_capital : QuizQuestion.t :=
  {| QuizQuestion._id := 11;
     QuizQuestion.question := "Capital of France?";
     QuizQuestion.type := QuizQuestion.multiple_choice;
     QuizQuestion.options := ["Paris"; "Rome"];
     QuizQuestion.correctAnswer := Some "paris";
     QuizQuestion.correctAnswers := [];
     QuizQuestion.points := 5%float;
     QuizQuestion.order := 0%float |}.

Definition q_element : QuizQuestion.t :=
  {| QuizQuestion._id := 12;
     QuizQuestion.question := "Element with symbol O?";
     QuizQuestion.type := QuizQuestion.identification;
     QuizQuestion.options := [];
     QuizQuestion.correctAnswer := Some "Oxygen";
     QuizQuestion.correctAnswers := [];
     QuizQuestion.points := 5%float;
     QuizQuestion.order := 1%float |}.

Definition q_letters : QuizQuestion.t :=
  {| QuizQuestion._id := 13;
     QuizQuestion.question := "First three letters?";
     QuizQuestion.type := QuizQuestion.enumeration;
     QuizQuestion.options := [];
     QuizQuestion.correctAnswer := Some "";
     QuizQuestion.correctAnswers := ["a"; "b"; "c"];
     QuizQuestion.points := 3%float;
     QuizQuestion.order := 2%float |}.

Definition q_essay : QuizQuestion.t :=
  {| QuizQuestion._id := 14;
     QuizQuestion.question := "Discuss.";
     QuizQuestion.type := QuizQuestion.essay;
     QuizQuestion.options := [];
     QuizQuestion.correctAnswer := Some "";
     QuizQuestion.correctAnswers := [];
     QuizQuestion.points := 10%float;
     QuizQuestion.order := 3%float |}.

(** A multiple-choice question created without [correctAnswer]. *)
Definition q_unset : QuizQuestion.t :=
  {| QuizQuestion._id := 15;
     QuizQuestion.question := "Pick one.";
     QuizQuestion.type := QuizQuestion.multiple_choice;
     QuizQuestion.options := ["x"; "y"];
     QuizQuestion.correctAnswer := Some "";
     QuizQuestion.correctAnswers := [];
     QuizQuestion.points := 2%float;
     QuizQuestion.order := 4%float |}.

Definition quizOf (id : ObjectId) (questions : list QuizQuestion.t)
    (totalPoints : JS.number) (allowResubmission : bool) : Assignment.t :=
  {| Assignment._id := id;
     Assignment.title := "Quiz";
     Assignment.description := None;
     Assignment.instructions := None;
     Assignment.lesson := None;
     Assignment.type := Assignment.quiz;
     Assignment.dueDate := None;
     Assignment.createdBy := 100;
     Assignment.attachments := [];
     Assignment.questions := questions;
     Assignment.totalPoints := totalPoints;
     Assignment.allowAutomaticGrading := true;
     Assignment.allowResubmission := allowResubmission |}.

Definition quiz : Assignment.t :=
  quizOf 1 [q_capital; q_element; q_letters; q_essay; q_unset] 25%float false.

Definition answerTo (id : ObjectId) (answer : option string)
    (answers : option (list string)) : RawAnswer.t :=
  {| RawAnswer.questionId := Some id;
     RawAnswer.answer := answer;
     RawAnswer.answers := answers;
     RawAnswer.type := None;
     RawAnswer.fileIndex := None;
     RawAnswer.files := None;
     RawAnswer.isCorrect := None;
     RawAnswer.points := None;
     RawAnswer.feedback := None |}.

Definition sheet : list RawAnswer.t :=
  [ answerTo 11 (Some "Paris ") None;
    answerTo 13 None (Some ["a"; "b"]);
    answerTo 15 (Some "   ") None ].

(** A quiz of two questions worth 5 points each, open to resubmission. *)
Definition retake : Assignment.t :=
  quizOf 2 [q_capital; q_element] 10%float true.

(** No Cloudinary account: every upload is rejected. *)
Definition noUpload (_ _ _ : string) : option Uploaded := None.

(** A document layer that refuses whatever is not a question list. *)
Definition refuse (_ : ParsedQuestions) : option (list QuestionInput.t) :=
  None.

(** A document layer that takes an object for a list of one question,
    kept with the defaults of the schema. *)
Definition wrapObject (parsed : ParsedQuestions)
  : option (list QuestionInput.t) :=
  match parsed with
  | raw_value (Jobject _) =>
      Some [ {| QuestionInput.question := "Q1";
                QuestionInput.type := QuizQuestion.essay;
                QuestionInput.options := [];
                QuestionInput.correctAnswer := "";
                QuestionInput.correctAnswers := [];
                QuestionInput.points := 1%float;
                QuestionInput.order := 0%float |} ]
  | _ => None
  end.

Definition school : Store :=
  {| assignments := [quiz; retake]; submissions := []; nextId := 200 |}.

Definition pupil : User.t := {| User.id := 7; User.role_of := User.student |}.

Definition master : User.t :=
  {| User.id := 100; User.role_of := User.teacher |}.

Definition answering (content : option string) (l : list RawAnswer.t)
  : SubmitBody :=
  {| b_content := content; b_answers := a_items l |}.

(** The pupil hands in [sheet] for the quiz. *)
Definition handedIn : Store * Response Submission.t :=
  Eval vm_compute in
    submit false noUpload 1000%Z school 1 pupil (answering None sheet) [].

(** The pupil hands in the quiz without any answer. *)
Definition handedInEmpty : Store * Response Submission.t :=
  Eval vm_compute in
    submit false noUpload 1000%Z school 1 pupil (answering None []) [].

(** Three attempts at the quiz that is open to resubmission. *)
Definition try1 : Store * Response Submission.t :=
  Eval vm_compute in
    submit false noUpload 1000%Z school 2 pupil
      (answering (Some "first")
         [answerTo 11 (Some "paris") None; answerTo 12 (Some "Nitrogen") None])
      [].

Definition try2 : Store * Response Submission.t :=
  Eval vm_compute in
    submit false noUpload 2000%Z (fst try1) 2 pupil
      (answering (Some "second") [answerTo 11 (Some "rome") None]) [].

Definition try3 : Store * Response Submission.t :=
  Eval vm_compute in
    submit false noUpload 3000%Z (fst try2) 2 pupil
      (answering (Some "third") []) [].

(** The submission a response carries, an empty one when it carries
    none. *)
Definition submissionIn (r : Response Submission.t) : Submission.t :=
  match r with
  | success _ data => data
  | failure _ _ =>
      {| Submission._id := 0;
         Submission.assignment := 0;
         Submission.student := 0;
         Submission.content := None;
         Submission.answers := [];
         Submission.files := [];
         Submission.grade := None;
         Submission.totalPoints := None;
         Submission.feedback := None;
         Submission.isGraded := false;
         Submission.autoGraded := false;
         Submission.submittedAt := 0%Z;
         Submission.gradedAt := None;
         Submission.resubmitted := false;
         Submission.resubmittedAt := None;
         Submission.previousContent := None;
         Submission.previousAnswers := [];
         Submission.previousFiles := [] |}
  end.

Definition sheetSubmission : Submission.t :=
  Eval vm_compute in submissionIn (snd handedIn).

Definition submission1 : Submission.t :=
  Eval vm_compute in submissionIn (snd try1).

Definition submission2 : Submission.t :=
  Eval vm_compute in submissionIn (snd try2).

Definition submission3 : Submission.t :=
  Eval vm_compute in submissionIn (snd try3).

(** A first attempt without answers, then a resubmission with one. *)
Definition late1 : Store * Response Submission.t :=
  Eval vm_compute in
    submit false noUpload 1000%Z school 2 pupil (answering None []) [].

Definition late2 : Store * Response Submission.t :=
  Eval vm_compute in
    submit false noUpload 2000%Z (fst late1) 2 pupil
      (answering None [answerTo 11 (Some "paris") None]) [].

(** A grading request that sets the points of question 12 to 3. *)
Definition threeForElement : GradeBody :=
  {| b_grade := None;
     b_feedback := None;
     b_gradedAnswers :=
       Some [ {| GradeEntry.questionId := Some 12;
                 GradeEntry.points := Some 3%float;
                 GradeEntry.feedback := None;
                 GradeEntry.isCorrect := None |} ] |}.

Definition submissionWith (id student assignment : ObjectId)
    (grade : option JS.number) : Submission.t :=
  {| Submission._id := id;
     Submission.assignment := assignment;
     Submission.student := student;
     Submission.content := None;
     Submission.answers := [];
     Submission.files := [];
     Submission.grade := grade;
     Submission.totalPoints := Some 100%float;
     Submission.feedback := None;
     Submission.isGraded :=
       match grade with Some _ => true | None => false end;
     Submission.autoGraded := false;
     Submission.submittedAt := 1000%Z;
     Submission.gradedAt := None;
     Submission.resubmitted := false;
     Submission.resubmittedAt := None;
     Submission.previousContent := None;
     Submission.previousAnswers := [];
     Submission.previousFiles := [] |}.

(** Five submissions: four graded 95, 82, 71 and 60, one not graded. *)
Definition classOfFive : Store :=
  {| assignments := [quiz];
     submissions :=
       [ submissionWith 201 1 1 (Some 95%float);
         submissionWith 202 2 1 (Some 82%float);
         submissionWith 203 3 1 (Some 71%float);
         submissionWith 204 4 1 (Some 60%float);
         submissionWith 205 5 1 None ];
     nextId := 300 |}.

(** Three submissions graded 1, 1 and 2. *)
Definition classOfThree : Store :=
  {| assignments := [quiz];
     submissions :=
       [ submissionWith 201 1 1 (Some 1%float);
         submissionWith 202 2 1 (Some 1%float);
         submissionWith 203 3 1 (Some 2%float) ];
     nextId := 300 |}.

Definition emptyStore : Store :=
  {| assignments := []; submissions := []; nextId := 1 |}.

Definition rawQuestion (text : string) (type : option QuizQuestion.kind)
    (points : option JS.number) : RawQuestion.t :=
  {| RawQuestion.question := Some text;
     RawQuestion.type := type;
     RawQuestion.options := None;
     RawQuestion.correctAnswer := None;
     RawQuestion.correctAnswers := None;
     RawQuestion.points := points;
     RawQuestion.order := None |}.

Definition quizBody (questions : QuestionsPayload) : CreateBody :=
  {| b_title := Some "Quiz";
     b_description := None;
     b_instructions := None;
     b_type := Some Assignment.quiz;
     b_dueDate := None;
     b_lessonId := None;
     b_questions := questions;
     b_allowAutomaticGrading := None;
     b_allowResubmission := None |}.

Definition twoQuestions : list RawQuestion.t :=
  [ rawQuestion "Q1" (Some QuizQuestion.identification) (Some 2%float);
    rawQuestion "Q2" None None ].

(** A payload that is a JSON object, not an array. *)
Definition objectPayload : QuestionsPayload :=
  q_other (Jobject "{ question: Q1, type: essay }").

(** A payload that is not JSON. *)
Definition garbledPayload : QuestionsPayload := q_garbled "[{question:".

Definition created : Store * Response Assignment.t :=
  Eval vm_compute in
    create false noUpload refuse emptyStore master
      (quizBody (questionList twoQuestions)) [].

Definition updated : Store * Response Assignment.t :=
  Eval vm_compute in
    update false noUpload refuse (fst created) 1 master
      (quizBody (questionList [rawQuestion "Q3" None (Some 4%float)])) [].

(** The assignment a response carries, [quiz] when it carries none. *)
Definition assignmentIn (r : Response Assignment.t) : Assignment.t :=
  match r with
  | success _ data => data
  | failure _ _ => quiz
  end.

Definition createdQuiz : Assignment.t :=
  Eval vm_compute in assignmentIn (snd created).

Definition updatedQuiz : Assignment.t :=
  Eval vm_compute in assignmentIn (snd updated).

(** The two questions of [twoQuestions] as the routes normalize them. *)
Definition twoNormalized : list QuestionInput.t :=
  Eval vm_compute in mapi normalizeQuestion twoQuestions 0.

(** Questions stored without [correctAnswer]: one multiple-choice, one
    identification. *)
Definition q_bare : QuizQuestion.t :=
  {| QuizQuestion._id := 16;
     QuizQuestion.question := "Pick one.";
     QuizQuestion.type := QuizQuestion.multiple_choice;
     QuizQuestion.options := ["x"; "y"];
     QuizQuestion.correctAnswer := None;
     QuizQuestion.correctAnswers := [];
     QuizQuestion.points := 2%float;
     QuizQuestion.order := 0%float |}.

Definition q_blank : QuizQuestion.t :=
  {| QuizQuestion._id := 17;
     QuizQuestion.question := "Name it.";
     QuizQuestion.type := QuizQuestion.identification;
     QuizQuestion.options := [];
     QuizQuestion.correctAnswer := None;
     QuizQuestion.correctAnswers := [];
     QuizQuestion.points := 2%float;
     QuizQuestion.order := 1%float |}.

Definition bareQuiz : Assignment.t :=
  quizOf 3 [q_bare; q_blank] 4%float false.

(** An answer that names no question. *)
Definition anonymous : RawAnswer.t :=
  {| RawAnswer.questionId := None;
     RawAnswer.answer := Some "Paris";
     RawAnswer.answers := None;
     RawAnswer.type := None;
     RawAnswer.fileIndex := None;
     RawAnswer.files := None;
     RawAnswer.isCorrect := None;
     RawAnswer.points := None;
     RawAnswer.feedback := None |}.

(** A file as multer keeps it in memory. *)
Definition essayFile : MulterFile :=
  {| originalname := "essay.pdf";
     mimetype := "application/pdf";
     buffer := Some "%PDF-1.4";
     path := None |}.

(** Another teacher. *)
Definition colleague : User.t :=
  {| User.id := 101; User.role_of := User.teacher |}.

(** The stored users: the teacher, the pupil, whose account is still
    pending, and the colleague, whose account is suspended. *)
Definition userDoc (id : ObjectId) (name : string) (role : User.role)
    (status : UserDoc.status) : UserDoc.t :=
  {| UserDoc._id := id;
     UserDoc.idNumber := name;
     UserDoc.firstName := name;
     UserDoc.lastName := name;
     UserDoc.email := name;
     UserDoc.role := role;
     UserDoc.status_of := status;
     UserDoc.profilePicture := None |}.

Definition staff : list UserDoc.t :=
  [ userDoc 100 "master" User.teacher UserDoc.approved;
    userDoc 7 "pupil" User.student UserDoc.pending;
    userDoc 101 "colleague" User.teacher UserDoc.suspended ].

(** A token check that knows three tokens. *)
Definition verify (token : string) : option User.t :=
  if String.eqb token "m" then Some master
  else if String.eqb token "p" then Some pupil
  else if String.eqb token "c" then Some colleague
  else None.

(** A body that supplies nothing. *)
Definition noChange : CreateBody :=
  {| b_title := None;
     b_description := None;
     b_instructions := None;
     b_type := None;
     b_dueDate := None;
     b_lessonId := None;
     b_questions := q_absent;
     b_allowAutomaticGrading := None;
     b_allowResubmission := None |}.

(** An assignment that is not a quiz, sent with questions. *)
Definition homeworkBody : CreateBody :=
  {| b_title := Some "Homework";
     b_description := None;
     b_instructions := None;
     b_type := Some Assignment.assignment;
     b_dueDate := None;
     b_lessonId := None;
     b_questions := questionList twoQuestions;
     b_allowAutomaticGrading := None;
     b_allowResubmission := None |}.

Definition homework : Store * Response Assignment.t :=
  Eval vm_compute in
    create false noUpload refuse emptyStore master homeworkBody [].

(** The master adds a file to the quiz. *)
Definition noted : Store * Response Assignment.t :=
  Eval vm_compute in
    update false noUpload refuse school 1 master noChange [essayFile].

(** The pupil hands in [sheet] where five others have handed in. *)
Definition joined : Store * Response Submission.t :=
  Eval vm_compute in
    submit false noUpload 1000%Z classOfFive 1 pupil (answering None sheet)
      [].

(** The pupil hands in a file. *)
Definition filed : Store * Response Submission.t :=
  Eval vm_compute in
    submit false noUpload 1000%Z school 1 pupil
      (answering (Some "see the file") []) [essayFile].

(** A Cloudinary account that accepts every upload. *)
Definition cloud (_ originalname folder : string) : option Uploaded :=
  Some {| secure_url := "https://res.cloudinary.com/" ++ folder ++ "/"
                        ++ originalname;
          uploaded_public_id := folder ++ "/" ++ originalname |}%string.

(** A file as multer keeps it on disk: it has no buffer. *)
Definition diskFile : MulterFile :=
  {| originalname := "notes.txt";
     mimetype := "text/plain";
     buffer := None;
     path := Some "uploads/notes.txt" |}.

(** An answer to the essay question that refers to the first file of
    the request. *)
Definition uploadAnswer : RawAnswer.t :=
  {| RawAnswer.questionId := Some 14;
     RawAnswer.answer := None;
     RawAnswer.answers := None;
     RawAnswer.type := Some "file-upload";
     RawAnswer.fileIndex := Some 0;
     RawAnswer.files := None;
     RawAnswer.isCorrect := None;
     RawAnswer.points := None;
     RawAnswer.feedback := None |}.

(** The pupil hands in two files, with Cloudinary configured. *)
Definition filedCloud : Store * Response Submission.t :=
  Eval vm_compute in
    submit true cloud 1000%Z school 1 pupil
      (answering (Some "see the files") [uploadAnswer])
      [essayFile; diskFile].

Definition emptySubmission : Submission.t :=
  Eval vm_compute in submissionIn (snd handedInEmpty).

(** The master sets the points of question 12 in the pupil's first
    attempt. *)
Definition marked : Store * Response Submission.t :=
  Eval vm_compute in
    gradeManually 5000%Z (fst try1) 2 200 master threeForElement.

Definition markedSubmission : Submission.t :=
  Eval vm_compute in submissionIn (snd marked).

(** The statistics a response carries, empty ones when it carries
    none. *)
Definition statisticsIn (r : Response Statistics) : Statistics :=
  match r with
  | success _ data => data
  | failure _ _ =>
      {| total := 0;
         graded := 0;
         ungraded := 0;
         average := 0%float;
         gradeDistribution :=
           {| excellent := 0;
              good := 0;
              satisfactory := 0;
              needsImprovement := 0;
              d_ungraded := 0 |};
         st_submissions := [] |}
  end.

Definition fiveStatistics : Statistics :=
  Eval vm_compute in statisticsIn (listStatistics classOfFive 1 master).

(** The homework, handed in by the pupil and not graded yet. *)
Definition homeworkDoc : Assignment.t :=
  Eval vm_compute in assignmentIn (snd homework).

Definition homeworkStore : Store :=
  {| assignments := [homeworkDoc];
     submissions := [submissionWith 201 7 1 None];
     nextId := 300 |}.

(** A grading request that carries a remark and no grade. *)
Definition onlyFeedback : GradeBody :=
  {| b_grade := None;
     b_feedback := Some "Well done";
     b_gradedAnswers := None |}.

Definition remarked : Store * Response Submission.t :=
  Eval vm_compute in
    gradeManually 5000%Z homeworkStore 1 201 master onlyFeedback.

(* ================================================================= *)
(** ** Properties of the auto-grader *)

Lemma includes_In (xs : list string) (x : string) :
  JS.includes xs x = true <-> In x xs.
Proof.
  unfold JS.includes. rewrite existsb_exists. split.
  - intros [y [Hy Heq]]. apply String.eqb_eq in Heq. now subst.
  - intros H. exists x. split; [assumption | apply String.eqb_refl].
Qed.

Lemma correctCount_occurring (correct student : list string) :
  correctCount correct student = occurring correct student.
Proof.
  unfold correctCount.
  induction student as [|s rest IH]; simpl; [reflexivity|].
  destruct (in_dec string_dec s correct) as [Hin|Hout].
  - apply includes_In in Hin. rewrite Hin. simpl. now rewrite IH.
  - destruct (JS.includes correct s) eqn:E.
    + apply includes_In in E. contradiction.
    + exact IH.
Qed.

Lemma gradeStep_fold (answers : list RawAnswer.t)
    (questions : list QuizQuestion.t) (acc : GradingResult) :
  let r := fold_left (gradeStep answers) questions acc in
  gradedAnswers r = gradedAnswers acc ++ map (gradedAnswer answers) questions
  /\ totalScore r
     = fold_left PrimFloat.add
         (map (fun q => Graded.points (gradedAnswer answers q)) questions)
         (totalScore acc)
  /\ totalPoints r
     = fold_left PrimFloat.add
         (map (fun q => JS.or (QuizQuestion.points q) 1%float) questions)
         (totalPoints acc).
Proof.
  revert acc. induction questions as [|q rest IH]; intros acc; simpl.
  - now rewrite app_nil_r.
  - destruct (IH (gradeStep answers acc q)) as (Hg & Hs & Hp).
    rewrite Hg, Hs, Hp. simpl. now rewrite <- app_assoc.
Qed.

Lemma autoGradeQuiz_gradedAnswers (a : Assignment.t)
    (answers : list RawAnswer.t) :
  gradedAnswers (autoGradeQuiz a answers)
  = map (gradedAnswer answers) (Assignment.questions a).
Proof.
  unfold autoGradeQuiz.
  destruct (Assignment.questions a) as [|q rest] eqn:E; [reflexivity|].
  now destruct (gradeStep_fold answers (q :: rest)
                  {| totalScore := 0%float; totalPoints := 0%float;
                     gradedAnswers := [] |}) as (Hg & _).
Qed.

Lemma autoGradeQuiz_nth (a : Assignment.t) (answers : list RawAnswer.t)
    (i : nat) (q : QuizQuestion.t) :
  nth_error (Assignment.questions a) i = Some q ->
  nth_error (gradedAnswers (autoGradeQuiz a answers)) i
  = Some (gradedAnswer answers q).
Proof.
  intros H. rewrite autoGradeQuiz_gradedAnswers.
  now rewrite nth_error_map, H.
Qed.

Lemma autoGradeQuiz_totalScore (a : Assignment.t)
    (answers : list RawAnswer.t) :
  totalScore (autoGradeQuiz a answers)
  = sumOf (map Graded.points (gradedAnswers (autoGradeQuiz a answers))).
Proof.
  rewrite autoGradeQuiz_gradedAnswers, map_map. unfold autoGradeQuiz, sumOf.
  destruct (Assignment.questions a) as [|q rest] eqn:E; [reflexivity|].
  now destruct (gradeStep_fold answers (q :: rest)
                  {| totalScore := 0%float; totalPoints := 0%float;
                     gradedAnswers := [] |}) as (_ & Hs & _).
Qed.

Lemma autoGradeQuiz_totalPoints (a : Assignment.t)
    (answers : list RawAnswer.t) :
  totalPoints (autoGradeQuiz a answers)
  = sumOf (map (fun q => JS.or (QuizQuestion.points q) 1%float)
             (Assignment.questions a)).
Proof.
  unfold autoGradeQuiz, sumOf.
  destruct (Assignment.questions a) as [|q rest] eqn:E; [reflexivity|].
  now destruct (gradeStep_fold answers (q :: rest)
                  {| totalScore := 0%float; totalPoints := 0%float;
                     gradedAnswers := [] |}) as (_ & _ & Hp).
Qed.

Lemma or_hasPoints (q : QuizQuestion.t) :
  hasPoints q -> JS.or (QuizQuestion.points q) 1%float = QuizQuestion.points q.
Proof. unfold hasPoints, JS.or. now intros ->. Qed.

Lemma str_or_some (s : string) : JS.str_or (Some s) "" = s.
Proof. now destruct s. Qed.

(** C1: an enumeration question earns the fraction of its points given by
    the number of student answers (lower-cased and trimmed, duplicates
    counted) found among the lower-cased, trimmed correct answers, over the
    number of correct answers; it is marked correct exactly when that
    number and the number of student answers both equal the number of
    correct answers; with no correct answer it earns 0 and is marked
    incorrect. *)
Theorem autoGradeQuiz_enumeration
    (a : Assignment.t) (answers : list RawAnswer.t)
    (i : nat) (q : QuizQuestion.t) :
  nth_error (Assignment.questions a) i = Some q ->
  QuizQuestion.type q = QuizQuestion.enumeration ->
  hasPoints q ->
  let correct := map normalise (QuizQuestion.correctAnswers q) in
  let student := map normalise (studentAnswers answers q) in
  let correctCount := occurring correct student in
  exists g : Graded.t,
    nth_error (gradedAnswers (autoGradeQuiz a answers)) i = Some g
    /\ Graded.questionId g = QuizQuestion._id q
    /\ (QuizQuestion.correctAnswers q <> [] ->
        Graded.points g
        = (JS.of_nat correctCount / JS.of_nat (List.length correct)
           * QuizQuestion.points q)%float
        /\ (Graded.isCorrect g = Some true <->
            correctCount = List.length correct
            /\ List.length student = List.length correct)
        /\ (Graded.isCorrect g = Some false <->
            ~ (correctCount = List.length correct
               /\ List.length student = List.length correct)))
    /\ (QuizQuestion.correctAnswers q = [] ->
        Graded.points g = 0%float /\ Graded.isCorrect g = Some false).
Proof.
  intros Hnth Htype Hpts correct student n.
  exists (gradedAnswer answers q).
  split; [now apply autoGradeQuiz_nth|].
  split; [reflexivity|].
  unfold gradedAnswer, gradeQuestion. rewrite Htype.
  fold (studentAnswers answers q). fold normalise. fold correct student.
  rewrite correctCount_occurring. fold n. rewrite (or_hasPoints q Hpts).
  split.
  - intros Hne.
    assert (Hpos : (0 <? List.length correct) = true).
    { apply Nat.ltb_lt. unfold correct. rewrite length_map.
      destruct (QuizQuestion.correctAnswers q); [congruence | simpl; lia]. }
    rewrite Hpos. simpl. split; [reflexivity|].
    destruct (Nat.eqb_spec n (List.length correct));
      destruct (Nat.eqb_spec (List.length student) (List.length correct));
      simpl; split; split; intros H;
      first [discriminate H | reflexivity | tauto].
  - intros Hnil. unfold correct. rewrite Hnil. simpl. now split.
Qed.

Lemma studentAnswer_unanswered (answers : list RawAnswer.t)
    (q : QuizQuestion.t) :
  answerFor answers q = None -> studentAnswer answers q = "".
Proof. unfold studentAnswer. now intros ->. Qed.

Lemma gradeQuestion_single (q : QuizQuestion.t) (answer : option RawAnswer.t)
    (c : string) :
  QuizQuestion.type q = QuizQuestion.multiple_choice
  \/ QuizQuestion.type q = QuizQuestion.identification ->
  QuizQuestion.correctAnswer q = Some c ->
  gradeQuestion q answer
  = let isCorrect :=
      String.eqb (normalise (JS.str_or (answerOf answer) "")) (normalise c) in
    (Some isCorrect,
     if isCorrect then JS.or (QuizQuestion.points q) 1%float else 0%float).
Proof.
  intros [Ht|Ht] Hc; unfold gradeQuestion, normalise; rewrite Ht, Hc;
    simpl JS.String_; rewrite ?str_or_some; reflexivity.
Qed.

(** C2: a multiple-choice or identification question is marked correct,
    with its full points, exactly when the student's answer string (the
    empty string when the question has no answer) equals the correct answer
    after lower-casing and trimming, and earns 0 otherwise; an essay or
    file-upload question is marked unknown (null) with 0 points. *)
Theorem autoGradeQuiz_single_answer
    (a : Assignment.t) (answers : list RawAnswer.t)
    (i : nat) (q : QuizQuestion.t) :
  nth_error (Assignment.questions a) i = Some q ->
  exists g : Graded.t,
    nth_error (gradedAnswers (autoGradeQuiz a answers)) i = Some g
    /\ Graded.questionId g = QuizQuestion._id q
    /\ (QuizQuestion.type q = QuizQuestion.multiple_choice
        \/ QuizQuestion.type q = QuizQuestion.identification ->
        forall c : string,
          QuizQuestion.correctAnswer q = Some c ->
          hasPoints q ->
          (normalise (studentAnswer answers q) = normalise c ->
           Graded.isCorrect g = Some true
           /\ Graded.points g = QuizQuestion.points q)
          /\ (normalise (studentAnswer answers q) <> normalise c ->
              Graded.isCorrect g = Some false
              /\ Graded.points g = 0%float))
    /\ (QuizQuestion.type q = QuizQuestion.essay
        \/ QuizQuestion.type q = QuizQuestion.file_upload ->
        Graded.isCorrect g = None /\ Graded.points g = 0%float)
    /\ (answerFor answers q = None -> studentAnswer answers q = "").
Proof.
  intros Hnth. exists (gradedAnswer answers q).
  split; [now apply autoGradeQuiz_nth|].
  split; [reflexivity|].
  split; [|split; [|apply studentAnswer_unanswered]].
  - intros Ht c Hc Hpts. unfold gradedAnswer.
    rewrite (gradeQuestion_single q _ c Ht Hc).
    fold (studentAnswer answers q). cbv zeta. rewrite (or_hasPoints q Hpts).
    destruct (String.eqb_spec (normalise (studentAnswer answers q))
                (normalise c)) as [Heq|Hne]; simpl; split; intros H;
      first [contradiction | now split].
  - intros [Ht|Ht]; unfold gradedAnswer, gradeQuestion; rewrite Ht;
      now split.
Qed.

Lemma whiteSpace_not_upper (c : ascii) :
  JS.isWhiteSpace c = true -> JS.lowerChar c = c.
Proof.
  destruct c as [b0 b1 b2 b3 b4 b5 b6 b7].
  destruct b0, b1, b2, b3, b4, b5, b6, b7;
    intros H; first [discriminate H | reflexivity].
Qed.

Lemma normalise_blank (s : string) : blank s = true -> normalise s = "".
Proof.
  unfold normalise, JS.trim. intros H.
  assert (Hs : JS.trimStart (JS.toLowerCase s) = "").
  { induction s as [|c r IH]; [reflexivity|].
    simpl in H. apply andb_prop in H. destruct H as [Hc Hr].
    simpl. rewrite (whiteSpace_not_upper c Hc), Hc. now apply IH. }
  now rewrite Hs.
Qed.

Lemma str_or_blank (x : option string) :
  match x with None => True | Some s => blank s = true end ->
  blank (JS.str_or x "") = true.
Proof. destruct x as [[|c r]|]; simpl; auto. Qed.

(** C10: when the correct answer of a multiple-choice or identification
    question is the empty string, a student who gives no answer, or an
    answer made of white space only, is marked correct and earns the full
    points of the question. *)
Theorem autoGradeQuiz_empty_correct_answer
    (a : Assignment.t) (answers : list RawAnswer.t)
    (i : nat) (q : QuizQuestion.t) :
  nth_error (Assignment.questions a) i = Some q ->
  QuizQuestion.type q = QuizQuestion.multiple_choice
  \/ QuizQuestion.type q = QuizQuestion.identification ->
  QuizQuestion.correctAnswer q = Some "" ->
  hasPoints q ->
  match answerOf (answerFor answers q) with
  | None => True
  | Some s => blank s = true
  end ->
  exists g : Graded.t,
    nth_error (gradedAnswers (autoGradeQuiz a answers)) i = Some g
    /\ Graded.isCorrect g = Some true
    /\ Graded.points g = QuizQuestion.points q.
Proof.
  intros Hnth Ht Hc Hpts Hblank. exists (gradedAnswer answers q).
  split; [now apply autoGradeQuiz_nth|].
  unfold gradedAnswer. rewrite (gradeQuestion_single q _ "" Ht Hc).
  cbv zeta. rewrite (normalise_blank _ (str_or_blank _ Hblank)).
  rewrite (or_hasPoints q Hpts). now split.
Qed.

(** The empty correct answer is what the routes store when the creator
    gives none. *)
Lemma normalizeQuestion_unset (raw : RawQuestion.t) (index : nat) :
  RawQuestion.correctAnswer raw = None ->
  QuestionInput.correctAnswer (normalizeQuestion raw index) = "".
Proof. unfold normalizeQuestion. simpl. now intros ->. Qed.

(* ================================================================= *)
(** ** Properties of the collections *)

Lemma findAssignment_id (store : Store) (id : ObjectId) (a : Assignment.t) :
  findAssignment store id = Some a -> Assignment._id a = id.
Proof.
  unfold findAssignment. intros H. apply find_some in H.
  now apply Nat.eqb_eq.
Qed.

Lemma saveDoc_find {A : Type} (P same : A -> bool) (doc found : A)
    (docs : list A) :
  find P docs = Some found ->
  same found = true ->
  P doc = true ->
  find P (saveDoc same doc docs) = Some doc.
Proof.
  intros Hfound Hsame Hdoc.
  induction docs as [|d rest IH]; simpl in *; [discriminate|].
  destruct (P d) eqn:Ep.
  - injection Hfound as ->. rewrite Hsame. simpl. now rewrite Hdoc.
  - destruct (same d); simpl.
    + now rewrite Hdoc.
    + rewrite Ep. now apply IH.
Qed.

Lemma saveDoc_length {A : Type} (same : A -> bool) (doc : A)
    (docs : list A) :
  List.length (saveDoc same doc docs) = List.length docs.
Proof.
  induction docs as [|d rest IH]; simpl; [reflexivity|].
  destruct (same d); simpl; now rewrite ?IH.
Qed.


Lemma find_none_count {A : Type} (P : A -> bool) (l : list A) :
  find P l = None -> List.length (filter P l) = 0.
Proof.
  induction l as [|x rest IH]; simpl; [reflexivity|].
  destruct (P x); [discriminate | exact IH].
Qed.

Lemma find_app_new {A : Type} (P : A -> bool) (l : list A) (x : A) :
  find P l = None -> P x = true -> find P (l ++ [x]) = Some x.
Proof.
  induction l as [|y rest IH]; simpl; intros Hnone Hx.
  - now rewrite Hx.
  - destruct (P y); [discriminate | now apply IH].
Qed.

Lemma find_map_key {A B : Type} (key : B -> bool) (f : A -> B)
    (l : list A) :
  find key (map f l) = option_map f (find (fun x => key (f x)) l).
Proof.
  induction l as [|x rest IH]; simpl; [reflexivity|].
  now destruct (key (f x)).
Qed.


(* ================================================================= *)
(** ** Properties of submission *)

Section SubmitProperties.

Variable hasCloudinary : bool.
Variable uploadBufferToCloudinary :
  string -> string -> string -> option Uploaded.

Local Abbreviation submit_ :=
  (submit hasCloudinary uploadBufferToCloudinary).
Local Abbreviation attach_ :=
  (attachAnswerFile hasCloudinary uploadBufferToCloudinary).

Lemma submit_rejects_resubmission (now : Date) (store : Store)
    (id : ObjectId) (user : User.t) (body : SubmitBody)
    (files : list MulterFile) (a : Assignment.t) (existing : Submission.t) :
  findAssignment store id = Some a ->
  findSubmission store id (User.id user) = Some existing ->
  Assignment.allowResubmission a = false ->
  submit_ now store id user body files
  = (store, failure 400 "Resubmission is not allowed for this assignment").
Proof.
  intros Ha He Hno. unfold submit. now rewrite Ha, He, Hno.
Qed.

(** A first submission that succeeds appends one document for the pair
    and leaves the assignments as they are. *)
Lemma submit_first (now : Date) (store store' : Store)
    (id : ObjectId) (user : User.t) (body : SubmitBody)
    (files : list MulterFile) (s : Submission.t) (code : nat) :
  findSubmission store id (User.id user) = None ->
  submit_ now store id user body files = (store', success code s) ->
  assignments store' = assignments store
  /\ submissions store' = submissions store ++ [s]
  /\ Submission.assignment s = id
  /\ Submission.student s = User.id user.
Proof.
  intros Hnone H. unfold submit in H.
  destruct (findAssignment store id) as [a|] eqn:Ha; [|discriminate H].
  rewrite Hnone in H. simpl in H.
  destruct (match files with
            | [] => Some []
            | _ :: _ => saveFiles hasCloudinary uploadBufferToCloudinary
                          "ttls_submissions" files []
            end) as [saved|]; [|discriminate H].
  match type of H with
  | context [castAnswers ?l] => destruct (castAnswers l) as [answers|]
  end; [|discriminate H].
  injection H as <- _ <-. simpl.
  repeat split. now apply findAssignment_id in Ha.
Qed.

(** C4: once a submission exists for an (assignment, student) pair and
    the assignment does not allow resubmission, a further submit fails
    with status 400 and leaves the store as it is; hence, of two submit
    calls for such a pair starting without a submission, the first one
    succeeding, the second fails and exactly one submission is stored. *)
Theorem submit_only_once (now1 now2 : Date) (store : Store)
    (id : ObjectId) (user : User.t) (body1 body2 : SubmitBody)
    (files1 files2 : list MulterFile) (a : Assignment.t) :
  findAssignment store id = Some a ->
  Assignment.allowResubmission a = false ->
  (findSubmission store id (User.id user) <> None ->
   submit_ now1 store id user body1 files1
   = (store,
      failure 400 "Resubmission is not allowed for this assignment"))
  /\ (findSubmission store id (User.id user) = None ->
      forall (store1 : Store) (s1 : Submission.t),
        submit_ now1 store id user body1 files1 = (store1, success 201 s1) ->
        submit_ now2 store1 id user body2 files2
        = (store1,
           failure 400 "Resubmission is not allowed for this assignment")
        /\ submissionCount store1 id (User.id user) = 1).
Proof.
  intros Ha Hno. split.
  - destruct (findSubmission store id (User.id user)) as [existing|] eqn:He;
      [intros _ | congruence].
    now apply (submit_rejects_resubmission now1 store id user body1 files1
                 a existing).
  - intros Hnone store1 s1 H1.
    destruct (submit_first now1 store store1 id user body1 files1 s1 201
                Hnone H1) as (Has & Hsubs & Hsa & Hss).
    assert (Hkey : (Submission.assignment s1 =? id)
                   && (Submission.student s1 =? User.id user) = true).
    { rewrite Hsa, Hss, !Nat.eqb_refl. reflexivity. }
    split.
    + apply (submit_rejects_resubmission now2 store1 id user body2 files2
               a s1); [ | | exact Hno].
      * unfold findAssignment in *. now rewrite Has.
      * unfold findSubmission in *. rewrite Hsubs.
        now apply find_app_new.
    + unfold submissionCount. rewrite Hsubs, filter_app, length_app.
      unfold findSubmission in Hnone.
      rewrite (find_none_count _ _ Hnone). simpl. now rewrite Hkey.
Qed.

(** A resubmission that succeeds: the stored document, field by field. *)
Lemma submit_again (now : Date) (store store' : Store)
    (id : ObjectId) (user : User.t) (body : SubmitBody)
    (files : list MulterFile) (existing s : Submission.t) (code : nat) :
  findSubmission store id (User.id user) = Some existing ->
  submit_ now store id user body files = (store', success code s) ->
  store' = saveSubmission s store
  /\ Submission._id s = Submission._id existing
  /\ Submission.assignment s = Submission.assignment existing
  /\ Submission.student s = Submission.student existing
  /\ Submission.content s = b_content body
  /\ Submission.submittedAt s = now
  /\ Submission.resubmitted s = true
  /\ Submission.resubmittedAt s = Some now
  /\ Submission.previousContent s = Submission.content existing
  /\ Submission.previousAnswers s = Submission.answers existing
  /\ Submission.previousFiles s = Submission.files existing.
Proof.
  intros He H. unfold submit in H.
  destruct (findAssignment store id) as [a|] eqn:Ha; [|discriminate H].
  rewrite He in H.
  destruct (true && negb (Assignment.allowResubmission a));
    [discriminate H|].
  destruct (match files with
            | [] => Some []
            | _ :: _ => saveFiles hasCloudinary uploadBufferToCloudinary
                          "ttls_submissions" files []
            end) as [saved|]; [|discriminate H].
  match type of H with
  | context [castAnswers ?l] => destruct (castAnswers l) as [answers|]
  end; [|discriminate H].
  injection H as <- _ <-. simpl. repeat split.
Qed.

Lemma findSubmission_key (store : Store) (id student : ObjectId)
    (s : Submission.t) :
  findSubmission store id student = Some s ->
  Submission.assignment s = id /\ Submission.student s = student.
Proof.
  unfold findSubmission. intros H. apply find_some in H.
  destruct H as [_ H]. apply andb_prop in H.
  now rewrite !Nat.eqb_eq in H.
Qed.

(** The submission a successful submit answers with is the one stored
    for the pair. *)
Lemma submit_stored (now : Date) (store store' : Store)
    (id : ObjectId) (user : User.t) (body : SubmitBody)
    (files : list MulterFile) (s : Submission.t) (code : nat) :
  submit_ now store id user body files = (store', success code s) ->
  findSubmission store' id (User.id user) = Some s.
Proof.
  intros H.
  destruct (findSubmission store id (User.id user)) as [existing|] eqn:He.
  - destruct (submit_again now store store' id user body files existing s
                code He H) as (Hst & Hid & Hsa & Hss & _).
    destruct (findSubmission_key store id (User.id user) existing He)
      as [Hka Hks].
    rewrite Hst. unfold findSubmission, saveSubmission. simpl.
    apply (saveDoc_find _ _ s existing); [exact He | | ].
    + rewrite Hid. apply Nat.eqb_refl.
    + rewrite Hsa, Hss, Hka, Hks, !Nat.eqb_refl. reflexivity.
  - destruct (submit_first now store store' id user body files s code
                He H) as (_ & Hsubs & Hsa & Hss).
    unfold findSubmission in *. rewrite Hsubs.
    apply find_app_new; [exact He|].
    rewrite Hsa, Hss, !Nat.eqb_refl. reflexivity.
Qed.

(** C5: a resubmission stores, as the previous content, answers and
    files, those of the attempt it replaces, marks the submission
    resubmitted and dates both the submission and the resubmission now;
    the document is updated in place.  After a second resubmission the
    previous content, answers and files are those of the first
    resubmission, whatever the original attempt was. *)
Theorem submit_keeps_one_previous (now : Date) (store store' : Store)
    (id : ObjectId) (user : User.t) (body : SubmitBody)
    (files : list MulterFile) (existing s : Submission.t) :
  findSubmission store id (User.id user) = Some existing ->
  submit_ now store id user body files = (store', success 201 s) ->
  (Submission.previousContent s = Submission.content existing
   /\ Submission.previousAnswers s = Submission.answers existing
   /\ Submission.previousFiles s = Submission.files existing
   /\ Submission.resubmitted s = true
   /\ Submission.resubmittedAt s = Some now
   /\ Submission.submittedAt s = now
   /\ Submission.content s = b_content body
   /\ findSubmission store' id (User.id user) = Some s
   /\ List.length (submissions store') = List.length (submissions store))
  /\ forall (now2 : Date) (body2 : SubmitBody) (files2 : list MulterFile)
            (store2 : Store) (s2 : Submission.t),
      submit_ now2 store' id user body2 files2 = (store2, success 201 s2) ->
      Submission.previousContent s2 = b_content body
      /\ Submission.previousAnswers s2 = Submission.answers s
      /\ Submission.previousFiles s2 = Submission.files s
      /\ findSubmission store2 id (User.id user) = Some s2
      /\ List.length (submissions store2) = List.length (submissions store).
Proof.
  assert (Hone : forall now store store' body files existing s,
    findSubmission store id (User.id user) = Some existing ->
    submit_ now store id user body files = (store', success 201 s) ->
    Submission.previousContent s = Submission.content existing
    /\ Submission.previousAnswers s = Submission.answers existing
    /\ Submission.previousFiles s = Submission.files existing
    /\ Submission.resubmitted s = true
    /\ Submission.resubmittedAt s = Some now
    /\ Submission.submittedAt s = now
    /\ Submission.content s = b_content body
    /\ findSubmission store' id (User.id user) = Some s
    /\ List.length (submissions store') = List.length (submissions store)).
  { clear. intros now store store' body files existing s He H.
    destruct (submit_again now store store' id user body files existing s
                201 He H)
      as (Hst & Hid & Hsa & Hss & Hc & Hat & Hre & Hrat & Hpc & Hpa & Hpf).
    repeat split; try assumption.
    - now apply (submit_stored now store store' id user body files s 201).
    - rewrite Hst. unfold saveSubmission. simpl. apply saveDoc_length. }
  intros He H.
  pose proof (Hone now store store' body files existing s He H) as H1.
  split; [exact H1|].
  intros now2 body2 files2 store2 s2 H2.
  destruct H1 as (_ & _ & _ & _ & _ & _ & Hc & Hfound & Hlen).
  destruct (Hone now2 store' store2 body2 files2 s s2 Hfound H2)
    as (Hpc & Hpa & Hpf & _ & _ & _ & _ & Hfound2 & Hlen2).
  rewrite Hpc, Hc, Hlen2, Hlen. repeat split; assumption.
Qed.

(** Attaching an uploaded file to an answer changes its [files] only. *)
Lemma attach_fields (files : list MulterFile) (x : RawAnswer.t) :
  RawAnswer.questionId (attach_ files x) = RawAnswer.questionId x
  /\ RawAnswer.answer (attach_ files x) = RawAnswer.answer x
  /\ RawAnswer.answers (attach_ files x) = RawAnswer.answers x.
Proof.
  unfold attachAnswerFile.
  destruct (RawAnswer.type x) as [kind|]; [|now repeat split].
  destruct (RawAnswer.fileIndex x) as [n|]; [|now repeat split].
  destruct (String.eqb kind "file-upload"); [|now repeat split].
  destruct (nth_error files n) as [f|]; [|now repeat split].
  destruct hasCloudinary; [|now repeat split].
  destruct (buffer f) as [b|]; [|now repeat split].
  now destruct (uploadBufferToCloudinary b (originalname f)
                  "ttls_submissions").
Qed.

Lemma answerFor_attach (files : list MulterFile) (l : list RawAnswer.t)
    (q : QuizQuestion.t) :
  answerFor (map (attach_ files) l) q
  = option_map (attach_ files) (answerFor l q).
Proof.
  unfold answerFor. rewrite find_map_key. f_equal.
  induction l as [|x rest IH]; simpl; [reflexivity|].
  destruct (attach_fields files x) as (-> & _). now rewrite IH.
Qed.

Lemma gradedAnswer_attach (files : list MulterFile) (l : list RawAnswer.t)
    (q : QuizQuestion.t) :
  gradedAnswer (map (attach_ files) l) q = gradedAnswer l q.
Proof.
  assert (Ha : answerOf (answerFor (map (attach_ files) l) q)
               = answerOf (answerFor l q)).
  { rewrite answerFor_attach. destruct (answerFor l q) as [x|]; simpl;
      [apply attach_fields | reflexivity]. }
  assert (Hs : answersOf (answerFor (map (attach_ files) l) q)
               = answersOf (answerFor l q)).
  { rewrite answerFor_attach. destruct (answerFor l q) as [x|]; simpl;
      [apply attach_fields | reflexivity]. }
  unfold gradedAnswer, gradeQuestion. now rewrite Ha, Hs.
Qed.

Lemma autoGradeQuiz_attach (files : list MulterFile) (a : Assignment.t)
    (l : list RawAnswer.t) :
  autoGradeQuiz a (map (attach_ files) l) = autoGradeQuiz a l.
Proof.
  assert (Hfold : forall qs acc,
            fold_left (gradeStep (map (attach_ files) l)) qs acc
            = fold_left (gradeStep l) qs acc).
  { induction qs as [|q rest IH]; intros acc; simpl; [reflexivity|].
    rewrite IH. unfold gradeStep. now rewrite gradedAnswer_attach. }
  unfold autoGradeQuiz. destruct (Assignment.questions a); [reflexivity|].
  apply Hfold.
Qed.

Lemma merged_answers (files : list MulterFile) (a : Assignment.t)
    (answers l : list RawAnswer.t) (stored : list Answer.t) :
  castAnswers
    (map (mergeGraded (gradedAnswers (autoGradeQuiz a answers)))
         (map (attach_ files) l)) = Some stored ->
  Forall2 (mergedFrom a answers) l stored.
Proof.
  revert stored. induction l as [|x rest IH]; intros stored H; simpl in H.
  - injection H as <-. constructor.
  - match type of H with
    | context [castAnswer ?y] => destruct (castAnswer y) as [d|] eqn:Ed
    end; [|discriminate H].
    match type of H with
    | context [castAnswers ?ys] => destruct (castAnswers ys) as [ds|] eqn:Eds
    end; [|discriminate H].
    injection H as <-. constructor; [|now apply IH].
    unfold castAnswer, mergeGraded in Ed. simpl in Ed.
    destruct (attach_fields files x) as (Hq & Ha & Hs).
    rewrite Hq, Ha, Hs in Ed.
    destruct (RawAnswer.questionId x) as [qid|] eqn:Eq; [|discriminate Ed].
    injection Ed as <-. unfold mergedFrom. simpl.
    repeat split; [exact Eq|].
    rewrite autoGradeQuiz_gradedAnswers, find_map_key. simpl.
    unfold questionWithId.
    now destruct (find (fun q => QuizQuestion._id q =? qid)
                    (Assignment.questions a)).
Qed.

Lemma sum_hasPoints (questions : list QuizQuestion.t) :
  Forall hasPoints questions ->
  map (fun q => JS.or (QuizQuestion.points q) 1%float) questions
  = map QuizQuestion.points questions.
Proof.
  induction 1 as [|q rest Hq _ IH]; simpl; [reflexivity|].
  now rewrite IH, (or_hasPoints q Hq).
Qed.

Lemma saveFiles_none (folder : string) (saved : list File) :
  saveFiles hasCloudinary uploadBufferToCloudinary folder [] saved
  = Some saved.
Proof.
  unfold saveFiles. destruct hasCloudinary; simpl;
    [reflexivity | now rewrite app_nil_r].
Qed.

Lemma castAnswers_total (l : list RawAnswer.t) :
  Forall (fun x => RawAnswer.questionId x <> None) l ->
  exists stored, castAnswers l = Some stored.
Proof.
  induction 1 as [|x rest Hx _ [stored IH]]; simpl; [now exists []|].
  unfold castAnswer. destruct (RawAnswer.questionId x); [|congruence].
  rewrite IH. eexists. reflexivity.
Qed.

(** When a submit succeeds: the assignment exists, no submission of the
    pair is in the way, the uploads are accepted, and every answer names
    its question. *)
Lemma submit_succeeds (now : Date) (store : Store) (id : ObjectId)
    (user : User.t) (body : SubmitBody) (files : list MulterFile)
    (a : Assignment.t) (saved : list File) :
  findAssignment store id = Some a ->
  findSubmission store id (User.id user) = None
  \/ Assignment.allowResubmission a = true ->
  saveFiles hasCloudinary uploadBufferToCloudinary "ttls_submissions"
    files [] = Some saved ->
  Forall (fun x => RawAnswer.questionId x <> None) (submittedAnswers body) ->
  exists (store' : Store) (s : Submission.t),
    submit_ now store id user body files = (store', success 201 s).
Proof.
  intros Ha Hfree Hfiles Hids. unfold submit. rewrite Ha.
  change (match b_answers body with
          | a_items l => l
          | _ => []
          end) with (submittedAnswers body).
  assert (Hgate :
    (match findSubmission store id (User.id user) with
     | Some _ => true
     | None => false
     end && negb (Assignment.allowResubmission a)) = false).
  { destruct Hfree as [->| ->]; [reflexivity|].
    now destruct (findSubmission store id (User.id user)). }
  rewrite Hgate.
  assert (Hsaved : match files with
                   | [] => Some []
                   | _ :: _ =>
                       saveFiles hasCloudinary uploadBufferToCloudinary
                         "ttls_submissions" files []
                   end = Some saved).
  { destruct files; [|exact Hfiles].
    now rewrite saveFiles_none in Hfiles. }
  rewrite Hsaved.
  assert (Hcast : forall graded,
            exists stored,
              castAnswers
                (if Assignment.is_quiz (Assignment.type a)
                    && Assignment.allowAutomaticGrading a
                    && (0 <? List.length
                               (map (attach_ files) (submittedAnswers body)))
                 then map (mergeGraded graded)
                          (map (attach_ files) (submittedAnswers body))
                 else map (attach_ files) (submittedAnswers body))
              = Some stored).
  { intros graded. apply castAnswers_total.
    match goal with
    | |- context [if ?c then _ else _] => destruct c
    end; rewrite ?Forall_map;
      (eapply Forall_impl; [|exact Hids]); intros x Hx; simpl;
      now destruct (attach_fields files x) as (-> & _). }
  destruct (Hcast (gradedAnswers
                     (autoGradeQuiz a
                        (map (attach_ files) (submittedAnswers body)))))
    as [stored ->].
  destruct (findSubmission store id (User.id user));
    eexists; eexists; reflexivity.
Qed.

(** C3, as the route has it: a successful submit of at least one answer
    to a quiz with automatic grading stores a submission that is graded,
    whose grade is the grader's total score (the sum of the points of
    the graded answers), whose total is the sum of the points of the
    questions, and whose answers carry the computed correctness and
    points of their question; a first submission is flagged as
    auto-graded, a resubmission has its grading dated now. *)
Theorem submit_auto_graded (now : Date) (store store' : Store)
    (id : ObjectId) (user : User.t) (body : SubmitBody)
    (files : list MulterFile) (a : Assignment.t) (s : Submission.t) :
  findAssignment store id = Some a ->
  Assignment.type a = Assignment.quiz ->
  Assignment.allowAutomaticGrading a = true ->
  submittedAnswers body <> [] ->
  Forall hasPoints (Assignment.questions a) ->
  submit_ now store id user body files = (store', success 201 s) ->
  let result := autoGradeQuiz a (submittedAnswers body) in
  Submission.isGraded s = true
  /\ Submission.grade s = Some (totalScore result)
  /\ totalScore result = sumOf (map Graded.points (gradedAnswers result))
  /\ Submission.totalPoints s
     = Some (sumOf (map QuizQuestion.points (Assignment.questions a)))
  /\ Forall2 (mergedFrom a (submittedAnswers body))
             (submittedAnswers body) (Submission.answers s)
  /\ findSubmission store' id (User.id user) = Some s
  /\ (findSubmission store id (User.id user) = None ->
      Submission.autoGraded s = true)
  /\ (findSubmission store id (User.id user) <> None ->
      Submission.gradedAt s = Some now).
Proof.
  intros Ha Hquiz Hallow Hsome Hpts H result.
  pose proof (submit_stored now store store' id user body files s 201 H)
    as Hstored.
  unfold submit in H. rewrite Ha in H.
  change (match b_answers body with
          | a_items l => l
          | _ => []
          end) with (submittedAnswers body) in H.
  rewrite Hquiz, Hallow, length_map in H.
  assert (Hlen : (0 <? List.length (submittedAnswers body)) = true).
  { apply Nat.ltb_lt. destruct (submittedAnswers body);
      [congruence | simpl; lia]. }
  rewrite Hlen, autoGradeQuiz_attach in H. simpl in H.
  fold result in H.
  assert (Htotal : totalPoints result
                   = sumOf (map QuizQuestion.points (Assignment.questions a))).
  { unfold result. rewrite autoGradeQuiz_totalPoints.
    now rewrite (sum_hasPoints _ Hpts). }
  destruct (findSubmission store id (User.id user)) as [existing|] eqn:He.
  - destruct (negb (Assignment.allowResubmission a)); [discriminate H|].
    destruct (match files with
              | [] => Some []
              | _ :: _ => saveFiles hasCloudinary uploadBufferToCloudinary
                            "ttls_submissions" files []
              end) as [saved|]; [|discriminate H].
    match type of H with
    | context [castAnswers ?l] =>
        destruct (castAnswers l) as [answers|] eqn:Ec
    end; [|discriminate H].
    injection H as _ <-. simpl. rewrite Htotal in *.
    repeat split; try reflexivity; try assumption.
    + apply autoGradeQuiz_totalScore.
    + now apply (merged_answers files).
    + discriminate.
  - destruct (match files with
              | [] => Some []
              | _ :: _ => saveFiles hasCloudinary uploadBufferToCloudinary
                            "ttls_submissions" files []
              end) as [saved|]; [|discriminate H].
    match type of H with
    | context [castAnswers ?l] =>
        destruct (castAnswers l) as [answers|] eqn:Ec
    end; [|discriminate H].
    injection H as _ <-. simpl. rewrite Htotal in *.
    repeat split; try reflexivity; try assumption.
    + apply autoGradeQuiz_totalScore.
    + now apply (merged_answers files).
    + congruence.
Qed.

End SubmitProperties.

(* ================================================================= *)
(** ** Properties of manual grading *)



(* ================================================================= *)
(** ** Properties of the statistics *)

Lemma graded_fold (subs : list Submission.t) (start : JS.number) :
  fold_left (fun sum s => (sum + JS.or_undef (Submission.grade s) 0)%float)
            (filter hasGrade subs) start
  = fold_left PrimFloat.add
      (map (fun g => JS.or g 0%float) (gradesOf subs)) start.
Proof.
  revert start. induction subs as [|s rest IH]; intros start; simpl;
    [reflexivity|].
  unfold hasGrade at 1.
  destruct (Submission.grade s) as [g|] eqn:Eg; simpl; [|apply IH].
  rewrite Eg. simpl. apply IH.
Qed.

Lemma graded_length (subs : list Submission.t) :
  List.length (filter hasGrade subs) = List.length (gradesOf subs).
Proof.
  induction subs as [|s rest IH]; simpl; [reflexivity|].
  unfold hasGrade at 1.
  destruct (Submission.grade s); simpl; now rewrite IH.
Qed.

(** C7, as the route has it: the average is the mean of the grades of the
    graded submissions, 0 when none is graded, rounded to two decimals;
    the distribution counts the graded submissions by raw grade, at least
    90, from 80 to below 90, from 70 to below 80, below 70, and the
    submissions without a grade. *)
Theorem listStatistics_rounded_average (store : Store) (id : ObjectId)
    (user : User.t) (a : Assignment.t) :
  authorize [User.teacher; User.admin] user = true ->
  findAssignment store id = Some a ->
  exists d : Statistics,
    listStatistics store id user = success 200 d
    /\ average d = round2 (meanOrZero (gradesOf (submissionsOf store id)))
    /\ (gradesOf (submissionsOf store id) = [] -> average d = 0%float)
    /\ excellent (gradeDistribution d)
       = countGraded (fun g => 90 <=? g)%float (submissionsOf store id)
    /\ good (gradeDistribution d)
       = countGraded (fun g => (80 <=? g) && (g <? 90))%float
                     (submissionsOf store id)
    /\ satisfactory (gradeDistribution d)
       = countGraded (fun g => (70 <=? g) && (g <? 80))%float
                     (submissionsOf store id)
    /\ needsImprovement (gradeDistribution d)
       = countGraded (fun g => g <? 70)%float (submissionsOf store id)
    /\ d_ungraded (gradeDistribution d)
       = countUngraded (submissionsOf store id).
Proof.
  intros Hauth Ha. unfold listStatistics. rewrite Hauth, Ha. simpl.
  eexists. split; [reflexivity|]. simpl.
  fold (submissionsOf store id).
  assert (Havg :
    (if 0 <? List.length (submissionsOf store id)
     then JS.or
            (fold_left
               (fun sum s =>
                  (sum + JS.or_undef (Submission.grade s) 0)%float)
               (filter hasGrade (submissionsOf store id)) 0%float
             / JS.of_nat
                 (List.length (filter hasGrade (submissionsOf store id))))%float
            0%float
     else 0%float)
    = meanOrZero (gradesOf (submissionsOf store id))).
  { unfold meanOrZero, mean, sumOf.
    rewrite graded_fold, graded_length, length_map.
    destruct (submissionsOf store id) as [|s rest]; reflexivity. }
  rewrite Havg. split; [reflexivity|].
  split.
  { intros ->. reflexivity. }
  unfold countGraded, countUngraded, gradeIs, hasGrade.
  repeat split.
  f_equal. apply filter_ext. intros s. now destruct (Submission.grade s).
Qed.

(* ================================================================= *)
(** ** Properties of creation and update *)

Lemma elements_Some {A : Type} (l : list A) : elements (map Some l) = Some l.
Proof.
  induction l as [|x rest IH]; simpl; [reflexivity | now rewrite IH].
Qed.

Lemma truthy_default (x : option JS.number) :
  JS.truthy (JS.or_undef x 1%float) = true.
Proof.
  destruct x as [v|]; simpl; [|reflexivity].
  unfold JS.or. now destruct (JS.truthy v) eqn:E.
Qed.







(** Every question the routes normalize has points that are neither 0
    nor [NaN]. *)
Lemma questionDocs_hasPoints (l : list RawQuestion.t) (first : ObjectId)
    (k : nat) :
  Forall hasPoints (questionDocs first (mapi normalizeQuestion l k)).
Proof.
  revert first k. induction l as [|raw rest IH]; intros first k; simpl;
    constructor; [apply truthy_default | apply IH].
Qed.

Section AssignmentProperties.

Variable hasCloudinary : bool.
Variable uploadBufferToCloudinary :
  string -> string -> string -> option Uploaded.
Variable castQuestions : ParsedQuestions -> option (list QuestionInput.t).

Local Abbreviation create_ :=
  (create hasCloudinary uploadBufferToCloudinary castQuestions).
Local Abbreviation update_ :=
  (update hasCloudinary uploadBufferToCloudinary castQuestions).




(** When a create succeeds: a teacher or admin gives a title, the
    questions of the list have a text, and there is no attachment. *)
Lemma create_succeeds (store : Store) (user : User.t) (body : CreateBody)
    (title : string) (l : list RawQuestion.t) :
  authorize [User.teacher; User.admin] user = true ->
  b_title body = Some title ->
  present title = true ->
  b_questions body = questionList l ->
  Forall (fun raw => present (JS.str_or (RawQuestion.question raw) "")
                     = true) l ->
  exists (store' : Store) (a : Assignment.t),
    create_ store user body [] = (store', success 201 a).
Proof.
  intros Hauth Htitle Hpresent Hl Htexts. unfold create.
  rewrite Hauth, Htitle, Hl. simpl.
  assert (Hvalid : forall k,
            forallb (fun q => present (QuestionInput.question q))
                    (mapi normalizeQuestion l k) = true).
  { clear - Htexts.
    induction Htexts as [|raw rest Hraw _ IH]; intros k; simpl;
      [reflexivity|]. now rewrite Hraw, IH. }
  destruct (b_type body) as [[]|];
    unfold questionList, parseQuestions; rewrite ?elements_Some;
    unfold documentQuestions; simpl; rewrite ?Hvalid, Hpresent; simpl;
    eexists; eexists; reflexivity.
Qed.




End AssignmentProperties.

(* ================================================================= *)
(** ** The properties at work on the sample data *)

Lemma autoGradeQuiz_enumeration_witness :
  nth_error (Assignment.questions quiz) 2 = Some q_letters
  /\ QuizQuestion.type q_letters = QuizQuestion.enumeration
  /\ hasPoints q_letters
  /\ exists g : Graded.t,
       nth_error (gradedAnswers (autoGradeQuiz quiz sheet)) 2 = Some g
       /\ Graded.points g = (JS.of_nat 2 / JS.of_nat 3 * 3)%float
       /\ Graded.isCorrect g = Some false.
Proof.
  split; [reflexivity|]. split; [reflexivity|]. split; [reflexivity|].
  destruct (autoGradeQuiz_enumeration quiz sheet 2 q_letters
              eq_refl eq_refl eq_refl) as (g & Hg & _ & Hsome & _).
  exists g. split; [exact Hg|].
  assert (Hne : QuizQuestion.correctAnswers q_letters <> [])
    by discriminate.
  destruct (Hsome Hne) as (Hp & _ & Hf).
  split; [exact Hp|]. apply Hf. intros [H _]. discriminate H.
Defined.

Lemma autoGradeQuiz_single_answer_witness :
  nth_error (Assignment.questions quiz) 0 = Some q_capital
  /\ studentAnswer sheet q_capital = "Paris "
  /\ exists g : Graded.t,
       nth_error (gradedAnswers (autoGradeQuiz quiz sheet)) 0 = Some g
       /\ Graded.isCorrect g = Some true
       /\ Graded.points g = 5%float.
Proof.
  split; [reflexivity|]. split; [reflexivity|].
  destruct (autoGradeQuiz_single_answer quiz sheet 0 q_capital eq_refl)
    as (g & Hg & _ & Hsingle & _).
  exists g. split; [exact Hg|].
  destruct (Hsingle (or_introl eq_refl) "paris" eq_refl eq_refl)
    as [Hsame _].
  exact (Hsame eq_refl).
Defined.

Lemma autoGradeQuiz_empty_correct_answer_witness :
  nth_error (Assignment.questions quiz) 4 = Some q_unset
  /\ QuizQuestion.correctAnswer q_unset = Some ""
  /\ answerOf (answerFor sheet q_unset) = Some "   "
  /\ exists g : Graded.t,
       nth_error (gradedAnswers (autoGradeQuiz quiz sheet)) 4 = Some g
       /\ Graded.isCorrect g = Some true
       /\ Graded.points g = 2%float.
Proof.
  split; [reflexivity|]. split; [reflexivity|]. split; [reflexivity|].
  exact (autoGradeQuiz_empty_correct_answer quiz sheet 4 q_unset
           eq_refl (or_introl eq_refl) eq_refl eq_refl eq_refl).
Defined.

Lemma submit_auto_graded_witness :
  submit false noUpload 1000%Z school 1 pupil (answering None sheet) []
  = (fst handedIn, success 201 sheetSubmission)
  /\ Submission.isGraded sheetSubmission = true
  /\ Submission.grade sheetSubmission = Some 9%float
  /\ Submission.totalPoints sheetSubmission = Some 25%float
  /\ Submission.autoGraded sheetSubmission = true.
Proof.
  assert (Hrun : submit false noUpload 1000%Z school 1 pupil
                   (answering None sheet) []
                 = (fst handedIn, success 201 sheetSubmission))
    by (vm_compute; reflexivity).
  assert (Hsome : submittedAnswers (answering None sheet) <> [])
    by discriminate.
  assert (Hpts : Forall hasPoints (Assignment.questions quiz))
    by (repeat constructor).
  destruct (submit_auto_graded false noUpload 1000%Z school (fst handedIn)
              1 pupil (answering None sheet) [] quiz sheetSubmission
              eq_refl eq_refl eq_refl Hsome Hpts Hrun)
    as (Hgraded & Hgrade & _ & Htotal & _ & _ & Hauto & _).
  split; [exact Hrun|]. split; [exact Hgraded|].
  split; [exact Hgrade|]. split; [exact Htotal|].
  exact (Hauto eq_refl).
Defined.

Lemma submit_only_once_witness :
  findAssignment school 1 = Some quiz
  /\ Assignment.allowResubmission quiz = false
  /\ findSubmission school 1 (User.id pupil) = None
  /\ submit false noUpload 2000%Z (fst handedIn) 1 pupil
       (answering (Some "again") sheet) []
     = (fst handedIn,
        failure 400 "Resubmission is not allowed for this assignment")
  /\ submissionCount (fst handedIn) 1 (User.id pupil) = 1.
Proof.
  split; [reflexivity|]. split; [reflexivity|]. split; [reflexivity|].
  apply (proj2 (submit_only_once false noUpload 1000%Z 2000%Z school 1
                  pupil (answering None sheet)
                  (answering (Some "again") sheet) [] [] quiz
                  eq_refl eq_refl)
               eq_refl (fst handedIn) sheetSubmission).
  vm_compute. reflexivity.
Defined.

Lemma submit_keeps_one_previous_witness :
  findSubmission (fst try1) 2 (User.id pupil) = Some submission1
  /\ Submission.content submission1 = Some "first"
  /\ Submission.previousContent submission2 = Some "first"
  /\ Submission.previousAnswers submission2 = Submission.answers submission1
  /\ Submission.resubmitted submission2 = true
  /\ Submission.resubmittedAt submission2 = Some 2000%Z
  /\ Submission.previousContent submission3 = Some "second"
  /\ Submission.previousAnswers submission3 = Submission.answers submission2.
Proof.
  assert (Hfound : findSubmission (fst try1) 2 (User.id pupil)
                   = Some submission1) by reflexivity.
  assert (Hrun2 : submit false noUpload 2000%Z (fst try1) 2 pupil
                    (answering (Some "second")
                       [answerTo 11 (Some "rome") None]) []
                  = (fst try2, success 201 submission2))
    by (vm_compute; reflexivity).
  assert (Hrun3 : submit false noUpload 3000%Z (fst try2) 2 pupil
                    (answering (Some "third") []) []
                  = (fst try3, success 201 submission3))
    by (vm_compute; reflexivity).
  destruct (submit_keeps_one_previous false noUpload 2000%Z (fst try1)
              (fst try2) 2 pupil
              (answering (Some "second") [answerTo 11 (Some "rome") None])
              [] submission1 submission2 Hfound Hrun2)
    as ((Hpc & Hpa & _ & Hre & Hrat & _) & Hnext).
  destruct (Hnext 3000%Z (answering (Some "third") []) [] (fst try3)
              submission3 Hrun3) as (Hpc3 & Hpa3 & _).
  split; [exact Hfound|]. split; [reflexivity|].
  split; [exact Hpc|]. split; [exact Hpa|]. split; [exact Hre|].
  split; [exact Hrat|]. split; [exact Hpc3 | exact Hpa3].
Defined.


Lemma listStatistics_rounded_average_witness :
  gradesOf (submissionsOf classOfFive 1)
  = [95%float; 82%float; 71%float; 60%float]
  /\ exists d : Statistics,
       listStatistics classOfFive 1 master = success 200 d
       /\ average d = 77%float
       /\ gradeDistribution d
          = {| excellent := 1; good := 1; satisfactory := 1;
               needsImprovement := 1; d_ungraded := 1 |}.
Proof.
  split; [reflexivity|].
  destruct (listStatistics_rounded_average classOfFive 1 master quiz
              eq_refl eq_refl)
    as (d & Hrun & Havg & _ & He & Hg & Hs & Hn & Hu).
  exists d. split; [exact Hrun|]. split; [exact Havg|].
  destruct d as [t g u avg [e gd sa ni un] subs]. simpl in *.
  now rewrite He, Hg, Hs, Hn, Hu.
Defined.

(** C7 as stated does not hold: of three submissions graded 1, 1 and 2
    the route reports 1.33, not their mean 4/3. *)
Lemma listStatistics_average_is_not_the_mean :
  exists d : Statistics,
    listStatistics classOfThree 1 master = success 200 d
    /\ gradesOf (submissionsOf classOfThree 1)
       = [1%float; 1%float; 2%float]
    /\ average d <> mean [1%float; 1%float; 2%float].
Proof.
  eexists. split; [reflexivity|]. split; [reflexivity|].
  intros H.
  apply (f_equal (fun x => PrimFloat.eqb x (mean [1; 1; 2]%float))) in H.
  vm_compute in H. discriminate H.
Qed.

(** C3 as stated does not hold: a quiz with automatic grading handed in
    without answers is stored ungraded. *)
Lemma submit_without_answers_is_not_graded :
  Assignment.type quiz = Assignment.quiz
  /\ Assignment.allowAutomaticGrading quiz = true
  /\ exists (store' : Store) (s : Submission.t),
       submit false noUpload 1000%Z school 1 pupil (answering None []) []
       = (store', success 201 s)
       /\ findSubmission store' 1 (User.id pupil) = Some s
       /\ Submission.isGraded s = false
       /\ Submission.autoGraded s = false
       /\ Submission.grade s = None
       /\ Submission.gradedAt s = None.
Proof.
  split; [reflexivity|]. split; [reflexivity|].
  eexists. eexists. split; [vm_compute; reflexivity|].
  repeat split.
Qed.

(** Where the two branches of the submit route part: a first submission
    that is auto-graded has no grading date, and a resubmission that is
    auto-graded keeps the [autoGraded] flag of the attempt before. *)
Lemma submit_branches_differ :
  (Submission.isGraded sheetSubmission = true
   /\ Submission.gradedAt sheetSubmission = None)
  /\ (submit false noUpload 2000%Z (fst late1) 2 pupil
        (answering None [answerTo 11 (Some "paris") None]) [] = late2
      /\ Submission.isGraded (submissionIn (snd late2)) = true
      /\ Submission.grade (submissionIn (snd late2)) = Some 5%float
      /\ Submission.autoGraded (submissionIn (snd late2)) = false).
Proof.
  split; [now split|]. split; [vm_compute; reflexivity | now repeat split].
Qed.


(** C9: a [questions] payload that is not JSON leaves a quiz with an
    empty question list and [totalPoints] 0, without error; a payload that
    is a JSON value other than an array does not: the route hands the
    value itself to the document layer, with [totalPoints] 0.  When the
    layer refuses the value the request fails with status 500 and nothing
    is stored; when it takes the object for one question, the quiz is
    stored with that question and a total that is not the sum of its
    points. *)
Theorem create_keeps_non_list_questions :
  (forall v : Json, parseQuestions (q_other v) = (raw_value v, 0%float))
  /\ create false noUpload refuse emptyStore master
       (quizBody objectPayload) []
     = (emptyStore, failure 500 "Failed to create assignment")
  /\ update false noUpload refuse (fst created) 1 master
       (quizBody objectPayload) []
     = (fst created, failure 500 "Failed to update assignment")
  /\ (exists (store' : Store) (a : Assignment.t),
        create false noUpload wrapObject emptyStore master
          (quizBody objectPayload) [] = (store', success 201 a)
        /\ List.length (Assignment.questions a) = 1
        /\ Assignment.totalPoints a = 0%float
        /\ ~ totalPointsInvariant a)
  /\ (exists (store' : Store) (a : Assignment.t),
        create false noUpload refuse emptyStore master
          (quizBody garbledPayload) [] = (store', success 201 a)
        /\ Assignment.questions a = []
        /\ Assignment.totalPoints a = 0%float).
Proof.
  split; [reflexivity|].
  split; [vm_compute; reflexivity|].
  split; [vm_compute; reflexivity|].
  split.
  - eexists. eexists. split; [vm_compute; reflexivity|].
    split; [reflexivity|]. split; [reflexivity|].
    unfold totalPointsInvariant. simpl. intros H.
    apply (f_equal (fun x => PrimFloat.eqb x 0%float)) in H.
    vm_compute in H. discriminate H.
  - eexists. eexists. split; [vm_compute; reflexivity|]. now split.
Qed.

(* ================================================================= *)
(** ** Further properties of the auto-grader *)


(** The grading result depends on the answers only through the answer
    found for each question. *)
Lemma autoGradeQuiz_ext (a : Assignment.t) (l l' : list RawAnswer.t) :
  (forall q, In q (Assignment.questions a) ->
             answerFor l q = answerFor l' q) ->
  autoGradeQuiz a l = autoGradeQuiz a l'.
Proof.
  intros Hsame.
  assert (Hfold : forall qs acc,
            (forall q, In q qs -> answerFor l q = answerFor l' q) ->
            fold_left (gradeStep l) qs acc = fold_left (gradeStep l') qs acc).
  { induction qs as [|q rest IH]; intros acc Hqs; simpl; [reflexivity|].
    assert (Hstep : gradeStep l acc q = gradeStep l' acc q).
    { unfold gradeStep, gradedAnswer. now rewrite (Hqs q (or_introl eq_refl)). }
    rewrite Hstep. apply IH. intros q' Hq'. apply Hqs. now right. }
  unfold autoGradeQuiz.
  destruct (Assignment.questions a) as [|q rest] eqn:E; [reflexivity|].
  now apply Hfold.
Qed.

(** X1: the grading result has one record per question of the assignment,
    in the order of the questions and carrying their ids and maximal
    points, whatever the answers are; and the total of points does not
    depend on the answers. *)
Theorem autoGradeQuiz_one_record_per_question
    (a : Assignment.t) (answers : list RawAnswer.t) :
  map Graded.questionId (gradedAnswers (autoGradeQuiz a answers))
  = map QuizQuestion._id (Assignment.questions a)
  /\ map Graded.maxPoints (gradedAnswers (autoGradeQuiz a answers))
     = map (fun q => JS.or (QuizQuestion.points q) 1%float)
           (Assignment.questions a)
  /\ List.length (gradedAnswers (autoGradeQuiz a answers))
     = List.length (Assignment.questions a)
  /\ forall answers' : list RawAnswer.t,
       totalPoints (autoGradeQuiz a answers')
       = totalPoints (autoGradeQuiz a answers).
Proof.
  rewrite autoGradeQuiz_gradedAnswers, !map_map, length_map.
  repeat split. intros answers'. now rewrite !autoGradeQuiz_totalPoints.
Qed.

Lemma find_app_last {A : Type} (P : A -> bool) (l : list A) (x : A) :
  find P (l ++ [x])
  = match find P l with
    | Some y => Some y
    | None => if P x then Some x else None
    end.
Proof.
  induction l as [|y rest IH]; simpl; [reflexivity|].
  now destruct (P y).
Qed.

(** X2: an answer that names no question, names a question the
    assignment does not have, or comes after another answer to the same
    question, does not change the grading: only the first answer to a
    question counts. *)
Theorem autoGradeQuiz_first_answer_counts
    (a : Assignment.t) (answers : list RawAnswer.t) (x : RawAnswer.t) :
  (forall q, In q (Assignment.questions a) ->
             RawAnswer.questionId x = Some (QuizQuestion._id q) ->
             answerFor answers q <> None) ->
  autoGradeQuiz a (answers ++ [x]) = autoGradeQuiz a answers.
Proof.
  intros Hcovered. apply autoGradeQuiz_ext. intros q Hq.
  unfold answerFor. rewrite find_app_last.
  fold (answerFor answers q).
  destruct (answerFor answers q) as [y|] eqn:Ey; [reflexivity|].
  destruct (RawAnswer.questionId x) as [id|] eqn:Ex; [|reflexivity].
  destruct (Nat.eqb_spec id (QuizQuestion._id q)) as [->|]; [|reflexivity].
  exfalso. now apply (Hcovered q Hq).
Qed.

Lemma filter_length_permutation {A : Type} (P : A -> bool) (l l' : list A) :
  Permutation l l' ->
  List.length (filter P l) = List.length (filter P l').
Proof.
  induction 1 as [|x l l' Hperm IH|x y l|l l' l'' H1 IH1 H2 IH2]; simpl.
  - reflexivity.
  - destruct (P x); simpl; now rewrite IH.
  - now destruct (P x), (P y).
  - now rewrite IH1.
Qed.

Lemma find_permutation {A : Type} (P : A -> bool) (l l' : list A) :
  Permutation l l' ->
  List.length (filter P l) <= 1 ->
  find P l = find P l'.
Proof.
  induction 1 as [|x l l' Hperm IH|x y l|l l' l'' H1 IH1 H2 IH2];
    simpl; intros Hcount.
  - reflexivity.
  - destruct (P x); [reflexivity|]. now apply IH.
  - destruct (P x) eqn:Ex, (P y) eqn:Ey; simpl in Hcount;
      try reflexivity. lia.
  - rewrite IH1 by exact Hcount. apply IH2.
    now rewrite <- (filter_length_permutation P l l' H1).
Qed.

Lemma answered_once (l : list RawAnswer.t) (id : ObjectId) :
  NoDup (answeredIds l) ->
  List.length
    (filter (fun x => match RawAnswer.questionId x with
                      | Some i => i =? id
                      | None => false
                      end) l) <= 1.
Proof.
  induction l as [|x rest IH]; simpl; intros Hnodup; [lia|].
  destruct (RawAnswer.questionId x) as [i|] eqn:Ex; [|now apply IH].
  inversion Hnodup as [|? ? Hnotin Hrest]; subst.
  destruct (Nat.eqb_spec i id) as [->|]; [|now apply IH].
  simpl. enough (Hnone : filter
                           (fun x => match RawAnswer.questionId x with
                                     | Some i => i =? id
                                     | None => false
                                     end) rest = [])
    by (rewrite Hnone; simpl; lia).
  clear - Hnotin. induction rest as [|y rest IH]; simpl; [reflexivity|].
  simpl in Hnotin. destruct (RawAnswer.questionId y) as [j|].
  - destruct (Nat.eqb_spec j id) as [->|].
    + exfalso. apply Hnotin. now left.
    + apply IH. intros H. apply Hnotin. now right.
  - now apply IH.
Qed.

(** X3: when no two answers name the same question, the grading does not
    depend on the order of the answers. *)
Theorem autoGradeQuiz_order_of_answers
    (a : Assignment.t) (answers answers' : list RawAnswer.t) :
  NoDup (answeredIds answers) ->
  Permutation answers answers' ->
  autoGradeQuiz a answers = autoGradeQuiz a answers'.
Proof.
  intros Hnodup Hperm. apply autoGradeQuiz_ext. intros q _.
  unfold answerFor. apply find_permutation; [exact Hperm|].
  now apply answered_once.
Qed.

(** X4: a question stored without [correctAnswer] is graded in two ways:
    as multiple-choice it is correct exactly for the answer "undefined"
    (up to case and surrounding white space), as identification exactly
    for a blank or missing answer. *)
Theorem autoGradeQuiz_missing_correct_answer
    (a : Assignment.t) (answers : list RawAnswer.t)
    (i : nat) (q : QuizQuestion.t) :
  nth_error (Assignment.questions a) i = Some q ->
  QuizQuestion.correctAnswer q = None ->
  exists g : Graded.t,
    nth_error (gradedAnswers (autoGradeQuiz a answers)) i = Some g
    /\ (QuizQuestion.type q = QuizQuestion.multiple_choice ->
        (Graded.isCorrect g = Some true <->
         normalise (studentAnswer answers q) = "undefined"))
    /\ (QuizQuestion.type q = QuizQuestion.identification ->
        (Graded.isCorrect g = Some true <->
         normalise (studentAnswer answers q) = "")).
Proof.
  intros Hnth Hnone. exists (gradedAnswer answers q).
  split; [now apply autoGradeQuiz_nth|].
  assert (Hundefined : normalise "undefined" = "undefined") by reflexivity.
  assert (Hempty : normalise "" = "") by reflexivity.
  unfold gradedAnswer, gradeQuestion. rewrite Hnone.
  fold (studentAnswer answers q).
  split; intros ->; cbv beta iota zeta; unfold JS.String_, JS.str_or;
    fold (normalise (studentAnswer answers q));
    fold (normalise "undefined"); fold (normalise "");
    rewrite ?Hundefined, ?Hempty; simpl fst;
    match goal with
    | |- context [String.eqb ?x ?y] =>
        destruct (String.eqb_spec x y) as [Heq|Hne]
    end; split; intros H;
    first [reflexivity | exact Heq | discriminate H | contradiction].
Qed.

Lemma occurring_all (correct student : list string) :
  occurring correct student = List.length student
  <-> Forall (fun s => In s correct) student.
Proof.
  assert (Hle : forall l, occurring correct l <= List.length l).
  { induction l as [|s rest IH]; simpl; [lia|].
    destruct (in_dec string_dec s correct); lia. }
  induction student as [|s rest IH]; simpl.
  - split; [constructor | reflexivity].
  - destruct (in_dec string_dec s correct) as [Hin|Hout]; split; intros H.
    + constructor; [exact Hin|]. apply IH. lia.
    + inversion H; subst. simpl. f_equal. now apply IH.
    + pose proof (Hle rest). lia.
    + inversion H; subst. contradiction.
Qed.

(** X5: an enumeration answer is marked correct exactly when there are
    correct answers, the student gives as many answers as there are
    correct ones, and each of them (lower-cased and trimmed) is a correct
    one; that the correct answers are all covered is not required. *)
Theorem autoGradeQuiz_enumeration_correct
    (a : Assignment.t) (answers : list RawAnswer.t)
    (i : nat) (q : QuizQuestion.t) :
  nth_error (Assignment.questions a) i = Some q ->
  QuizQuestion.type q = QuizQuestion.enumeration ->
  let correct := map normalise (QuizQuestion.correctAnswers q) in
  let student := map normalise (studentAnswers answers q) in
  exists g : Graded.t,
    nth_error (gradedAnswers (autoGradeQuiz a answers)) i = Some g
    /\ (Graded.isCorrect g = Some true <->
        correct <> []
        /\ List.length student = List.length correct
        /\ Forall (fun s => In s correct) student).
Proof.
  intros Hnth Htype correct student. exists (gradedAnswer answers q).
  split; [now apply autoGradeQuiz_nth|].
  unfold gradedAnswer, gradeQuestion. rewrite Htype.
  fold (studentAnswers answers q). fold normalise. fold correct student.
  rewrite correctCount_occurring. rewrite <- occurring_all.
  simpl Graded.isCorrect.
  destruct (Nat.ltb_spec 0 (List.length correct)) as [Hpos|Hzero];
    simpl fst.
  - assert (Hne : correct <> []).
    { intros Hnil. rewrite Hnil in Hpos. simpl in Hpos. lia. }
    destruct (Nat.eqb_spec (occurring correct student)
                (List.length correct));
      destruct (Nat.eqb_spec (List.length student) (List.length correct));
      simpl andb; split; intros H;
      first [ discriminate H | reflexivity
            | (split; [assumption|]; split; [assumption|]; congruence)
            | (exfalso; destruct H as (_ & H1 & H2); congruence) ].
  - split; [discriminate|]. intros (Hne & _). exfalso. apply Hne.
    destruct correct; [reflexivity | simpl in Hzero; lia].
Qed.

(* ================================================================= *)
(** ** Further properties of the routes *)

Section RouteProperties.

Variable hasCloudinary : bool.
Variable uploadBufferToCloudinary :
  string -> string -> string -> option Uploaded.
Variable castQuestions : ParsedQuestions -> option (list QuestionInput.t).

Local Abbreviation create_ :=
  (create hasCloudinary uploadBufferToCloudinary castQuestions).
Local Abbreviation update_ :=
  (update hasCloudinary uploadBufferToCloudinary castQuestions).
Local Abbreviation submit_ :=
  (submit hasCloudinary uploadBufferToCloudinary).
Local Abbreviation saveFiles_ :=
  (saveFiles hasCloudinary uploadBufferToCloudinary).

(** X6: a submit, an update or a grading that is answered with a failure
    has changed nothing in the store. *)
Theorem failed_requests_change_nothing :
  (forall (now : Date) (store store' : Store) (id : ObjectId)
          (user : User.t) (body : SubmitBody) (files : list MulterFile)
          (status : nat) (message : string),
      submit_ now store id user body files
      = (store', failure status message) -> store' = store)
  /\ (forall (store store' : Store) (id : ObjectId) (user : User.t)
             (body : CreateBody) (files : list MulterFile)
             (status : nat) (message : string),
         update_ store id user body files
         = (store', failure status message) -> store' = store)
  /\ (forall (now : Date) (store store' : Store)
             (assignmentId submissionId : ObjectId) (user : User.t)
             (body : GradeBody) (status : nat) (message : string),
         gradeManually now store assignmentId submissionId user body
         = (store', failure status message) -> store' = store).
Proof.
  split; [|split].
  - intros now store store' id user body files status message.
    unfold submit.
    destruct (findAssignment store id) as [a|]; [|now intros [= <-]].
    destruct (_ && _); [now intros [= <-]|].
    destruct (match files with
              | [] => Some []
              | _ :: _ => saveFiles_ "ttls_submissions" files []
              end) as [saved|]; [|now intros [= <-]].
    match goal with
    | |- context [castAnswers ?l] => destruct (castAnswers l) as [answers|]
    end; [|now intros [= <-]].
    destruct (findSubmission store id (User.id user)); discriminate.
  - intros store store' id user body files status message.
    unfold update.
    destruct (negb (authorize _ user)); [now intros [= <-]|].
    destruct (findAssignment store id) as [old|]; [|now intros [= <-]].
    destruct (_ && _); [now intros [= <-]|].
    destruct (match files with
              | [] => Some (Assignment.attachments old)
              | _ :: _ => saveFiles_ "ttls_assignments" files
                            (Assignment.attachments old)
              end) as [saved|]; [|now intros [= <-]].
    destruct (b_questions body) as [|text|v|l];
      [simpl; discriminate | | | ];
      match goal with
      | |- context [parseQuestions ?p] =>
          destruct (parseQuestions p) as [parsed total]
      end;
      (destruct (documentQuestions castQuestions parsed) as [qs|];
       [discriminate | now intros [= <-]]).
  - intros now store store' assignmentId submissionId user body
           status message.
    unfold gradeManually.
    destruct (negb (authorize _ user)); [now intros [= <-]|].
    destruct (findSubmissionById store submissionId assignmentId)
      as [submission|]; [|now intros [= <-]].
    destruct (b_gradedAnswers body) as [entries|]; [|discriminate].
    destruct (findAssignment store (Submission.assignment submission))
      as [a|]; [|now intros [= <-]].
    destruct (Assignment.is_quiz (Assignment.type a)); discriminate.
Qed.

(** X7: a create whose attachments Cloudinary rejects is answered with
    status 500, yet the assignment has been stored, without
    attachments. *)
Theorem create_stores_before_uploading (store : Store) (user : User.t)
    (body : CreateBody) (files : list MulterFile) (title : string)
    (qs : list QuestionInput.t) :
  authorize [User.teacher; User.admin] user = true ->
  b_title body = Some title ->
  present title = true ->
  documentQuestions castQuestions
    (fst (match b_type body with
          | Some Assignment.quiz => parseQuestions (b_questions body)
          | _ => (normalized [], 0%float)
          end)) = Some qs ->
  files <> [] ->
  saveFiles_ "ttls_assignments" files [] = None ->
  exists (store' : Store) (a : Assignment.t),
    create_ store user body files
    = (store', failure 500 "Failed to upload attachments")
    /\ assignments store' = assignments store ++ [a]
    /\ Assignment.title a = title
    /\ Assignment.createdBy a = User.id user
    /\ Assignment.attachments a = [].
Proof.
  intros Hauth Htitle Hpresent Hdoc Hfiles Hsave. unfold create.
  rewrite Hauth, Htitle. simpl negb. cbv iota.
  destruct (match b_type body with
            | Some Assignment.quiz => parseQuestions (b_questions body)
            | _ => (normalized [], 0%float)
            end) as [parsed total]. simpl in Hdoc.
  rewrite Hdoc, Hpresent. simpl negb. cbv iota.
  destruct files as [|f files]; [congruence|].
  rewrite Hsave. eexists. eexists.
  split; [reflexivity|]. simpl. now repeat split.
Qed.

(** X8: a submit with an answer that names no question is refused and
    stores nothing, whatever else it carries. *)
Theorem submit_needs_question_ids (now : Date) (store : Store)
    (id : ObjectId) (user : User.t) (body : SubmitBody)
    (files : list MulterFile) :
  Exists (fun x => RawAnswer.questionId x = None) (submittedAnswers body) ->
  exists (status : nat) (message : string),
    submit_ now store id user body files = (store, failure status message)
    /\ 400 <= status.
Proof.
  intros Hmissing.
  assert (Hcast : forall (f : RawAnswer.t -> RawAnswer.t) l,
            (forall x, RawAnswer.questionId (f x) = RawAnswer.questionId x) ->
            Exists (fun x => RawAnswer.questionId x = None) l ->
            castAnswers (map f l) = None).
  { intros f l Hf. induction 1 as [x rest Hx|x rest _ IH]; simpl.
    - unfold castAnswer. now rewrite Hf, Hx.
    - rewrite IH. now destruct (castAnswer (f x)). }
  unfold submit.
  change (match b_answers body with
          | a_items l => l
          | _ => []
          end) with (submittedAnswers body).
  destruct (findAssignment store id) as [a|];
    [|eexists; eexists; split; [reflexivity | lia]].
  destruct (_ && _); [eexists; eexists; split; [reflexivity | lia]|].
  destruct (match files with
            | [] => Some []
            | _ :: _ => saveFiles_ "ttls_submissions" files []
            end) as [saved|];
    [|eexists; eexists; split; [reflexivity | lia]].
  assert (Hnone : forall graded (auto : bool),
            castAnswers
              (if auto
               then map (mergeGraded graded)
                      (map (attachAnswerFile hasCloudinary
                              uploadBufferToCloudinary files)
                           (submittedAnswers body))
               else map (attachAnswerFile hasCloudinary
                           uploadBufferToCloudinary files)
                        (submittedAnswers body)) = None).
  { intros graded auto. destruct auto; rewrite ?map_map.
    - apply Hcast; [|exact Hmissing]. intros x. simpl.
      apply attach_fields.
    - apply Hcast; [|exact Hmissing]. intros x. apply attach_fields. }
  rewrite Hnone. eexists. eexists. split; [reflexivity | lia].
Qed.

(** Attaching an uploaded file keeps what the request says of an
    answer's grading. *)
Lemma attach_grading (files : list MulterFile) (x : RawAnswer.t) :
  let y := attachAnswerFile hasCloudinary uploadBufferToCloudinary files x in
  RawAnswer.isCorrect y = RawAnswer.isCorrect x
  /\ RawAnswer.points y = RawAnswer.points x
  /\ RawAnswer.feedback y = RawAnswer.feedback x.
Proof.
  unfold attachAnswerFile.
  destruct (RawAnswer.type x) as [kind|]; [|now repeat split].
  destruct (RawAnswer.fileIndex x) as [n|]; [|now repeat split].
  destruct (String.eqb kind "file-upload"); [|now repeat split].
  destruct (nth_error files n) as [f|]; [|now repeat split].
  destruct hasCloudinary; [|now repeat split].
  destruct (buffer f) as [b|]; [|now repeat split].
  now destruct (uploadBufferToCloudinary b (originalname f)
                  "ttls_submissions").
Qed.

Lemma sent_answers (files : list MulterFile) (l : list RawAnswer.t)
    (stored : list Answer.t) :
  castAnswers
    (map (attachAnswerFile hasCloudinary uploadBufferToCloudinary files) l)
  = Some stored ->
  Forall2 storedAsSent l stored.
Proof.
  revert stored. induction l as [|x rest IH]; intros stored H; simpl in H.
  - injection H as <-. constructor.
  - match type of H with
    | context [castAnswer ?y] => destruct (castAnswer y) as [d|] eqn:Ed
    end; [|discriminate H].
    match type of H with
    | context [castAnswers ?ys] => destruct (castAnswers ys) as [ds|] eqn:Eds
    end; [|discriminate H].
    injection H as <-. constructor; [|now apply IH].
    unfold castAnswer in Ed.
    destruct (attach_fields hasCloudinary uploadBufferToCloudinary files x)
      as (Hq & Ha & Hs).
    destruct (attach_grading files x) as (Hc & Hp & Hf).
    rewrite Hq, Ha, Hs, Hc, Hp, Hf in Ed.
    destruct (RawAnswer.questionId x) as [qid|] eqn:Eq; [|discriminate Ed].
    injection Ed as <-. unfold storedAsSent. simpl. now repeat split.
Qed.

(** The outcome of a submit that is not auto-graded. *)
Lemma submit_not_graded (now : Date) (store store' : Store)
    (id : ObjectId) (user : User.t) (body : SubmitBody)
    (files : list MulterFile) (a : Assignment.t) (s : Submission.t)
    (code : nat) :
  findAssignment store id = Some a ->
  gradedOnSubmit a body = false ->
  submit_ now store id user body files = (store', success code s) ->
  Forall2 storedAsSent (submittedAnswers body) (Submission.answers s)
  /\ match findSubmission store id (User.id user) with
     | Some existing =>
         Submission.grade s = Submission.grade existing
         /\ Submission.totalPoints s = Submission.totalPoints existing
         /\ Submission.isGraded s = Submission.isGraded existing
         /\ Submission.gradedAt s = Submission.gradedAt existing
         /\ Submission.autoGraded s = Submission.autoGraded existing
         /\ Submission.feedback s = Submission.feedback existing
     | None =>
         Submission.grade s = None
         /\ Submission.totalPoints s
            = Some (JS.or (Assignment.totalPoints a) 100%float)
         /\ Submission.isGraded s = false
         /\ Submission.gradedAt s = None
         /\ Submission.autoGraded s = false
         /\ Submission.feedback s = None
     end.
Proof.
  intros Ha Hnot H. unfold submit in H. rewrite Ha in H.
  change (match b_answers body with
          | a_items l => l
          | _ => []
          end) with (submittedAnswers body) in H.
  rewrite length_map in H. fold (gradedOnSubmit a body) in H.
  rewrite Hnot in H.
  destruct (_ && _) in H; [discriminate H|].
  destruct (match files with
            | [] => Some []
            | _ :: _ => saveFiles_ "ttls_submissions" files []
            end) as [saved|]; [|discriminate H].
  match type of H with
  | context [castAnswers ?l] => destruct (castAnswers l) as [answers|] eqn:Ec
  end; [|discriminate H].
  apply sent_answers in Ec.
  destruct (findSubmission store id (User.id user)) as [existing|];
    injection H as _ _ <-; simpl; now repeat split.
Qed.

(** X9: a first submission that is not auto-graded (not a quiz, grading
    switched off, or no answer) is stored without grade, not graded, with
    the assignment's [totalPoints], or 100 when that is 0, as its total;
    each stored answer keeps the points and correctness the request
    itself gave for it. *)
Theorem submit_first_not_graded (now : Date) (store store' : Store)
    (id : ObjectId) (user : User.t) (body : SubmitBody)
    (files : list MulterFile) (a : Assignment.t) (s : Submission.t) :
  findAssignment store id = Some a ->
  findSubmission store id (User.id user) = None ->
  gradedOnSubmit a body = false ->
  submit_ now store id user body files = (store', success 201 s) ->
  Submission.grade s = None
  /\ Submission.isGraded s = false
  /\ Submission.autoGraded s = false
  /\ Submission.totalPoints s
     = Some (if JS.truthy (Assignment.totalPoints a)
             then Assignment.totalPoints a else 100%float)
  /\ Forall2 (fun raw stored =>
                Answer.points stored = RawAnswer.points raw
                /\ Answer.isCorrect stored = RawAnswer.isCorrect raw)
             (submittedAnswers body) (Submission.answers s).
Proof.
  intros Ha Hnone Hnot H.
  destruct (submit_not_graded now store store' id user body files a s 201
              Ha Hnot H) as (Hsent & Hrest).
  rewrite Hnone in Hrest. destruct Hrest as (Hg & Ht & Hi & _ & Hauto & _).
  repeat split; try assumption.
  eapply Forall2_impl; [|exact Hsent].
  intros raw stored (_ & _ & _ & Hc & Hp & _). now split.
Qed.

(** X10: a resubmission that is not auto-graded replaces the work but
    keeps the grade, the total, the graded flag, the grading date and the
    feedback of the attempt it replaces. *)
Theorem submit_again_keeps_grade (now : Date) (store store' : Store)
    (id : ObjectId) (user : User.t) (body : SubmitBody)
    (files : list MulterFile) (a : Assignment.t)
    (existing s : Submission.t) :
  findAssignment store id = Some a ->
  findSubmission store id (User.id user) = Some existing ->
  gradedOnSubmit a body = false ->
  submit_ now store id user body files = (store', success 201 s) ->
  Submission.content s = b_content body
  /\ Submission.grade s = Submission.grade existing
  /\ Submission.totalPoints s = Submission.totalPoints existing
  /\ Submission.isGraded s = Submission.isGraded existing
  /\ Submission.gradedAt s = Submission.gradedAt existing
  /\ Submission.feedback s = Submission.feedback existing.
Proof.
  intros Ha He Hnot H.
  destruct (submit_not_graded now store store' id user body files a s 201
              Ha Hnot H) as (_ & Hrest).
  rewrite He in Hrest. destruct Hrest as (Hg & Ht & Hi & Hd & _ & Hf).
  destruct (submit_again hasCloudinary uploadBufferToCloudinary now store
              store' id user body files existing s 201 He H)
    as (_ & _ & _ & _ & Hc & _).
  now repeat split.
Qed.

(** *** What the writing routes do to the store *)

Lemma saveDoc_map {A B : Type} (f : A -> B) (same : A -> bool) (doc : A)
    (docs : list A) :
  (forall d, In d docs -> same d = true -> f d = f doc) ->
  map f (saveDoc same doc docs) = map f docs.
Proof.
  induction docs as [|d rest IH]; simpl; intros Hsame; [reflexivity|].
  destruct (same d) eqn:Es; simpl.
  - f_equal. symmetry. apply Hsame; [now left | exact Es].
  - f_equal. apply IH. intros d' Hin. apply Hsame. now right.
Qed.

Lemma saveDoc_Forall {A : Type} (P : A -> Prop) (same : A -> bool) (doc : A)
    (docs : list A) :
  P doc -> Forall P docs -> Forall P (saveDoc same doc docs).
Proof.
  intros Hdoc. induction 1 as [|d rest Hd Hrest IH]; simpl; [constructor|].
  destruct (same d); constructor; assumption.
Qed.

Lemma saveDoc_absent {A : Type} (same : A -> bool) (doc : A)
    (docs : list A) :
  (forall d, In d docs -> same d = false) -> saveDoc same doc docs = docs.
Proof.
  induction docs as [|d rest IH]; simpl; intros Hnone; [reflexivity|].
  rewrite (Hnone d (or_introl eq_refl)). f_equal. apply IH.
  intros d' Hin. apply Hnone. now right.
Qed.

Lemma saveDoc_last {A : Type} (same : A -> bool) (doc last : A)
    (docs : list A) :
  (forall d, In d docs -> same d = false) ->
  same last = true ->
  saveDoc same doc (docs ++ [last]) = docs ++ [doc].
Proof.
  induction docs as [|d rest IH]; simpl; intros Hnone Hlast.
  - now rewrite Hlast.
  - rewrite (Hnone d (or_introl eq_refl)). f_equal. apply IH; [|exact Hlast].
    intros d' Hin. apply Hnone. now right.
Qed.

Lemma NoDup_map_eq {A B : Type} (f : A -> B) (l : list A) (x y : A) :
  NoDup (map f l) -> In x l -> In y l -> f x = f y -> x = y.
Proof.
  induction l as [|z rest IH]; simpl; intros Hnodup Hx Hy Heq;
    [contradiction|].
  inversion Hnodup as [|? ? Hnotin Hrest]; subst.
  destruct Hx as [->|Hx], Hy as [->|Hy]; try reflexivity.
  - exfalso. apply Hnotin. rewrite Heq. now apply in_map.
  - exfalso. apply Hnotin. rewrite <- Heq. now apply in_map.
  - now apply IH.
Qed.

(** The store after a submit: as before, or with one submission appended
    for a pair that had none, or with the submission of the pair
    replaced. *)
Lemma submit_store (now : Date) (store store' : Store) (id : ObjectId)
    (user : User.t) (body : SubmitBody) (files : list MulterFile)
    (r : Response Submission.t) :
  submit_ now store id user body files = (store', r) ->
  store' = store
  \/ (exists s : Submission.t,
        findSubmission store id (User.id user) = None
        /\ store' = {| assignments := assignments store;
                       submissions := submissions store ++ [s];
                       nextId := S (nextId store) |}
        /\ Submission._id s = nextId store
        /\ pairOf s = (id, User.id user))
  \/ (exists existing s : Submission.t,
        findSubmission store id (User.id user) = Some existing
        /\ store' = saveSubmission s store
        /\ Submission._id s = Submission._id existing
        /\ pairOf s = pairOf existing).
Proof.
  unfold submit.
  destruct (findAssignment store id) as [a|] eqn:Ha;
    [|intros [= <- _]; now left].
  destruct (_ && _); [intros [= <- _]; now left|].
  destruct (match files with
            | [] => Some []
            | _ :: _ => saveFiles_ "ttls_submissions" files []
            end) as [saved|]; [|intros [= <- _]; now left].
  match goal with
  | |- context [castAnswers ?l] => destruct (castAnswers l) as [answers|]
  end; [|intros [= <- _]; now left].
  destruct (findSubmission store id (User.id user)) as [existing|];
    intros [= <- _]; right.
  - right. eexists. eexists. split; [reflexivity|].
    split; [reflexivity|]. now split.
  - left. eexists. split; [reflexivity|]. split; [reflexivity|].
    split; [reflexivity|]. unfold pairOf. simpl.
    now rewrite (findAssignment_id store id a Ha).
Qed.

(** The store after a grading: as before, or with the graded submission
    in the place of the one found. *)
Lemma gradeManually_store (now : Date) (store store' : Store)
    (assignmentId submissionId : ObjectId) (user : User.t)
    (body : GradeBody) (r : Response Submission.t) :
  gradeManually now store assignmentId submissionId user body = (store', r) ->
  store' = store
  \/ exists found graded : Submission.t,
       findSubmissionById store submissionId assignmentId = Some found
       /\ store' = saveSubmission graded store
       /\ r = success 200 graded
       /\ Submission._id graded = Submission._id found
       /\ pairOf graded = pairOf found.
Proof.
  unfold gradeManually.
  destruct (negb (authorize _ user)); [intros [= <- _]; now left|].
  destruct (findSubmissionById store submissionId assignmentId)
    as [found|]; [|intros [= <- _]; now left].
  match goal with
  | |- context [match ?regraded with Some _ => _ | None => _ end = _] =>
      destruct regraded as [[answers recomputed]|]
  end; [|intros [= <- _]; now left].
  intros [= <- <-]. right. eexists. eexists.
  split; [reflexivity|]. now repeat split.
Qed.

(** The store after a create: as before, or with one assignment more,
    under the next id. *)
Ltac unchanged :=
  intros [= <- <-]; left; split;
  [reflexivity | eexists; eexists; reflexivity].

Lemma create_store (store store' : Store) (user : User.t)
    (body : CreateBody) (files : list MulterFile)
    (r : Response Assignment.t) :
  create_ store user body files = (store', r) ->
  (store' = store /\ exists status message, r = failure status message)
  \/ exists (first a : Assignment.t) (n : nat),
       Assignment._id first = nextId store
       /\ Assignment._id a = nextId store
       /\ submissions store' = submissions store
       /\ nextId store' = S (nextId store) + n
       /\ (assignments store' = assignments store ++ [a]
           \/ assignments store'
              = saveDoc (fun d => Assignment._id d =? nextId store) a
                        (assignments store ++ [first]))
       /\ (forall code data, r = success code data -> data = a).
Proof.
  unfold create.
  destruct (negb (authorize _ user)); [unchanged|].
  destruct (match b_type body with
            | Some Assignment.quiz => parseQuestions (b_questions body)
            | _ => (normalized [], 0%float)
            end) as [parsed total].
  destruct (b_title body) as [title|]; [|unchanged].
  destruct (documentQuestions castQuestions parsed) as [qs|];
    [|unchanged].
  destruct (negb (present title)); [unchanged|].
  cbv zeta.
  destruct files as [|f files].
  - match goal with
    | |- (_, success _ ?d) = _ -> _ =>
        intros [= <- <-]; right; exists d, d, (List.length qs)
    end.
    simpl. repeat split; try reflexivity.
    + now left.
    + now intros code data [= _ <-].
  - destruct (saveFiles_ _ _ _) as [saved|].
    + match goal with
      | |- (saveAssignment ?d {| assignments := _ ++ [?first];
                                 submissions := _; nextId := _ |}, _) = _
           -> _ =>
          intros [= <- <-]; right; exists first, d, (List.length qs)
      end.
      simpl. repeat split; try reflexivity.
      * now right.
      * now intros code data [= _ <-].
    + match goal with
      | |- ({| assignments := _ ++ [?first];
               submissions := _; nextId := _ |}, _) = _ -> _ =>
          intros [= <- <-]; right; exists first, first, (List.length qs)
      end.
      simpl. repeat split; try reflexivity.
      * now left.
      * discriminate.
Qed.

(** The store after an update: as before, or with the updated assignment
    in the place of the one found. *)
Lemma update_store (store store' : Store) (id : ObjectId) (user : User.t)
    (body : CreateBody) (files : list MulterFile)
    (r : Response Assignment.t) :
  update_ store id user body files = (store', r) ->
  (store' = store /\ exists status message, r = failure status message)
  \/ exists (old a : Assignment.t) (n : nat),
       findAssignment store id = Some old
       /\ Assignment._id a = Assignment._id old
       /\ Assignment.createdBy a = Assignment.createdBy old
       /\ submissions store' = submissions store
       /\ nextId store' = nextId store + n
       /\ assignments store'
          = saveDoc (fun d => Assignment._id d =? Assignment._id old) a
                    (assignments store)
       /\ r = success 200 a.
Proof.
  unfold update.
  destruct (negb (authorize _ user)); [unchanged|].
  destruct (findAssignment store id) as [old|]; [|unchanged].
  destruct (_ && _); [unchanged|].
  destruct (match files with
            | [] => Some (Assignment.attachments old)
            | _ :: _ => saveFiles_ "ttls_assignments" files
                          (Assignment.attachments old)
            end) as [saved|]; [|unchanged].
  assert (Hdone : forall (a : Assignment.t) (n : nat)
                         (docs : list Assignment.t),
            Assignment._id a = Assignment._id old ->
            Assignment.createdBy a = Assignment.createdBy old ->
            docs = saveDoc (fun d => Assignment._id d =? Assignment._id old) a
                           (assignments store) ->
            ({| assignments := docs;
                submissions := submissions store;
                nextId := nextId store + n |}, success 200 a) = (store', r) ->
            (store' = store
             /\ exists status message, r = failure status message)
            \/ exists (old' a' : Assignment.t) (n' : nat),
                 Some old = Some old'
                 /\ Assignment._id a' = Assignment._id old'
                 /\ Assignment.createdBy a' = Assignment.createdBy old'
                 /\ submissions store' = submissions store
                 /\ nextId store' = nextId store + n'
                 /\ assignments store'
                    = saveDoc
                        (fun d => Assignment._id d =? Assignment._id old') a'
                        (assignments store)
                 /\ r = success 200 a').
  { intros a n docs Hid Hby Hdocs [= <- <-]. right. exists old, a, n.
    simpl. now repeat split. }
  destruct (b_questions body) as [|text|v|l];
    [ cbv zeta; apply Hdone; reflexivity | | | ];
    match goal with
    | |- context [parseQuestions ?p] =>
        destruct (parseQuestions p) as [parsed total]
    end;
    (destruct (documentQuestions castQuestions parsed) as [qs|];
     [ cbv zeta; apply Hdone; reflexivity
     | unchanged ]).
Qed.

(** *** The store stays consistent *)

Lemma NoDup_snoc {A : Type} (l : list A) (x : A) :
  NoDup l -> ~ In x l -> NoDup (l ++ [x]).
Proof.
  intros Hl Hx. apply (Permutation_NoDup (Permutation_cons_append l x)).
  now constructor.
Qed.

Lemma fresh_id {A : Type} (f : A -> nat) (l : list A) (n : nat) :
  Forall (fun d => f d < n) l -> ~ In n (map f l).
Proof.
  intros Hall Hin. apply in_map_iff in Hin as (d & Hd & Hin).
  rewrite Forall_forall in Hall. specialize (Hall d Hin). lia.
Qed.

Lemma older_ids {A : Type} (f : A -> nat) (l : list A) (n m : nat) :
  n <= m -> Forall (fun d => f d < n) l -> Forall (fun d => f d < m) l.
Proof.
  intros Hle. apply Forall_impl. intros d Hd. lia.
Qed.

Lemma find_none_pair (store : Store) (id student : ObjectId) :
  findSubmission store id student = None ->
  ~ In (id, student) (map pairOf (submissions store)).
Proof.
  unfold findSubmission. intros Hnone Hin.
  apply in_map_iff in Hin as (s & Hs & Hin).
  pose proof (find_none _ _ Hnone s Hin) as Hfalse. simpl in Hfalse.
  unfold pairOf in Hs. injection Hs as Hassignment Hstudent.
  now rewrite Hassignment, Hstudent, !Nat.eqb_refl in Hfalse.
Qed.

(** Saving a submission under the id and the pair of a stored one keeps
    the store consistent. *)
Lemma consistent_saveSubmission (store : Store) (found s : Submission.t) :
  consistent store ->
  In found (submissions store) ->
  Submission._id s = Submission._id found ->
  pairOf s = pairOf found ->
  consistent (saveSubmission s store).
Proof.
  intros (Ha & Hal & Hs & Hsl & Hp) Hin Hid Hpair.
  assert (Hsame : forall d, In d (submissions store) ->
            (Submission._id d =? Submission._id s) = true -> d = found).
  { intros d Hd Heq. apply Nat.eqb_eq in Heq.
    apply (NoDup_map_eq Submission._id (submissions store));
      try assumption. congruence. }
  assert (Hids : map Submission._id
                   (saveDoc (fun d => Submission._id d =? Submission._id s)
                            s (submissions store))
                 = map Submission._id (submissions store)).
  { apply saveDoc_map. intros d _ Heq. now apply Nat.eqb_eq in Heq. }
  assert (Hpairs : map pairOf
                     (saveDoc (fun d => Submission._id d =? Submission._id s)
                              s (submissions store))
                   = map pairOf (submissions store)).
  { apply saveDoc_map. intros d Hd Heq. now rewrite (Hsame d Hd Heq). }
  unfold consistent, saveSubmission; simpl. rewrite Hids, Hpairs.
  repeat split; try assumption.
  apply saveDoc_Forall; [|assumption].
  rewrite Hid. rewrite Forall_forall in Hsl. now apply Hsl.
Qed.

(** X11: the four writing routes keep the store consistent: ids stay
    unique, and there is never more than one submission of a student for
    an assignment, whether the request succeeds or fails. *)
Theorem writing_routes_keep_consistency (store : Store) :
  consistent store ->
  (forall (user : User.t) (body : CreateBody) (files : list MulterFile),
      consistent (fst (create_ store user body files)))
  /\ (forall (id : ObjectId) (user : User.t) (body : CreateBody)
             (files : list MulterFile),
         consistent (fst (update_ store id user body files)))
  /\ (forall (now : Date) (id : ObjectId) (user : User.t)
             (body : SubmitBody) (files : list MulterFile),
         consistent (fst (submit_ now store id user body files)))
  /\ (forall (now : Date) (assignmentId submissionId : ObjectId)
             (user : User.t) (body : GradeBody),
         consistent
           (fst (gradeManually now store assignmentId submissionId user
                   body))).
Proof.
  intros Hstore.
  pose proof Hstore as (Ha & Hal & Hs & Hsl & Hp).
  split; [|split; [|split]].
  - intros user body files.
    destruct (create_ store user body files) as [store' r] eqn:E.
    apply create_store in E. simpl.
    destruct E as [[-> _]|(first & a & n & Hfirst & Hid & Hsubs & Hnext
                           & Hdocs & _)]; [exact Hstore|].
    assert (Hnew : assignments store' = assignments store ++ [a]).
    { destruct Hdocs as [Hdocs|Hdocs]; [exact Hdocs|].
      rewrite Hdocs. apply saveDoc_last.
      - intros d Hd. apply Nat.eqb_neq.
        rewrite Forall_forall in Hal. specialize (Hal d Hd). lia.
      - rewrite Hfirst. apply Nat.eqb_refl. }
    unfold consistent. rewrite Hnew, Hsubs, Hnext, map_app. simpl.
    repeat split; try assumption.
    + apply NoDup_snoc; [exact Ha|]. rewrite Hid. now apply fresh_id.
    + apply Forall_app. split.
      * apply (older_ids _ _ (nextId store)); [lia | exact Hal].
      * constructor; [lia | constructor].
    + apply (older_ids _ _ (nextId store)); [lia | exact Hsl].
  - intros id user body files.
    destruct (update_ store id user body files) as [store' r] eqn:E.
    apply update_store in E. simpl.
    destruct E as [[-> _]|(old & a & n & Hold & Hid & _ & Hsubs & Hnext
                           & Hdocs & _)]; [exact Hstore|].
    assert (Hin : In old (assignments store)).
    { unfold findAssignment in Hold. now apply find_some in Hold. }
    unfold consistent. rewrite Hdocs, Hsubs, Hnext.
    rewrite saveDoc_map
      by (intros d _ Heq; apply Nat.eqb_eq in Heq; congruence).
    repeat split; try assumption.
    + apply saveDoc_Forall.
      * rewrite Hid. rewrite Forall_forall in Hal.
        specialize (Hal old Hin). lia.
      * apply (older_ids _ _ (nextId store)); [lia | exact Hal].
    + apply (older_ids _ _ (nextId store)); [lia | exact Hsl].
  - intros now id user body files.
    destruct (submit_ now store id user body files) as [store' r] eqn:E.
    apply submit_store in E. simpl.
    destruct E as [->|[(s & Hnone & -> & Hid & Hpair)
                      |(existing & s & Hsome & -> & Hid & Hpair)]];
      [exact Hstore | |].
    + unfold consistent. simpl. rewrite !map_app. simpl.
      repeat split; try assumption.
      * apply (older_ids _ _ (nextId store)); [lia | exact Hal].
      * apply NoDup_snoc; [exact Hs|]. rewrite Hid. now apply fresh_id.
      * apply Forall_app. split.
        -- apply (older_ids _ _ (nextId store)); [lia | exact Hsl].
        -- constructor; [lia | constructor].
      * apply NoDup_snoc; [exact Hp|]. rewrite Hpair.
        now apply find_none_pair.
    + apply (consistent_saveSubmission store existing); try assumption.
      unfold findSubmission in Hsome. now apply find_some in Hsome.
  - intros now assignmentId submissionId user body.
    destruct (gradeManually now store assignmentId submissionId user body)
      as [store' r] eqn:E.
    apply gradeManually_store in E. simpl.
    destruct E as [->|(found & graded & Hsome & -> & _ & Hid & Hpair)];
      [exact Hstore|].
    apply (consistent_saveSubmission store found); try assumption.
    unfold findSubmissionById in Hsome. now apply find_some in Hsome.
Qed.

(** *** What a request leaves alone *)

Lemma saveDoc_filter {A : Type} (P same : A -> bool) (doc : A)
    (docs : list A) :
  (forall d, In d docs -> same d = true -> P d = false) ->
  P doc = false ->
  filter P (saveDoc same doc docs) = filter P docs.
Proof.
  intros Hsame Hdoc. induction docs as [|d rest IH]; simpl; [reflexivity|].
  destruct (same d) eqn:Es; simpl.
  - now rewrite Hdoc, (Hsame d (or_introl eq_refl) Es).
  - rewrite IH; [reflexivity|]. intros d' Hin. apply Hsame. now right.
Qed.

(** X12: a submit changes no assignment and no submission of another
    student or for another assignment: those are the same, in the same
    order, before and after. *)
Theorem submit_touches_one_pair (now : Date) (store store' : Store)
    (id : ObjectId) (user : User.t) (body : SubmitBody)
    (files : list MulterFile) (r : Response Submission.t) :
  consistent store ->
  submit_ now store id user body files = (store', r) ->
  assignments store' = assignments store
  /\ ofOtherPairs id (User.id user) store'
     = ofOtherPairs id (User.id user) store.
Proof.
  intros (_ & _ & Hs & _ & _) H. apply submit_store in H.
  destruct H as [->|[(s & Hnone & -> & Hid & Hpair)
                    |(existing & s & Hsome & -> & Hid & Hpair)]].
  - now split.
  - split; [reflexivity|]. unfold ofOtherPairs. simpl.
    rewrite filter_app. simpl. unfold pairOf in Hpair.
    injection Hpair as -> ->. rewrite !Nat.eqb_refl. simpl.
    apply app_nil_r.
  - split; [reflexivity|]. unfold ofOtherPairs, saveSubmission. simpl.
    destruct (findSubmission_key store id (User.id user) existing Hsome)
      as [Hka Hks].
    assert (Hin : In existing (submissions store)).
    { unfold findSubmission in Hsome. now apply find_some in Hsome. }
    apply saveDoc_filter.
    + intros d Hd Heq. apply Nat.eqb_eq in Heq.
      assert (Hd' : d = existing).
      { apply (NoDup_map_eq Submission._id (submissions store));
          try assumption. congruence. }
      rewrite Hd', Hka, Hks, !Nat.eqb_refl. reflexivity.
    + unfold pairOf in Hpair. injection Hpair as -> ->.
      rewrite Hka, Hks, !Nat.eqb_refl. reflexivity.
Qed.

Lemma overrideAnswer_work (entries : list GradeEntry.t) (x : Answer.t) :
  Answer.questionId (overrideAnswer entries x) = Answer.questionId x
  /\ Answer.answer (overrideAnswer entries x) = Answer.answer x
  /\ Answer.answers (overrideAnswer entries x) = Answer.answers x
  /\ Answer.files (overrideAnswer entries x) = Answer.files x.
Proof.
  unfold overrideAnswer. now destruct (find _ entries).
Qed.

Lemma Forall2_map_right {A B : Type} (R : A -> B -> Prop) (f : A -> B)
    (l : list A) :
  (forall x, R x (f x)) -> Forall2 R l (map f l).
Proof.
  intros Hf. induction l as [|x rest IH]; simpl; constructor;
    [apply Hf | exact IH].
Qed.

Lemma Forall2_same {A : Type} (R : A -> A -> Prop) (l : list A) :
  (forall x, R x x) -> Forall2 R l l.
Proof.
  intros Hrefl. induction l as [|x rest IH]; constructor;
    [apply Hrefl | exact IH].
Qed.

(** A successful grading stores the graded submission in the place of
    the one found, with the same work. *)
Lemma gradeManually_work (now : Date) (store store' : Store)
    (assignmentId submissionId : ObjectId) (user : User.t)
    (body : GradeBody) (graded : Submission.t) (code : nat) :
  gradeManually now store assignmentId submissionId user body
  = (store', success code graded) ->
  exists found : Submission.t,
    findSubmissionById store submissionId assignmentId = Some found
    /\ store' = saveSubmission graded store
    /\ sameWork found graded.
Proof.
  unfold gradeManually.
  destruct (negb (authorize _ user)); [discriminate|].
  destruct (findSubmissionById store submissionId assignmentId)
    as [found|]; [|discriminate].
  intros H. exists found. split; [reflexivity|].
  destruct (b_gradedAnswers body) as [entries|].
  - destruct (findAssignment store (Submission.assignment found)) as [a|];
      [|discriminate H].
    destruct (Assignment.is_quiz (Assignment.type a));
      injection H as <- _ <-; (split; [reflexivity|]);
      unfold sameWork; simpl; repeat split.
    + apply Forall2_map_right. intros x.
      destruct (overrideAnswer_work entries x) as (H1 & H2 & H3 & H4).
      now repeat split.
    + apply Forall2_same. now repeat split.
  - injection H as <- _ <-. split; [reflexivity|].
    unfold sameWork; simpl; repeat split.
    apply Forall2_same. now repeat split.
Qed.

(** X13: a grading changes the grading of one submission only: the graded
    submission keeps its id, student, assignment, content, files, dates
    and, answer by answer, what the student answered; no assignment and
    no other submission changes; and the graded submission is the one
    found under the same ids afterwards. *)
Theorem gradeManually_touches_grading_only (now : Date)
    (store store' : Store) (assignmentId submissionId : ObjectId)
    (user : User.t) (body : GradeBody) (graded : Submission.t) :
  gradeManually now store assignmentId submissionId user body
  = (store', success 200 graded) ->
  (exists found : Submission.t,
      findSubmissionById store submissionId assignmentId = Some found
      /\ sameWork found graded)
  /\ assignments store' = assignments store
  /\ otherThan submissionId store' = otherThan submissionId store
  /\ findSubmissionById store' submissionId assignmentId = Some graded.
Proof.
  intros H.
  apply gradeManually_work in H as (found & Hfound & -> & Hwork).
  pose proof Hwork as (Hid & Hassignment & _).
  pose proof Hfound as Hkey. unfold findSubmissionById in Hkey.
  apply find_some in Hkey as [Hin Hkey]. apply andb_prop in Hkey.
  rewrite !Nat.eqb_eq in Hkey. destruct Hkey as [Hsid Haid].
  split; [now exists found|]. split; [reflexivity|]. split.
  - unfold otherThan, saveSubmission. simpl. apply saveDoc_filter.
    + intros d _ Heq. apply Nat.eqb_eq in Heq.
      rewrite Heq, Hid, Hsid, Nat.eqb_refl. reflexivity.
    + rewrite Hid, Hsid, Nat.eqb_refl. reflexivity.
  - unfold findSubmissionById, saveSubmission. simpl.
    apply (saveDoc_find _ _ graded found); [exact Hfound | |].
    + rewrite Hid. apply Nat.eqb_refl.
    + rewrite Hid, Hassignment, Hsid, Haid, !Nat.eqb_refl. reflexivity.
Qed.

Lemma saveDoc_twice {A : Type} (same : A -> bool) (doc : A)
    (docs : list A) :
  same doc = true ->
  saveDoc same doc (saveDoc same doc docs) = saveDoc same doc docs.
Proof.
  intros Hdoc. induction docs as [|d rest IH]; simpl; [reflexivity|].
  destruct (same d) eqn:Es; simpl.
  - now rewrite Hdoc.
  - now rewrite Es, IH.
Qed.

Lemma overrideAnswer_twice (entries : list GradeEntry.t) (x : Answer.t) :
  overrideAnswer entries (overrideAnswer entries x)
  = overrideAnswer entries x.
Proof.
  unfold overrideAnswer at 2.
  destruct (find _ entries) as [entry|] eqn:E.
  - unfold overrideAnswer. simpl. rewrite E. simpl.
    now destruct (GradeEntry.isCorrect entry), (GradeEntry.points entry),
      (GradeEntry.feedback entry).
  - unfold overrideAnswer. now rewrite E.
Qed.

(** X14: grading is idempotent: the same grading request, made again,
    is answered with the same grade, answers and feedback; made at the
    same instant it is answered with the same submission and leaves the
    store as the first one left it. *)
Theorem gradeManually_twice (now now' : Date) (store store' : Store)
    (assignmentId submissionId : ObjectId) (user : User.t)
    (body : GradeBody) (graded : Submission.t) :
  gradeManually now store assignmentId submissionId user body
  = (store', success 200 graded) ->
  exists (store'' : Store) (graded' : Submission.t),
    gradeManually now' store' assignmentId submissionId user body
    = (store'', success 200 graded')
    /\ Submission.grade graded' = Submission.grade graded
    /\ Submission.answers graded' = Submission.answers graded
    /\ Submission.feedback graded' = Submission.feedback graded
    /\ Submission.gradedAt graded' = Some now'
    /\ (now' = now -> store'' = store' /\ graded' = graded).
Proof.
  intros H.
  pose proof (gradeManually_work _ _ _ _ _ _ _ _ _ H)
    as (found & Hfound & Hstore & Hid & Hassignment & _).
  assert (Hagain : findSubmissionById store' submissionId assignmentId
                   = Some graded).
  { pose proof Hfound as Hkey. unfold findSubmissionById in Hkey.
    apply find_some in Hkey as [_ Hkey]. apply andb_prop in Hkey.
    rewrite !Nat.eqb_eq in Hkey. destruct Hkey as [Hsid Haid].
    rewrite Hstore. unfold findSubmissionById, saveSubmission. simpl.
    apply (saveDoc_find _ _ graded found); [exact Hfound | |].
    - rewrite Hid. apply Nat.eqb_refl.
    - rewrite Hid, Hassignment, Hsid, Haid, !Nat.eqb_refl. reflexivity. }
  assert (Hsaved : saveSubmission graded store' = store').
  { rewrite Hstore. unfold saveSubmission. simpl. f_equal.
    apply saveDoc_twice. apply Nat.eqb_refl. }
  assert (Hassignments : forall id,
            findAssignment store' id = findAssignment store id).
  { intros id. now rewrite Hstore. }
  assert (Hdone : forall s : Submission.t,
            Submission.grade s = Submission.grade graded ->
            Submission.answers s = Submission.answers graded ->
            Submission.feedback s = Submission.feedback graded ->
            Submission.gradedAt s = Some now' ->
            (now' = now -> s = graded) ->
            exists (store'' : Store) (graded' : Submission.t),
              (saveSubmission s store', success 200 s)
              = (store'', success 200 graded')
              /\ Submission.grade graded' = Submission.grade graded
              /\ Submission.answers graded' = Submission.answers graded
              /\ Submission.feedback graded' = Submission.feedback graded
              /\ Submission.gradedAt graded' = Some now'
              /\ (now' = now -> store'' = store' /\ graded' = graded)).
  { intros s Hg Ha Hf Hd Hsame. exists (saveSubmission s store'), s.
    split; [reflexivity|]. do 4 (split; [assumption|]).
    intros Hnow. rewrite (Hsame Hnow). now split. }
  unfold gradeManually in H |- *.
  destruct (negb (authorize _ user)); [discriminate H|].
  rewrite Hagain, Hassignments, Hassignment. rewrite Hfound in H.
  destruct (b_gradedAnswers body) as [entries|].
  - destruct (findAssignment store (Submission.assignment found)) as [a|];
      [|discriminate H].
    destruct (Assignment.is_quiz (Assignment.type a));
      injection H as _ <-; simpl;
      rewrite ?map_map;
      rewrite ?(map_ext _ _ (overrideAnswer_twice entries));
      apply Hdone; simpl; try reflexivity;
      try (now destruct (b_grade body));
      try (now destruct (b_feedback body));
      intros ->; now destruct (b_grade body), (b_feedback body).
  - injection H as _ <-; simpl.
    apply Hdone; simpl; try reflexivity;
      try (now destruct (b_grade body));
      try (now destruct (b_feedback body));
      intros ->; now destruct (b_grade body), (b_feedback body).
Qed.

(** *** Writing, then reading *)

Lemma saveDoc_find_other {A : Type} (P same : A -> bool) (doc : A)
    (docs : list A) :
  (forall d, same d = true -> P d = false) ->
  P doc = false ->
  find P (saveDoc same doc docs) = find P docs.
Proof.
  intros Hsame Hdoc. induction docs as [|d rest IH]; simpl; [reflexivity|].
  destruct (same d) eqn:Es; simpl.
  - now rewrite Hdoc, (Hsame d Es).
  - now rewrite IH.
Qed.

Lemma find_app_other {A : Type} (P : A -> bool) (l : list A) (x : A) :
  P x = false -> find P (l ++ [x]) = find P l.
Proof.
  intros Hx. rewrite find_app_last. rewrite Hx. now destruct (find P l).
Qed.

(** X15: an assignment that was created is found under its id, which no
    assignment had before, and is what GET /:id answers with; every
    other id is answered as before the create. *)
Theorem create_then_get (store store' : Store) (user : User.t)
    (body : CreateBody) (files : list MulterFile) (a : Assignment.t)
    (users : list UserDoc.t) :
  consistent store ->
  create_ store user body files = (store', success 201 a) ->
  findAssignment store (Assignment._id a) = None
  /\ (exists found : FoundAssignment,
         getAssignment users store' (Assignment._id a) = success 200 found
         /\ found_assignment found = a)
  /\ forall id : ObjectId,
       id <> Assignment._id a ->
       getAssignment users store' id = getAssignment users store id.
Proof.
  intros (_ & Hal & _) H. apply create_store in H.
  destruct H as [(_ & status & message & Hfailure)
                |(first & a' & n & Hfirst & Hid & _ & _ & Hdocs & Hdata)];
    [discriminate Hfailure|].
  rewrite <- (Hdata 201 a eq_refl) in *. clear Hdata.
  assert (Hold : forall d, In d (assignments store) ->
            (Assignment._id d =? nextId store) = false).
  { intros d Hd. apply Nat.eqb_neq.
    rewrite Forall_forall in Hal. specialize (Hal d Hd). lia. }
  assert (Hnew : assignments store' = assignments store ++ [a]).
  { destruct Hdocs as [Hdocs|Hdocs]; [exact Hdocs|].
    rewrite Hdocs. apply saveDoc_last; [exact Hold|].
    rewrite Hfirst. apply Nat.eqb_refl. }
  assert (Hnone : findAssignment store (Assignment._id a) = None).
  { unfold findAssignment. rewrite Hid.
    destruct (find _ (assignments store)) as [d|] eqn:E; [|reflexivity].
    apply find_some in E as [Hd E]. now rewrite (Hold d Hd) in E. }
  split; [exact Hnone|]. split.
  - unfold getAssignment.
    assert (Hfound : findAssignment store' (Assignment._id a) = Some a).
    { unfold findAssignment in *. rewrite Hnew.
      apply find_app_new; [exact Hnone | apply Nat.eqb_refl]. }
    rewrite Hfound. eexists. split; reflexivity.
  - intros id Hne. unfold getAssignment, findAssignment. rewrite Hnew.
    rewrite find_app_other; [reflexivity|]. now apply Nat.eqb_neq.
Qed.

(** X16: an assignment that was updated is what GET /:id answers with
    under the same id; it keeps its id and its creator; every other id
    is answered as before the update. *)
Theorem update_then_get (store store' : Store) (id : ObjectId)
    (user : User.t) (body : CreateBody) (files : list MulterFile)
    (a : Assignment.t) (users : list UserDoc.t) :
  update_ store id user body files = (store', success 200 a) ->
  Assignment._id a = id
  /\ (exists old : Assignment.t,
         findAssignment store id = Some old
         /\ Assignment.createdBy a = Assignment.createdBy old)
  /\ (exists found : FoundAssignment,
         getAssignment users store' id = success 200 found
         /\ found_assignment found = a)
  /\ forall id' : ObjectId,
       id' <> id ->
       getAssignment users store' id' = getAssignment users store id'.
Proof.
  intros H. apply update_store in H.
  destruct H as [(_ & status & message & Hfailure)
                |(old & a' & n & Hold & Hid & Hby & _ & _ & Hdocs & Hdata)];
    [discriminate Hfailure|].
  injection Hdata as <-.
  pose proof (findAssignment_id store id old Hold) as Hkey.
  split; [congruence|]. split; [now exists old|]. split.
  - assert (Hfound : findAssignment store' id = Some a).
    { unfold findAssignment in *. rewrite Hdocs.
      apply (saveDoc_find _ _ a old); [exact Hold | apply Nat.eqb_refl |].
      rewrite Hid, Hkey. apply Nat.eqb_refl. }
    unfold getAssignment. rewrite Hfound. eexists. split; reflexivity.
  - intros id' Hne. unfold getAssignment, findAssignment. rewrite Hdocs.
    rewrite saveDoc_find_other; [reflexivity | |].
    + intros d Hd. apply Nat.eqb_eq in Hd. apply Nat.eqb_neq. congruence.
    + apply Nat.eqb_neq. congruence.
Qed.

(** *** Attachments *)

Lemma uploadEach_appends (folder : string) (files : list MulterFile)
    (saved result : list File) :
  uploadEach uploadBufferToCloudinary folder files saved = Some result ->
  exists added : list File,
    result = saved ++ added
    /\ map filename added = map originalname (buffered files)
    /\ map fileType added = map mimetype (buffered files).
Proof.
  revert saved. induction files as [|f rest IH]; intros saved; simpl.
  - intros [= <-]. exists []. now rewrite app_nil_r.
  - unfold buffered. simpl. fold (buffered rest).
    destruct (buffer f) as [b|]; [|apply IH].
    destruct (uploadBufferToCloudinary b (originalname f) folder)
      as [uploaded|]; [|discriminate].
    intros H. apply IH in H as (added & -> & Hnames & Htypes).
    exists (cloudFile f uploaded :: added). rewrite <- app_assoc. simpl.
    now rewrite Hnames, Htypes.
Qed.

Lemma uploadEach_rejected (folder : string) (files : list MulterFile)
    (saved : list File) :
  uploadEach uploadBufferToCloudinary folder files saved = None
  <-> Exists (rejected uploadBufferToCloudinary folder) files.
Proof.
  revert saved. induction files as [|f rest IH]; intros saved; simpl.
  - split; [discriminate | intros H; inversion H].
  - destruct (buffer f) as [b|] eqn:Eb.
    + destruct (uploadBufferToCloudinary b (originalname f) folder)
        as [uploaded|] eqn:Eu.
      * rewrite IH. split; [now right|].
        intros H. inversion H as [? ? (b' & Hb & Hu)|]; subst;
          [|assumption]. congruence.
      * split; [|reflexivity]. intros _. left. now exists b.
    + rewrite IH. split; [now right|].
      intros H. inversion H as [? ? (b' & Hb & Hu)|]; subst;
        [|assumption]. congruence.
Qed.

Lemma saveFiles_appends (folder : string) (files : list MulterFile)
    (saved result : list File) :
  saveFiles_ folder files saved = Some result ->
  exists added : list File,
    result = saved ++ added
    /\ map filename added
       = map originalname (if hasCloudinary then buffered files else files)
    /\ map fileType added
       = map mimetype (if hasCloudinary then buffered files else files).
Proof.
  unfold saveFiles. destruct hasCloudinary.
  - apply uploadEach_appends.
  - intros [= <-]. exists (map localFile files).
    rewrite !map_map. now split.
Qed.

(** X17: the attachment block of the writing routes is all or nothing.
    It fails exactly when Cloudinary is configured and rejects one of the
    files that come with a buffer; otherwise it appends to what was
    saved before one entry per file, in the order of the request, with
    the name and type of the file: for every file when Cloudinary is not
    configured, for the files with a buffer when it is (the others are
    skipped without an error). *)
Theorem saveFiles_all_or_nothing (folder : string)
    (files : list MulterFile) (saved : list File) :
  (saveFiles_ folder files saved = None
   <-> hasCloudinary = true
       /\ Exists (rejected uploadBufferToCloudinary folder) files)
  /\ forall result : list File,
       saveFiles_ folder files saved = Some result ->
       exists added : list File,
         result = saved ++ added
         /\ map filename added
            = map originalname
                (if hasCloudinary then buffered files else files)
         /\ map fileType added
            = map mimetype
                (if hasCloudinary then buffered files else files).
Proof.
  split; [|intros result; apply saveFiles_appends].
  unfold saveFiles. destruct hasCloudinary.
  - rewrite uploadEach_rejected. split; [now split | now intros [_ H]].
  - split; [discriminate | now intros [H _]].
Qed.

(** X18: an update never drops or reorders an attachment: the attachments
    after a successful update are those before it, followed by one entry
    per file of the request that is kept, under the name of the file. *)
Theorem update_appends_attachments (store store' : Store) (id : ObjectId)
    (user : User.t) (body : CreateBody) (files : list MulterFile)
    (a : Assignment.t) :
  update_ store id user body files = (store', success 200 a) ->
  exists (old : Assignment.t) (added : list File),
    findAssignment store id = Some old
    /\ Assignment.attachments a = Assignment.attachments old ++ added
    /\ map filename added
       = map originalname (if hasCloudinary then buffered files else files).
Proof.
  unfold update.
  destruct (negb (authorize _ user)); [discriminate|].
  destruct (findAssignment store id) as [old|]; [|discriminate].
  destruct (_ && _); [discriminate|].
  destruct (match files with
            | [] => Some (Assignment.attachments old)
            | _ :: _ => saveFiles_ "ttls_assignments" files
                          (Assignment.attachments old)
            end) as [saved|] eqn:Es; [|discriminate].
  assert (Hsaved : exists added : list File,
            saved = Assignment.attachments old ++ added
            /\ map filename added
               = map originalname
                   (if hasCloudinary then buffered files else files)).
  { destruct files as [|f files].
    - injection Es as <-. exists []. rewrite app_nil_r.
      now destruct hasCloudinary.
    - apply saveFiles_appends in Es as (added & Hadded & Hnames & _).
      now exists added. }
  destruct Hsaved as (added & -> & Hnames).
  destruct (b_questions body) as [|text|v|l];
    [ simpl; intros [= _ <-]; now exists old, added | | | ];
    match goal with
    | |- context [parseQuestions ?p] =>
        destruct (parseQuestions p) as [parsed total]
    end;
    (destruct (documentQuestions castQuestions parsed) as [qs|];
     [ intros [= _ <-]; now exists old, added | discriminate ]).
Qed.

(** *** Who may write, and what *)

Lemma saveDoc_found {A : Type} (key : A -> nat) (k : nat) (doc : A)
    (docs : list A) :
  find (fun d => key d =? k) docs = Some doc ->
  saveDoc (fun d => key d =? key doc) doc docs = docs.
Proof.
  intros Hfound.
  assert (Hkey : key doc = k).
  { apply find_some in Hfound as [_ H]. now apply Nat.eqb_eq. }
  rewrite Hkey.
  induction docs as [|d rest IH]; simpl in *; [reflexivity|].
  destruct (key d =? k).
  - now injection Hfound as ->.
  - f_equal. now apply IH.
Qed.

(** X19: an update that supplies nothing, no field and no file, is
    answered with the assignment as it is stored and leaves the store as
    it was. *)
Theorem update_nothing (store : Store) (id : ObjectId) (user : User.t)
    (body : CreateBody) (old : Assignment.t) :
  authorize [User.teacher; User.admin] user = true ->
  findAssignment store id = Some old ->
  Assignment.createdBy old = User.id user
  \/ User.role_of user = User.admin ->
  nothingSupplied body ->
  update_ store id user body [] = (store, success 200 old).
Proof.
  intros Hauth Hold Hmay (Ht & Hd & Hi & Hk & Hdue & Hl & Hq & Hg & Hr).
  unfold update. rewrite Hauth, Hold. simpl negb. cbv iota.
  assert (Hallowed : negb (Assignment.createdBy old =? User.id user)
                     && negb (User.role_eqb (User.role_of user) User.admin)
                     = false).
  { destruct Hmay as [->| ->]; [now rewrite Nat.eqb_refl|].
    apply andb_false_r. }
  rewrite Hallowed, Ht, Hd, Hi, Hk, Hdue, Hl, Hq, Hg, Hr. cbv iota zeta.
  assert (Hsame : forall doc : Assignment.t,
            {| Assignment._id := Assignment._id doc;
               Assignment.title := Assignment.title doc;
               Assignment.description := Assignment.description doc;
               Assignment.instructions := Assignment.instructions doc;
               Assignment.lesson := Assignment.lesson doc;
               Assignment.type := Assignment.type doc;
               Assignment.dueDate := Assignment.dueDate doc;
               Assignment.createdBy := Assignment.createdBy doc;
               Assignment.attachments := Assignment.attachments doc;
               Assignment.questions := Assignment.questions doc;
               Assignment.totalPoints := Assignment.totalPoints doc;
               Assignment.allowAutomaticGrading :=
                 Assignment.allowAutomaticGrading doc;
               Assignment.allowResubmission :=
                 Assignment.allowResubmission doc |} = doc)
    by (now intros []).
  rewrite Hsame. unfold saveAssignment. simpl.
  unfold findAssignment in Hold. rewrite (saveDoc_found _ _ _ _ Hold).
  rewrite Nat.add_0_r. now destruct store.
Qed.

(** X20: only the creator of an assignment, or an admin, updates it:
    anybody else is answered 403 and nothing changes.  *)
Theorem update_by_creator_or_admin (store : Store) (id : ObjectId)
    (user : User.t) (body : CreateBody) (files : list MulterFile)
    (old : Assignment.t) :
  findAssignment store id = Some old ->
  Assignment.createdBy old <> User.id user ->
  User.role_of user <> User.admin ->
  exists message : string,
    update_ store id user body files = (store, failure 403 message).
Proof.
  intros Hold Hcreator Hadmin. unfold update. rewrite Hold.
  destruct (negb (authorize _ user)); [now eexists|].
  apply Nat.eqb_neq in Hcreator. rewrite Hcreator.
  destruct (User.role_of user); [| | congruence]; eexists; reflexivity.
Qed.

(** X21: what the guards of the other routes do not look at.  Grading,
    the statistics and the list of submissions are the same for every
    teacher and admin, whoever created the assignment; and a submit
    depends on the id of the user only, not on the role. *)
Theorem routes_do_not_check_ownership (store : Store)
    (user user' : User.t) :
  (authorize [User.teacher; User.admin] user = true ->
   authorize [User.teacher; User.admin] user' = true ->
   (forall (now : Date) (assignmentId submissionId : ObjectId)
           (body : GradeBody),
       gradeManually now store assignmentId submissionId user body
       = gradeManually now store assignmentId submissionId user' body)
   /\ (forall id : ObjectId,
          listStatistics store id user = listStatistics store id user')
   /\ (forall (users : list UserDoc.t) (id : ObjectId),
          getSubmissions users store id user
          = getSubmissions users store id user'))
  /\ (User.id user = User.id user' ->
      forall (now : Date) (id : ObjectId) (body : SubmitBody)
             (files : list MulterFile),
        submit_ now store id user body files
        = submit_ now store id user' body files).
Proof.
  split.
  - intros Hauth Hauth'. repeat split; intros;
      unfold gradeManually, listStatistics, getSubmissions;
      now rewrite Hauth, Hauth'.
  - intros Hid now id body files. unfold submit. now rewrite Hid.
Qed.

(** *** The statistics *)

(** The order of two positive finite binary64 values. *)
Lemma compare_finite (m m' : positive) (e e' : Z) :
  SFcompare (S754_finite false m e) (S754_finite false m' e')
  = Some match (e ?= e')%Z with
         | Lt => Lt
         | Gt => Gt
         | Eq => (m ?= m')%positive
         end.
Proof. reflexivity. Qed.

(** 70, 80 and 90 have the exponent -46; their mantissas split the
    mantissas of that exponent in four ranges. *)
Lemma range_of_mantissa (m : positive) :
  let below (c : positive) :=
    match (m ?= c)%positive with Lt => true | _ => false end in
  let from (c : positive) :=
    match (c ?= m)%positive with Gt => false | _ => true end in
  Nat.b2n (from 6333186975989760%positive)
  + Nat.b2n (from 5629499534213120%positive
             && below 6333186975989760%positive)
  + Nat.b2n (from 4925812092436480%positive
             && below 5629499534213120%positive)
  + Nat.b2n (below 4925812092436480%positive) = 1.
Proof.
  cbv beta zeta. rewrite !(Pos.compare_antisym m).
  destruct (Pos.compare_spec m 6333186975989760),
           (Pos.compare_spec m 5629499534213120),
           (Pos.compare_spec m 4925812092436480);
    try reflexivity; exfalso;
    first
      [ subst m;
        match goal with
        | H : _ = _ |- _ => discriminate H
        | H : (_ < _)%positive |- _ => vm_compute in H; discriminate H
        end
      | match goal with
        | H1 : (m < ?a)%positive, H2 : (?b < m)%positive |- _ =>
            pose proof (Pos.lt_trans _ _ _ H2 H1) as Habsurd;
            vm_compute in Habsurd; discriminate Habsurd
        end ].
Qed.

Lemma one_range_spec (f : spec_float) :
  Nat.b2n (SFleb (S754_finite false 6333186975989760 (-46)) f)
  + Nat.b2n (SFleb (S754_finite false 5629499534213120 (-46)) f
             && SFltb f (S754_finite false 6333186975989760 (-46)))
  + Nat.b2n (SFleb (S754_finite false 4925812092436480 (-46)) f
             && SFltb f (S754_finite false 5629499534213120 (-46)))
  + Nat.b2n (SFltb f (S754_finite false 4925812092436480 (-46)))
  + Nat.b2n (negb (SFeqb f f)) = 1.
Proof.
  destruct f as [[]|[]| |[] m e]; try reflexivity.
  - unfold SFleb, SFltb, SFeqb, SFcompare.
    now rewrite Z.compare_refl, Pos.compare_cont_refl.
  - unfold SFleb, SFltb, SFeqb. rewrite !compare_finite.
    rewrite Z.compare_refl, Pos.compare_refl.
    rewrite (Z.compare_antisym e (-46)).
    destruct (Z.compare e (-46)); [|reflexivity|reflexivity].
    cbn [CompOpp negb Nat.b2n]. rewrite Nat.add_0_r.
    apply range_of_mantissa.
Qed.

(** A grade falls in exactly one of the four ranges, unless it is
    [NaN]. *)
Lemma one_range (g : JS.number) :
  Nat.b2n (90 <=? g)%float
  + Nat.b2n ((80 <=? g) && (g <? 90))%float
  + Nat.b2n ((70 <=? g) && (g <? 80))%float
  + Nat.b2n (g <? 70)%float
  + Nat.b2n (PrimFloat.is_nan g) = 1.
Proof.
  unfold PrimFloat.is_nan.
  rewrite !leb_spec, !ltb_spec, eqb_spec.
  apply one_range_spec.
Qed.

Lemma ranges_add_up (subs : list Submission.t) :
  countGraded (fun g => 90 <=? g)%float subs
  + countGraded (fun g => (80 <=? g) && (g <? 90))%float subs
  + countGraded (fun g => (70 <=? g) && (g <? 80))%float subs
  + countGraded (fun g => g <? 70)%float subs
  + countGraded PrimFloat.is_nan subs
  = List.length (filter hasGrade subs).
Proof.
  unfold countGraded, hasGrade.
  induction subs as [|s rest IH]; simpl; [reflexivity|].
  destruct (Submission.grade s) as [g|]; [|exact IH].
  pose proof (one_range g) as Hone.
  destruct (90 <=? g)%float, (80 <=? g)%float, (70 <=? g)%float,
    (g <? 90)%float, (g <? 80)%float, (g <? 70)%float,
    (PrimFloat.is_nan g); simpl in *; lia.
Qed.

Lemma graded_or_not (subs : list Submission.t) :
  List.length (filter hasGrade subs)
  + List.length (filter (fun s => negb (hasGrade s)) subs)
  = List.length subs.
Proof.
  induction subs as [|s rest IH]; simpl; [reflexivity|].
  destruct (hasGrade s); simpl; lia.
Qed.

(** X22: the numbers of the statistics add up.  Every submission of the
    assignment is counted once as graded or ungraded; the summaries list
    each of them; and every graded submission falls in exactly one of the
    four ranges of the distribution, unless its grade is [NaN], which is
    in none. *)
Theorem listStatistics_counts_add_up (store : Store) (id : ObjectId)
    (user : User.t) (d : Statistics) :
  listStatistics store id user = success 200 d ->
  total d = List.length (submissionsOf store id)
  /\ graded d + ungraded d = total d
  /\ d_ungraded (gradeDistribution d) = ungraded d
  /\ map s_id (st_submissions d)
     = map Submission._id (submissionsOf store id)
  /\ excellent (gradeDistribution d) + good (gradeDistribution d)
     + satisfactory (gradeDistribution d)
     + needsImprovement (gradeDistribution d)
     + countGraded PrimFloat.is_nan (submissionsOf store id)
     = graded d.
Proof.
  unfold listStatistics.
  destruct (negb (authorize _ user)); [discriminate|].
  destruct (findAssignment store id) as [a|]; [|discriminate].
  intros [= <-]. simpl. fold (submissionsOf store id).
  pose proof (graded_or_not (submissionsOf store id)) as Hsplit.
  split; [reflexivity|]. split; [lia|]. split; [lia|].
  split; [now rewrite map_map|].
  rewrite <- ranges_add_up. unfold countGraded, gradeIs. reflexivity.
Qed.

(** *** A submit, then the statistics *)

Lemma saveDoc_count {A : Type} (P same : A -> bool) (doc : A)
    (docs : list A) :
  (forall d, In d docs -> same d = true -> P d = P doc) ->
  List.length (filter P (saveDoc same doc docs))
  = List.length (filter P docs).
Proof.
  induction docs as [|d rest IH]; simpl; intros Hsame; [reflexivity|].
  destruct (same d) eqn:Es; simpl.
  - rewrite (Hsame d (or_introl eq_refl) Es). now destruct (P doc).
  - destruct (P d); simpl; rewrite IH; try reflexivity;
      intros d' Hin; apply Hsame; now right.
Qed.

(** X23: after a successful submit the statistics of the assignment
    count one submission more when it was the student's first, and as
    many as before when it was a resubmission; the submission is among
    those the statistics list. *)
Theorem submit_then_statistics (now : Date) (store store' : Store)
    (id : ObjectId) (user teacher : User.t) (body : SubmitBody)
    (files : list MulterFile) (s : Submission.t) :
  consistent store ->
  authorize [User.teacher; User.admin] teacher = true ->
  submit_ now store id user body files = (store', success 201 s) ->
  exists d d' : Statistics,
    listStatistics store id teacher = success 200 d
    /\ listStatistics store' id teacher = success 200 d'
    /\ total d'
       = match findSubmission store id (User.id user) with
         | Some _ => total d
         | None => S (total d)
         end
    /\ In (Submission._id s) (map s_id (st_submissions d')).
Proof.
  intros (_ & _ & Hs & _ & _) Hauth H.
  assert (Ha : exists a, findAssignment store id = Some a).
  { unfold submit in H. destruct (findAssignment store id) as [a|];
      [now exists a | discriminate H]. }
  destruct Ha as [a Ha].
  pose proof (submit_stored hasCloudinary uploadBufferToCloudinary _ _ _ _
                _ _ _ _ _ H) as Hstored.
  assert (Hlisted : In s (filter (fun s => Submission.assignment s =? id)
                                 (submissions store'))).
  { unfold findSubmission in Hstored. apply find_some in Hstored.
    destruct Hstored as [Hin Hkey]. apply andb_prop in Hkey.
    apply filter_In. now split. }
  assert (Hassignments : findAssignment store' id = Some a).
  { destruct (findSubmission store id (User.id user)) as [existing|] eqn:He.
    - destruct (submit_again hasCloudinary uploadBufferToCloudinary _ _ _ _
                  _ _ _ _ _ _ He H) as (-> & _). exact Ha.
    - destruct (submit_first hasCloudinary uploadBufferToCloudinary _ _ _ _
                  _ _ _ _ _ He H) as (Hsame & _).
      unfold findAssignment in *. now rewrite Hsame. }
  unfold listStatistics. rewrite Hauth, Ha, Hassignments. simpl negb.
  cbv iota. eexists. eexists. split; [reflexivity|].
  split; [reflexivity|]. simpl. split.
  - destruct (findSubmission store id (User.id user)) as [existing|] eqn:He.
    + destruct (submit_again hasCloudinary uploadBufferToCloudinary _ _ _ _
                  _ _ _ _ _ _ He H) as (-> & Hid & Hsa & _).
      unfold saveSubmission. simpl. apply saveDoc_count.
      intros d Hd Heq. apply Nat.eqb_eq in Heq.
      assert (Hd' : d = existing).
      { unfold findSubmission in He. apply find_some in He as [Hin _].
        apply (NoDup_map_eq Submission._id (submissions store));
          try assumption. congruence. }
      now rewrite Hd', Hsa.
    + destruct (submit_first hasCloudinary uploadBufferToCloudinary _ _ _ _
                  _ _ _ _ _ He H) as (_ & -> & Hsa & _).
      rewrite filter_app, length_app. simpl.
      rewrite Hsa, Nat.eqb_refl. simpl. lia.
  - rewrite map_map. simpl.
    apply (in_map Submission._id) in Hlisted. exact Hlisted.
Qed.

(** *** Questions and files *)

(** X24: questions are kept for quizzes only: a create of any other type
    stores no question and a total of 0, whatever [questions] the request
    carries, and automatic grading is then off unless asked for. *)
Theorem create_questions_for_quizzes_only (store store' : Store)
    (user : User.t) (body : CreateBody) (files : list MulterFile)
    (a : Assignment.t) :
  b_type body <> Some Assignment.quiz ->
  create_ store user body files = (store', success 201 a) ->
  Assignment.questions a = []
  /\ Assignment.totalPoints a = 0%float
  /\ (b_allowAutomaticGrading body = None ->
      Assignment.allowAutomaticGrading a = false).
Proof.
  intros Htype. unfold create.
  destruct (negb (authorize _ user)); [discriminate|].
  assert (Hparsed : match b_type body with
                    | Some Assignment.quiz => parseQuestions (b_questions body)
                    | _ => (normalized [], 0%float)
                    end = (normalized [], 0%float)).
  { destruct (b_type body) as [[]|]; try reflexivity. congruence. }
  rewrite Hparsed. unfold documentQuestions. simpl forallb. cbv iota.
  destruct (b_title body) as [title|]; [|discriminate].
  destruct (negb (present title)); [discriminate|].
  assert (Hauto : b_allowAutomaticGrading body = None ->
            match b_allowAutomaticGrading body with
            | Some b => b
            | None => match b_type body with
                      | Some k => Assignment.is_quiz k
                      | None => false
                      end
            end = false).
  { intros ->. destruct (b_type body) as [[]|]; try reflexivity.
    congruence. }
  destruct files as [|f files]; cbv zeta.
  - intros [= _ <-]. simpl. now repeat split.
  - destruct (saveFiles_ _ _ _) as [saved|]; [|discriminate].
    intros [= _ <-]. simpl. now repeat split.
Qed.

Ltac unattached :=
  exists []; rewrite app_nil_r; split; [reflexivity|];
  split; [simpl; lia|];
  split; [congruence | intros Hno Htype i g Hi Hn; congruence].

Lemma attach_files (files : list MulterFile) (x : RawAnswer.t) :
  exists added : list File,
    JS.arr_or
      (RawAnswer.files
         (attachAnswerFile hasCloudinary uploadBufferToCloudinary files x))
    = JS.arr_or (RawAnswer.files x) ++ added
    /\ List.length added <= 1
    /\ (added <> [] ->
        RawAnswer.type x = Some "file-upload"
        /\ exists (i : nat) (f : MulterFile),
             RawAnswer.fileIndex x = Some i
             /\ nth_error files i = Some f
             /\ map filename added = [originalname f]
             /\ map fileType added = [mimetype f])
    /\ (hasCloudinary = false ->
        RawAnswer.type x = Some "file-upload" ->
        forall (i : nat) (f : MulterFile),
          RawAnswer.fileIndex x = Some i ->
          nth_error files i = Some f ->
          added = [localFile f]).
Proof.
  unfold attachAnswerFile.
  destruct (RawAnswer.type x) as [kind|]; [|unattached].
  destruct (RawAnswer.fileIndex x) as [n|]; [|unattached].
  destruct (String.eqb_spec kind "file-upload") as [->|Hkind];
    [|unattached].
  destruct (nth_error files n) as [f|] eqn:Ef; [|unattached].
  assert (Hpush : forall file : File,
            filename file = originalname f ->
            fileType file = mimetype f ->
            (hasCloudinary = false -> file = localFile f) ->
            exists added : list File,
              JS.arr_or (RawAnswer.files x) ++ [file]
              = JS.arr_or (RawAnswer.files x) ++ added
              /\ List.length added <= 1
              /\ (added <> [] ->
                  Some "file-upload" = Some "file-upload"
                  /\ exists (i : nat) (g : MulterFile),
                       Some n = Some i
                       /\ nth_error files i = Some g
                       /\ map filename added = [originalname g]
                       /\ map fileType added = [mimetype g])
              /\ (hasCloudinary = false ->
                  Some "file-upload" = Some "file-upload" ->
                  forall (i : nat) (g : MulterFile),
                    Some n = Some i ->
                    nth_error files i = Some g ->
                    added = [localFile g])).
  { intros file Hname Htype Hlocal. exists [file].
    split; [reflexivity|]. split; [simpl; lia|]. split.
    - intros _. split; [reflexivity|]. exists n, f. simpl.
      now rewrite Hname, Htype.
    - intros Hno _ i g [= <-] Hg. rewrite Ef in Hg. injection Hg as <-.
      now rewrite (Hlocal Hno). }
  destruct hasCloudinary eqn:Hcloud.
  - destruct (buffer f) as [b|]; [|unattached].
    destruct (uploadBufferToCloudinary b (originalname f) "ttls_submissions")
      as [uploaded|]; [|unattached].
    simpl. apply Hpush; try reflexivity. discriminate.
  - simpl. apply Hpush; reflexivity.
Qed.

Lemma stored_files (files : list MulterFile)
    (merge : RawAnswer.t -> RawAnswer.t) (l : list RawAnswer.t)
    (stored : list Answer.t) :
  (forall y, RawAnswer.files (merge y) = RawAnswer.files y) ->
  castAnswers
    (map merge
       (map (attachAnswerFile hasCloudinary uploadBufferToCloudinary files)
            l))
  = Some stored ->
  Forall2 (filesOfAnswer files) l stored.
Proof.
  intros Hmerge. revert stored.
  induction l as [|x rest IH]; intros stored H; simpl in H.
  - injection H as <-. constructor.
  - match type of H with
    | context [castAnswer ?y] => destruct (castAnswer y) as [d|] eqn:Ed
    end; [|discriminate H].
    match type of H with
    | context [castAnswers ?ys] => destruct (castAnswers ys) as [ds|] eqn:Eds
    end; [|discriminate H].
    injection H as <-. constructor; [|now apply IH].
    unfold castAnswer in Ed. rewrite Hmerge in Ed.
    destruct (RawAnswer.questionId (merge _)); [|discriminate Ed].
    injection Ed as <-. simpl.
    destruct (attach_files files x) as (added & Hfiles & Hlength & Hwhy & _).
    exists added. simpl. split; [exact Hfiles|]. now split.
Qed.

(** X25: every file of a submit is stored with the submission, under its
    name and type and in the order of the request, whether or not an
    answer refers to it: every file when Cloudinary is not configured,
    the files with a buffer when it is.  An answer is stored with the
    files it came with, followed by at most one more: the file of the
    request that its [fileIndex] names, and only for an answer of type
    file-upload. *)
Theorem submit_stores_files (now : Date) (store store' : Store)
    (id : ObjectId) (user : User.t) (body : SubmitBody)
    (files : list MulterFile) (s : Submission.t) :
  submit_ now store id user body files = (store', success 201 s) ->
  map filename (Submission.files s)
  = map originalname (if hasCloudinary then buffered files else files)
  /\ map fileType (Submission.files s)
     = map mimetype (if hasCloudinary then buffered files else files)
  /\ Forall2 (filesOfAnswer files) (submittedAnswers body)
             (Submission.answers s).
Proof.
  unfold submit.
  change (match b_answers body with
          | a_items l => l
          | _ => []
          end) with (submittedAnswers body).
  destruct (findAssignment store id) as [a|]; [|discriminate].
  destruct (_ && _); [discriminate|].
  destruct (match files with
            | [] => Some []
            | _ :: _ => saveFiles_ "ttls_submissions" files []
            end) as [saved|] eqn:Es; [|discriminate].
  assert (Hsaved : map filename saved
                   = map originalname
                       (if hasCloudinary then buffered files else files)
                   /\ map fileType saved
                      = map mimetype
                          (if hasCloudinary then buffered files else files)).
  { destruct files as [|f files].
    - injection Es as <-. now destruct hasCloudinary.
    - apply saveFiles_appends in Es as (added & -> & Hnames & Htypes).
      now split. }
  destruct Hsaved as [Hnames Htypes].
  match goal with
  | |- context [castAnswers ?l] =>
      destruct (castAnswers l) as [answers|] eqn:Ec
  end; [|discriminate].
  assert (Hanswers : Forall2 (filesOfAnswer files) (submittedAnswers body)
                             answers).
  { match type of Ec with
    | castAnswers (if ?auto then _ else _) = _ => destruct auto
    end.
    - apply (stored_files files (mergeGraded _) _ _ (fun y => eq_refl) Ec).
    - rewrite <- (map_id (map _ (submittedAnswers body))) in Ec.
      apply (stored_files files (fun y => y) _ _ (fun y => eq_refl) Ec). }
  destruct (findSubmission store id (User.id user)) as [existing|];
    intros [= _ <-]; now repeat split.
Qed.

End RouteProperties.

(* ================================================================= *)
(** ** Properties of the reading routes *)

Lemma insertByDate_permutation (s : Submission.t) (l : list Submission.t) :
  Permutation (insertByDate s l) (s :: l).
Proof.
  induction l as [|t rest IH]; simpl; [reflexivity|].
  destruct (Submission.submittedAt t <=? Submission.submittedAt s)%Z;
    [reflexivity|].
  rewrite IH. apply perm_swap.
Qed.

Lemma latestFirst_permutation (l : list Submission.t) :
  Permutation (latestFirst l) l.
Proof.
  induction l as [|s rest IH]; simpl; [reflexivity|].
  rewrite insertByDate_permutation. now constructor.
Qed.

Lemma insertByDate_sorted (s : Submission.t) (l : list Submission.t) :
  newestFirst l -> newestFirst (insertByDate s l).
Proof.
  induction l as [|t rest IH]; simpl; [now split|].
  intros [Hrest Hsorted].
  destruct (Z.leb_spec (Submission.submittedAt t) (Submission.submittedAt s))
    as [Hle|Hlt]; simpl.
  - split; [|now split]. constructor; [exact Hle|].
    eapply Forall_impl; [|exact Hrest]. simpl. intros x Hx. lia.
  - split; [|now apply IH].
    apply (Permutation_Forall
             (Permutation_sym (insertByDate_permutation s rest))).
    constructor; [lia | exact Hrest].
Qed.

Lemma latestFirst_sorted (l : list Submission.t) :
  newestFirst (latestFirst l).
Proof.
  induction l as [|s rest IH]; simpl; [exact I|].
  now apply insertByDate_sorted.
Qed.

Lemma latestFirst_In (l : list Submission.t) (s : Submission.t) :
  In s (latestFirst l) <-> In s l.
Proof.
  split; apply Permutation_in;
    [|apply Permutation_sym]; apply latestFirst_permutation.
Qed.

Lemma latestFirst_ids (l : list Submission.t) :
  NoDup (map Submission._id l) ->
  NoDup (map Submission._id (latestFirst l)).
Proof.
  apply Permutation_NoDup, Permutation_map, Permutation_sym,
    latestFirst_permutation.
Qed.

Lemma filter_ids {A : Type} (f : A -> nat) (P : A -> bool) (l : list A) :
  NoDup (map f l) -> NoDup (map f (filter P l)).
Proof.
  induction l as [|x rest IH]; simpl; intros Hnodup; [constructor|].
  inversion Hnodup as [|? ? Hnotin Hrest]; subst.
  destruct (P x); simpl; [|now apply IH].
  constructor; [|now apply IH].
  intros Hin. apply Hnotin. apply in_map_iff in Hin as (y & Hy & Hin).
  apply filter_In in Hin as [Hin _]. apply in_map_iff. now exists y.
Qed.

(** X26: a student is answered with their own submissions and no others:
    all of them, or those for the assignments of the lesson asked for;
    each once, the newest first, with the id, title and type of the
    assignment, or without an assignment when that has gone.  Teachers
    and admins are answered 403. *)
Theorem getStudentSubmissions_own (store : Store) (user : User.t)
    (lessonId : option ObjectId) :
  (User.role_of user <> User.student ->
   exists message : string,
     getStudentSubmissions store user lessonId = failure 403 message)
  /\ (User.role_of user = User.student ->
      exists subs : list OwnSubmission,
        getStudentSubmissions store user lessonId = success 200 subs
        /\ (forall s : Submission.t,
               In s (map own_submission subs)
               <-> In s (submissions store)
                   /\ Submission.student s = User.id user
                   /\ inLesson store lessonId s)
        /\ newestFirst (map own_submission subs)
        /\ (NoDup (map Submission._id (submissions store)) ->
            NoDup (map Submission._id (map own_submission subs)))
        /\ Forall (fun o =>
                     own_assignment o
                     = match findAssignment store
                               (Submission.assignment (own_submission o))
                       with
                       | Some a => Some (Assignment._id a, Assignment.title a,
                                         Assignment.type a)
                       | None => None
                       end) subs).
Proof.
  unfold getStudentSubmissions, authorize. simpl existsb. split.
  - intros Hrole. destruct (User.role_of user); [congruence| |];
      eexists; reflexivity.
  - intros ->. simpl. eexists. split; [reflexivity|].
    rewrite map_map. simpl. rewrite map_id.
    split; [|split; [|split]].
    + intros s. rewrite latestFirst_In, filter_In, andb_true_iff,
        Nat.eqb_eq.
      destruct lessonId as [lesson|]; simpl.
      * rewrite existsb_exists. split.
        -- intros (Hin & Hstudent & i & Hi & Heq).
           apply Nat.eqb_eq in Heq. subst i.
           apply in_map_iff in Hi as (a & Ha & Hi).
           apply filter_In in Hi as [Hi Hl].
           repeat split; try assumption. exists a.
           repeat split; try assumption.
           destruct (Assignment.lesson a) as [l|]; [|discriminate].
           apply Nat.eqb_eq in Hl. now subst.
        -- intros (Hin & Hstudent & a & Ha & Hid & Hl).
           repeat split; try assumption.
           exists (Assignment._id a). split.
           ++ apply in_map, filter_In. split; [exact Ha|].
              rewrite Hl. apply Nat.eqb_refl.
           ++ rewrite Hid. apply Nat.eqb_refl.
      * tauto.
    + apply latestFirst_sorted.
    + intros Hnodup. now apply latestFirst_ids, filter_ids.
    + apply Forall_forall. intros o Ho.
      apply in_map_iff in Ho as (s & <- & _). reflexivity.
Qed.

(** X27: a teacher or an admin is answered with the submissions for the
    assignment asked for and no others, each once, the newest first,
    each with the student it names when that user exists.  The route
    does not look the assignment up: for an id without an assignment, or
    without submissions, the answer is an empty list, not a 404. *)
Theorem getSubmissions_of_assignment (users : list UserDoc.t)
    (store : Store) (id : ObjectId) (user : User.t) :
  (User.role_of user = User.student ->
   exists message : string,
     getSubmissions users store id user = failure 403 message)
  /\ (User.role_of user <> User.student ->
      exists subs : list ReceivedSubmission,
        getSubmissions users store id user = success 200 subs
        /\ (forall s : Submission.t,
               In s (map received_submission subs)
               <-> In s (submissions store) /\ Submission.assignment s = id)
        /\ newestFirst (map received_submission subs)
        /\ (NoDup (map Submission._id (submissions store)) ->
            NoDup (map Submission._id (map received_submission subs)))
        /\ Forall (fun r =>
                     option_map ref_id (received_student r)
                     = option_map UserDoc._id
                         (findUser users
                            (Submission.student (received_submission r))))
                  subs
        /\ ((forall s, In s (submissions store) ->
                       Submission.assignment s <> id) ->
            subs = [])).
Proof.
  unfold getSubmissions, authorize. simpl existsb. split.
  - intros ->. eexists. reflexivity.
  - intros Hrole.
    assert (Hauth : negb (User.role_eqb (User.role_of user) User.teacher
                          || (User.role_eqb (User.role_of user) User.admin
                              || false)) = false).
    { destruct (User.role_of user); [congruence| |]; reflexivity. }
    rewrite Hauth. eexists. split; [reflexivity|].
    rewrite map_map. simpl. rewrite map_id.
    split; [|split; [|split; [|split]]].
    + intros s. rewrite latestFirst_In, filter_In, Nat.eqb_eq. tauto.
    + apply latestFirst_sorted.
    + intros Hnodup. now apply latestFirst_ids, filter_ids.
    + apply Forall_forall. intros r Hr.
      apply in_map_iff in Hr as (s & <- & _). simpl.
      now destruct (findUser users (Submission.student s)).
    + intros Hnone.
      assert (Hempty : filter (fun s => Submission.assignment s =? id)
                              (submissions store) = []).
      { induction (submissions store) as [|s rest IH]; simpl;
          [reflexivity|].
        destruct (Nat.eqb_spec (Submission.assignment s) id) as [Heq|_].
        - exfalso. now apply (Hnone s (or_introl eq_refl)).
        - apply IH. intros s' Hin. apply Hnone. now right. }
      now rewrite Hempty.
Qed.

(* ================================================================= *)
(** ** Properties of the [protect] middleware *)

Lemma splitOnSpace_noSpace (token : string) :
  noSpace token = true -> splitOnSpace token = [token].
Proof.
  induction token as [|c r IH]; simpl; [reflexivity|].
  intros H. apply andb_prop in H as [Hc Hr].
  apply negb_true_iff in Hc. rewrite Hc, (IH Hr). reflexivity.
Qed.

Lemma is_suspended_iff (s : UserDoc.status) :
  UserDoc.is_suspended s = true <-> s = UserDoc.suspended.
Proof. destruct s; simpl; split; congruence. Qed.

Section ProtectProperties.

Variable jwt_verify : string -> option User.t.

Local Abbreviation protect_ := (protect jwt_verify).

(** The outcome of [protect] on a header that carries a token. *)
Lemma protect_token (users : list UserDoc.t) (header token : string) :
  String.prefix "Bearer" header = true ->
  nth_error (splitOnSpace header) 1 = Some token ->
  token <> "" ->
  (forall user : User.t,
      protect_ users (Some header) = next user
      <-> jwt_verify token = Some user
          /\ ~ suspendedIn users (User.id user))
  /\ (forall (status : nat) (message : string),
         protect_ users (Some header) = refused status message ->
         (status = 403
          /\ exists user : User.t,
               jwt_verify token = Some user
               /\ suspendedIn users (User.id user))
         \/ (status = 401 /\ jwt_verify token = None)).
Proof.
  intros Hprefix Hnth Hne. unfold protect. rewrite Hprefix, Hnth.
  destruct token as [|c r]; [congruence|].
  destruct (jwt_verify (String c r)) as [decoded|].
  - destruct (findUser users (User.id decoded)) as [doc|] eqn:Edoc.
    + destruct (UserDoc.is_suspended (UserDoc.status_of doc)) eqn:Es.
      * apply is_suspended_iff in Es. split.
        -- intros user. split; [discriminate|].
           intros [[= <-] Hnot]. exfalso. apply Hnot. now exists doc.
        -- intros status message [= <- _]. left. split; [reflexivity|].
           exists decoded. split; [reflexivity|]. now exists doc.
      * split; [|discriminate]. intros user. split.
        -- intros [= <-]. split; [reflexivity|].
           intros (doc' & Hdoc' & Hs). rewrite Edoc in Hdoc'.
           injection Hdoc' as <-. apply is_suspended_iff in Hs. congruence.
        -- now intros [[= <-] _].
    + split; [|discriminate]. intros user. split.
      * intros [= <-]. split; [reflexivity|].
        intros (doc' & Hdoc' & _). congruence.
      * now intros [[= <-] _].
  - split.
    + intros user. split; [discriminate | now intros [? _]].
    + intros status message [= <- _]. right. now split.
Qed.

(** X28: [protect] lets a request through only with a token that
    verifies, and sets the user to what the token decodes to; the token
    is the second piece of an [authorization] header that starts with
    Bearer.  For a header made of Bearer, a space and a token, the
    request passes exactly when the token verifies and the account of
    the user is not stored as suspended: an account that is pending or
    rejected, or that is not stored any more, passes.  A token that
    verifies for a suspended account is answered 403, everything else
    401. *)
Theorem protect_bearer_token (users : list UserDoc.t) :
  (forall (authorization : option string) (user : User.t),
      protect_ users authorization = next user ->
      exists header token : string,
        authorization = Some header
        /\ String.prefix "Bearer" header = true
        /\ nth_error (splitOnSpace header) 1 = Some token
        /\ jwt_verify token = Some user
        /\ ~ suspendedIn users (User.id user))
  /\ (exists message : string,
         protect_ users None = refused 401 message)
  /\ forall token : string,
       noSpace token = true ->
       token <> "" ->
       (forall user : User.t,
           protect_ users (Some ("Bearer " ++ token)%string) = next user
           <-> jwt_verify token = Some user
               /\ ~ suspendedIn users (User.id user))
       /\ (forall (status : nat) (message : string),
              protect_ users (Some ("Bearer " ++ token)%string)
              = refused status message ->
              (status = 403
               /\ exists user : User.t,
                    jwt_verify token = Some user
                    /\ suspendedIn users (User.id user))
              \/ (status = 401 /\ jwt_verify token = None)).
Proof.
  split; [|split].
  - intros authorization user H.
    destruct authorization as [header|]; [|discriminate H].
    destruct (String.prefix "Bearer" header) eqn:Hprefix;
      [|unfold protect in H; rewrite Hprefix in H; discriminate H].
    destruct (nth_error (splitOnSpace header) 1) as [token|] eqn:Hnth;
      [|unfold protect in H; rewrite Hprefix, Hnth in H; discriminate H].
    destruct token as [|c r];
      [unfold protect in H; rewrite Hprefix, Hnth in H; discriminate H|].
    exists header, (String c r).
    destruct (protect_token users header (String c r) Hprefix Hnth)
      as [Hnext _]; [discriminate|].
    apply Hnext in H as [Hverify Hnot]. now repeat split.
  - eexists. reflexivity.
  - intros token Hspace Hne. apply protect_token; [reflexivity | | exact Hne].
    simpl. now rewrite (splitOnSpace_noSpace token Hspace).
Qed.

End ProtectProperties.

(* ================================================================= *)
(** ** Writing, then reading the lists and the statistics *)

Lemma saveDoc_recount {A : Type} (P same : A -> bool) (doc found : A)
    (docs : list A) :
  (forall d, In d docs -> same d = true -> d = found) ->
  In found docs ->
  same found = true ->
  List.length (filter P (saveDoc same doc docs)) + Nat.b2n (P found)
  = List.length (filter P docs) + Nat.b2n (P doc).
Proof.
  intros Hsame Hin Hfound.
  induction docs as [|d rest IH]; simpl; [contradiction|].
  destruct (same d) eqn:Es; simpl.
  - rewrite (Hsame d (or_introl eq_refl) Es).
    destruct (P doc), (P found); simpl; lia.
  - assert (Hrest : In found rest).
    { destruct Hin as [->|Hin]; [congruence | exact Hin]. }
    specialize (IH (fun d' Hd' => Hsame d' (or_intror Hd')) Hrest).
    destruct (P d); simpl; lia.
Qed.

Lemma filter_both {A : Type} (P Q : A -> bool) (l : list A) :
  filter Q (filter P l) = filter (fun x => P x && Q x) l.
Proof.
  induction l as [|x rest IH]; simpl; [reflexivity|].
  destruct (P x); simpl; [|exact IH].
  destruct (Q x); now rewrite IH.
Qed.

Section WriteThenRead.

Variable hasCloudinary : bool.
Variable uploadBufferToCloudinary :
  string -> string -> string -> option Uploaded.

Local Abbreviation submit_ :=
  (submit hasCloudinary uploadBufferToCloudinary).

(** X29: a submission that was handed in is listed: a student finds it
    among their own submissions, with the id, title and type of the
    assignment, and every teacher and admin finds it among the
    submissions of the assignment. *)
Theorem submit_then_listed (now : Date) (store store' : Store)
    (id : ObjectId) (user teacher : User.t) (body : SubmitBody)
    (files : list MulterFile) (s : Submission.t)
    (users : list UserDoc.t) :
  submit_ now store id user body files = (store', success 201 s) ->
  (User.role_of user = User.student ->
   exists (subs : list OwnSubmission) (a : Assignment.t),
     getStudentSubmissions store' user None = success 200 subs
     /\ findAssignment store id = Some a
     /\ In {| own_submission := s;
              own_assignment :=
                Some (id, Assignment.title a, Assignment.type a) |} subs)
  /\ (authorize [User.teacher; User.admin] teacher = true ->
      exists subs : list ReceivedSubmission,
        getSubmissions users store' id teacher = success 200 subs
        /\ In s (map received_submission subs)).
Proof.
  intros H.
  assert (Ha : exists a, findAssignment store id = Some a).
  { unfold submit in H. destruct (findAssignment store id) as [a|];
      [now exists a | discriminate H]. }
  destruct Ha as [a Ha].
  pose proof (submit_stored hasCloudinary uploadBufferToCloudinary _ _ _ _
                _ _ _ _ _ H) as Hstored.
  pose proof (findSubmission_key _ _ _ _ Hstored) as [Hassignment Hstudent].
  assert (Hin : In s (submissions store')).
  { unfold findSubmission in Hstored. now apply find_some in Hstored. }
  assert (Ha' : findAssignment store' id = Some a).
  { destruct (findSubmission store id (User.id user)) as [existing|] eqn:He.
    - destruct (submit_again hasCloudinary uploadBufferToCloudinary _ _ _ _
                  _ _ _ _ _ _ He H) as (-> & _). exact Ha.
    - destruct (submit_first hasCloudinary uploadBufferToCloudinary _ _ _ _
                  _ _ _ _ _ He H) as (Hsame & _).
      unfold findAssignment in *. now rewrite Hsame. }
  split.
  - intros Hrole. unfold getStudentSubmissions, authorize.
    rewrite Hrole. simpl. eexists. exists a.
    split; [reflexivity|]. split; [exact Ha|].
    apply in_map_iff. exists s. split.
    + rewrite Hassignment, Ha'.
      now rewrite (findAssignment_id store id a Ha).
    + apply latestFirst_In, filter_In. split; [exact Hin|].
      rewrite Hstudent, Nat.eqb_refl. reflexivity.
  - intros Hauth. unfold getSubmissions. rewrite Hauth. simpl.
    eexists. split; [reflexivity|].
    rewrite map_map. simpl. rewrite map_id.
    apply latestFirst_In, filter_In. split; [exact Hin|].
    rewrite Hassignment. apply Nat.eqb_refl.
Qed.

End WriteThenRead.

(** The grade after a grading: the one of the request, or the recomputed
    total of a quiz graded answer by answer, or else the grade the
    submission had. *)
Lemma gradeManually_grade (now : Date) (store store' : Store)
    (assignmentId submissionId : ObjectId) (user : User.t)
    (body : GradeBody) (graded found : Submission.t) (a : Assignment.t) :
  gradeManually now store assignmentId submissionId user body
  = (store', success 200 graded) ->
  findSubmissionById store submissionId assignmentId = Some found ->
  findAssignment store assignmentId = Some a ->
  authorize [User.teacher; User.admin] user = true
  /\ Submission.isGraded graded = true
  /\ (hasGrade found = true -> hasGrade graded = true)
  /\ (hasGrade graded = false
      <-> hasGrade found = false
          /\ b_grade body = None
          /\ (b_gradedAnswers body = None
              \/ Assignment.is_quiz (Assignment.type a) = false)).
Proof.
  intros H Hfound Ha. unfold gradeManually in H.
  destruct (authorize _ user); [|discriminate H]. simpl in H.
  rewrite Hfound in H.
  assert (Hkey : Submission.assignment found = assignmentId).
  { unfold findSubmissionById in Hfound.
    apply find_some in Hfound as [_ Hkey]. apply andb_prop in Hkey.
    now apply Nat.eqb_eq. }
  rewrite Hkey, Ha in H. split; [reflexivity|].
  unfold hasGrade.
  destruct (b_gradedAnswers body) as [entries|];
    [destruct (Assignment.is_quiz (Assignment.type a))|];
    injection H as _ <-; simpl;
    destruct (b_grade body), (Submission.grade found); simpl;
    repeat split; try discriminate; try reflexivity;
    try (intros (? & ? & ?); discriminate);
    try (intros (_ & _ & [?|?]); discriminate);
    try (now left); try (now right).
Qed.

(** X30: the statistics count a submission as graded by its grade, not
    by its [isGraded] flag.  After a successful grading the statistics
    of the assignment count as many submissions as before, and one more
    graded submission exactly when the submission had no grade and now
    has one; it has none, though it is marked as graded, exactly when it
    had none, the request gives no grade and no answer of a quiz is
    graded. *)
Theorem gradeManually_then_statistics (now : Date) (store store' : Store)
    (assignmentId submissionId : ObjectId) (user : User.t)
    (body : GradeBody) (result : Submission.t) (a : Assignment.t) :
  consistent store ->
  findAssignment store assignmentId = Some a ->
  gradeManually now store assignmentId submissionId user body
  = (store', success 200 result) ->
  exists (found : Submission.t) (d d' : Statistics),
    findSubmissionById store submissionId assignmentId = Some found
    /\ listStatistics store assignmentId user = success 200 d
    /\ listStatistics store' assignmentId user = success 200 d'
    /\ total d' = total d
    /\ graded d' + Nat.b2n (hasGrade found)
       = graded d + Nat.b2n (hasGrade result)
    /\ Submission.isGraded result = true
    /\ (hasGrade found = true -> hasGrade result = true)
    /\ (hasGrade result = false
        <-> hasGrade found = false
            /\ b_grade body = None
            /\ (b_gradedAnswers body = None
                \/ Assignment.is_quiz (Assignment.type a) = false)).
Proof.
  intros (_ & _ & Hs & _ & _) Ha H.
  destruct (gradeManually_work _ _ _ _ _ _ _ _ _ H)
    as (found & Hfound & Hstore & Hid & Hassignment & _).
  destruct (gradeManually_grade _ _ _ _ _ _ _ _ _ _ H Hfound Ha)
    as (Hauth & Hflag & Hkept & Hnone).
  assert (Hin : In found (submissions store)).
  { unfold findSubmissionById in Hfound. now apply find_some in Hfound. }
  assert (Hkey : Submission.assignment found = assignmentId).
  { unfold findSubmissionById in Hfound.
    apply find_some in Hfound as [_ Hkey]. apply andb_prop in Hkey.
    now apply Nat.eqb_eq. }
  assert (Hsame : forall d, In d (submissions store) ->
            (Submission._id d =? Submission._id result) = true ->
            d = found).
  { intros d Hd Heq. apply Nat.eqb_eq in Heq.
    apply (NoDup_map_eq Submission._id (submissions store));
      try assumption. congruence. }
  assert (Hself : (Submission._id found =? Submission._id result) = true).
  { rewrite Hid. apply Nat.eqb_refl. }
  exists found. unfold listStatistics. rewrite Hauth, Ha. simpl negb.
  cbv iota.
  assert (Ha' : findAssignment store' assignmentId = Some a)
    by (now rewrite Hstore).
  rewrite Ha'. eexists. eexists.
  split; [exact Hfound|]. split; [reflexivity|]. split; [reflexivity|].
  simpl. rewrite Hstore. unfold saveSubmission. simpl.
  split; [|split; [|split; [exact Hflag|]; split; assumption]].
  - pose proof (saveDoc_recount
                  (fun s => Submission.assignment s =? assignmentId)
                  _ result found (submissions store) Hsame Hin Hself)
      as Hcount.
    cbv beta in Hcount.
    rewrite Hassignment, Hkey, Nat.eqb_refl in Hcount. simpl in Hcount. lia.
  - rewrite !filter_both.
    pose proof (saveDoc_recount
                  (fun s => (Submission.assignment s =? assignmentId)
                            && hasGrade s)
                  _ result found (submissions store) Hsame Hin Hself)
      as Hcount.
    cbv beta in Hcount.
    rewrite Hassignment, Hkey, Nat.eqb_refl in Hcount. exact Hcount.
Qed.

(* ================================================================= *)
(** ** The further properties at work on the sample data *)

Ltac stored :=
  unfold consistent; simpl; repeat split;
  repeat first [ apply NoDup_nil | apply NoDup_cons
               | apply Forall_nil | apply Forall_cons ];
  simpl; try lia; unfold pairOf; simpl; intuition congruence.

Lemma school_consistent : consistent school.
Proof. stored. Defined.

Lemma classOfFive_consistent : consistent classOfFive.
Proof. stored. Defined.

Lemma emptyStore_consistent : consistent emptyStore.
Proof. stored. Defined.

Lemma autoGradeQuiz_first_answer_counts_witness :
  autoGradeQuiz quiz (sheet ++ [answerTo 11 (Some "rome") None])
  = autoGradeQuiz quiz sheet.
Proof.
  apply (autoGradeQuiz_first_answer_counts quiz sheet).
  intros q Hq Hx. simpl in Hq.
  destruct Hq as [<-|[<-|[<-|[<-|[<-|[]]]]]]; simpl in Hx;
    try discriminate Hx.
  vm_compute. discriminate.
Defined.

Lemma autoGradeQuiz_order_of_answers_witness :
  NoDup (answeredIds sheet)
  /\ autoGradeQuiz quiz sheet = autoGradeQuiz quiz (rev sheet).
Proof.
  assert (Hnodup : NoDup (answeredIds sheet)).
  { simpl. repeat apply NoDup_cons; try apply NoDup_nil; simpl;
      intuition discriminate. }
  split; [exact Hnodup|].
  apply (autoGradeQuiz_order_of_answers quiz sheet (rev sheet) Hnodup).
  apply Permutation_rev.
Defined.

Lemma autoGradeQuiz_missing_correct_answer_witness :
  exists g : Graded.t,
    nth_error
      (gradedAnswers
         (autoGradeQuiz bareQuiz [answerTo 16 (Some " Undefined") None])) 0
    = Some g
    /\ Graded.isCorrect g = Some true.
Proof.
  destruct (autoGradeQuiz_missing_correct_answer bareQuiz
              [answerTo 16 (Some " Undefined") None] 0 q_bare
              eq_refl eq_refl) as (g & Hnth & Hchoice & _).
  exists g. split; [exact Hnth|]. now apply Hchoice.
Defined.

Lemma autoGradeQuiz_enumeration_correct_witness :
  exists g : Graded.t,
    nth_error (gradedAnswers (autoGradeQuiz quiz sheet)) 2 = Some g
    /\ Graded.isCorrect g <> Some true.
Proof.
  destruct (autoGradeQuiz_enumeration_correct quiz sheet 2 q_letters
              eq_refl eq_refl) as (g & Hnth & Hcorrect).
  exists g. split; [exact Hnth|].
  intros H. apply Hcorrect in H as (_ & Hlength & _).
  vm_compute in Hlength. discriminate Hlength.
Defined.

Lemma create_stores_before_uploading_witness :
  exists (store' : Store) (a : Assignment.t),
    create true noUpload refuse emptyStore master
      (quizBody (questionList twoQuestions)) [essayFile]
    = (store', failure 500 "Failed to upload attachments")
    /\ assignments store' = assignments emptyStore ++ [a]
    /\ Assignment.title a = "Quiz"
    /\ Assignment.createdBy a = User.id master
    /\ Assignment.attachments a = [].
Proof.
  apply (create_stores_before_uploading true noUpload refuse emptyStore
           master (quizBody (questionList twoQuestions)) [essayFile]
           "Quiz" twoNormalized);
    try reflexivity.
  discriminate.
Defined.

Lemma submit_needs_question_ids_witness :
  exists (status : nat) (message : string),
    submit false noUpload 1000%Z school 1 pupil
      (answering None [answerTo 11 (Some "paris") None; anonymous]) []
    = (school, failure status message)
    /\ 400 <= status.
Proof.
  apply (submit_needs_question_ids false noUpload 1000%Z school 1 pupil
           (answering None [answerTo 11 (Some "paris") None; anonymous]) []).
  apply Exists_cons_tl, Exists_cons_hd. reflexivity.
Defined.

Lemma submit_first_not_graded_witness :
  submit false noUpload 1000%Z school 1 pupil (answering None []) []
  = (fst handedInEmpty, success 201 emptySubmission)
  /\ Submission.grade emptySubmission = None
  /\ Submission.isGraded emptySubmission = false
  /\ Submission.totalPoints emptySubmission = Some 25%float.
Proof.
  assert (Hrun : submit false noUpload 1000%Z school 1 pupil
                   (answering None []) []
                 = (fst handedInEmpty, success 201 emptySubmission))
    by (vm_compute; reflexivity).
  destruct (submit_first_not_graded false noUpload 1000%Z school
              (fst handedInEmpty) 1 pupil (answering None []) [] quiz
              emptySubmission eq_refl eq_refl eq_refl Hrun)
    as (Hgrade & Hgraded & _ & Htotal & _).
  split; [exact Hrun|]. split; [exact Hgrade|]. split; [exact Hgraded|].
  exact Htotal.
Defined.

Lemma submit_again_keeps_grade_witness :
  submit false noUpload 3000%Z (fst try2) 2 pupil
    (answering (Some "third") []) []
  = (fst try3, success 201 submission3)
  /\ Submission.content submission3 = Some "third"
  /\ Submission.grade submission3 = Submission.grade submission2
  /\ Submission.isGraded submission3 = Submission.isGraded submission2
  /\ Submission.gradedAt submission3 = Submission.gradedAt submission2.
Proof.
  assert (Hrun : submit false noUpload 3000%Z (fst try2) 2 pupil
                   (answering (Some "third") []) []
                 = (fst try3, success 201 submission3))
    by (vm_compute; reflexivity).
  destruct (submit_again_keeps_grade false noUpload 3000%Z (fst try2)
              (fst try3) 2 pupil (answering (Some "third") []) [] retake
              submission2 submission3 eq_refl eq_refl eq_refl Hrun)
    as (Hcontent & Hgrade & _ & Hgraded & Hdate & _).
  split; [exact Hrun|]. split; [exact Hcontent|]. split; [exact Hgrade|].
  split; [exact Hgraded | exact Hdate].
Defined.

Lemma writing_routes_keep_consistency_witness :
  consistent classOfFive
  /\ consistent
       (fst (create false noUpload refuse classOfFive master
               (quizBody (questionList twoQuestions)) [essayFile]))
  /\ consistent
       (fst (update false noUpload refuse classOfFive 1 master noChange
               [essayFile]))
  /\ consistent
       (fst (submit false noUpload 1000%Z classOfFive 1 pupil
               (answering None sheet) []))
  /\ consistent
       (fst (gradeManually 5000%Z classOfFive 1 205 master
               threeForElement)).
Proof.
  destruct (writing_routes_keep_consistency false noUpload refuse
              classOfFive classOfFive_consistent)
    as (Hcreate & Hupdate & Hsubmit & Hgrade).
  split; [exact classOfFive_consistent|].
  split; [apply Hcreate|]. split; [apply Hupdate|].
  split; [apply Hsubmit | apply Hgrade].
Defined.

Lemma submit_touches_one_pair_witness :
  submit false noUpload 1000%Z classOfFive 1 pupil (answering None sheet) []
  = (fst joined, snd joined)
  /\ assignments (fst joined) = assignments classOfFive
  /\ ofOtherPairs 1 (User.id pupil) (fst joined)
     = ofOtherPairs 1 (User.id pupil) classOfFive.
Proof.
  assert (Hrun : submit false noUpload 1000%Z classOfFive 1 pupil
                   (answering None sheet) []
                 = (fst joined, snd joined))
    by (vm_compute; reflexivity).
  split; [exact Hrun|].
  exact (submit_touches_one_pair false noUpload 1000%Z classOfFive
           (fst joined) 1 pupil (answering None sheet) [] (snd joined)
           classOfFive_consistent Hrun).
Defined.

Lemma gradeManually_touches_grading_only_witness :
  gradeManually 5000%Z (fst try1) 2 200 master threeForElement
  = (fst marked, success 200 markedSubmission)
  /\ (exists found : Submission.t,
         findSubmissionById (fst try1) 200 2 = Some found
         /\ sameWork found markedSubmission)
  /\ assignments (fst marked) = assignments (fst try1)
  /\ otherThan 200 (fst marked) = otherThan 200 (fst try1)
  /\ findSubmissionById (fst marked) 200 2 = Some markedSubmission.
Proof.
  assert (Hrun : gradeManually 5000%Z (fst try1) 2 200 master
                   threeForElement
                 = (fst marked, success 200 markedSubmission))
    by (vm_compute; reflexivity).
  split; [exact Hrun|].
  exact (gradeManually_touches_grading_only 5000%Z (fst try1) (fst marked)
           2 200 master threeForElement markedSubmission Hrun).
Defined.

Lemma gradeManually_twice_witness :
  gradeManually 5000%Z (fst try1) 2 200 master threeForElement
  = (fst marked, success 200 markedSubmission)
  /\ exists (store'' : Store) (graded' : Submission.t),
       gradeManually 6000%Z (fst marked) 2 200 master threeForElement
       = (store'', success 200 graded')
       /\ Submission.grade graded' = Submission.grade markedSubmission
       /\ Submission.answers graded' = Submission.answers markedSubmission
       /\ Submission.gradedAt graded' = Some 6000%Z.
Proof.
  assert (Hrun : gradeManually 5000%Z (fst try1) 2 200 master
                   threeForElement
                 = (fst marked, success 200 markedSubmission))
    by (vm_compute; reflexivity).
  split; [exact Hrun|].
  destruct (gradeManually_twice 5000%Z 6000%Z (fst try1) (fst marked) 2 200
              master threeForElement markedSubmission Hrun)
    as (store'' & graded' & Hagain & Hgrade & Hanswers & _ & Hdate & _).
  exists store'', graded'. now repeat split.
Defined.

Lemma create_then_get_witness :
  create false noUpload refuse emptyStore master
    (quizBody (questionList twoQuestions)) []
  = (fst created, success 201 createdQuiz)
  /\ findAssignment emptyStore (Assignment._id createdQuiz) = None
  /\ (exists found : FoundAssignment,
         getAssignment staff (fst created) (Assignment._id createdQuiz)
         = success 200 found
         /\ found_assignment found = createdQuiz)
  /\ forall id : ObjectId,
       id <> Assignment._id createdQuiz ->
       getAssignment staff (fst created) id
       = getAssignment staff emptyStore id.
Proof.
  assert (Hrun : create false noUpload refuse emptyStore master
                   (quizBody (questionList twoQuestions)) []
                 = (fst created, success 201 createdQuiz))
    by (vm_compute; reflexivity).
  split; [exact Hrun|].
  exact (create_then_get false noUpload refuse emptyStore (fst created)
           master (quizBody (questionList twoQuestions)) [] createdQuiz
           staff emptyStore_consistent Hrun).
Defined.

Lemma update_then_get_witness :
  update false noUpload refuse (fst created) 1 master
    (quizBody (questionList [rawQuestion "Q3" None (Some 4%float)])) []
  = (fst updated, success 200 updatedQuiz)
  /\ Assignment._id updatedQuiz = 1
  /\ exists found : FoundAssignment,
       getAssignment staff (fst updated) 1 = success 200 found
       /\ found_assignment found = updatedQuiz.
Proof.
  assert (Hrun : update false noUpload refuse (fst created) 1 master
                   (quizBody
                      (questionList
                         [rawQuestion "Q3" None (Some 4%float)])) []
                 = (fst updated, success 200 updatedQuiz))
    by (vm_compute; reflexivity).
  split; [exact Hrun|].
  destruct (update_then_get false noUpload refuse (fst created)
              (fst updated) 1 master
              (quizBody
                 (questionList [rawQuestion "Q3" None (Some 4%float)]))
              [] updatedQuiz staff Hrun)
    as (Hid & _ & Hfound & _).
  split; [exact Hid | exact Hfound].
Defined.

Lemma update_appends_attachments_witness :
  update false noUpload refuse school 1 master noChange [essayFile]
  = (fst noted, success 200 (assignmentIn (snd noted)))
  /\ exists (old : Assignment.t) (added : list File),
       findAssignment school 1 = Some old
       /\ Assignment.attachments (assignmentIn (snd noted))
          = Assignment.attachments old ++ added
       /\ map filename added = map originalname [essayFile].
Proof.
  assert (Hrun : update false noUpload refuse school 1 master noChange
                   [essayFile]
                 = (fst noted, success 200 (assignmentIn (snd noted))))
    by (vm_compute; reflexivity).
  split; [exact Hrun|].
  exact (update_appends_attachments false noUpload refuse school
           (fst noted) 1 master noChange [essayFile]
           (assignmentIn (snd noted)) Hrun).
Defined.

Lemma update_nothing_witness :
  nothingSupplied noChange
  /\ update false noUpload refuse school 1 master noChange []
     = (school, success 200 quiz).
Proof.
  assert (Hnothing : nothingSupplied noChange) by (now repeat split).
  split; [exact Hnothing|].
  exact (update_nothing false noUpload refuse school 1 master noChange quiz
           eq_refl eq_refl (or_introl eq_refl) Hnothing).
Defined.

Lemma update_by_creator_or_admin_witness :
  exists message : string,
    update false noUpload refuse school 1 colleague
      (quizBody (questionList twoQuestions)) [essayFile]
    = (school, failure 403 message).
Proof.
  apply (update_by_creator_or_admin false noUpload refuse school 1
           colleague (quizBody (questionList twoQuestions)) [essayFile]
           quiz eq_refl).
  - simpl. lia.
  - discriminate.
Defined.

Lemma listStatistics_counts_add_up_witness :
  listStatistics classOfFive 1 master = success 200 fiveStatistics
  /\ total fiveStatistics = 5
  /\ graded fiveStatistics + ungraded fiveStatistics = total fiveStatistics
  /\ excellent (gradeDistribution fiveStatistics)
     + good (gradeDistribution fiveStatistics)
     + satisfactory (gradeDistribution fiveStatistics)
     + needsImprovement (gradeDistribution fiveStatistics)
     + countGraded PrimFloat.is_nan (submissionsOf classOfFive 1)
     = graded fiveStatistics.
Proof.
  assert (Hrun : listStatistics classOfFive 1 master
                 = success 200 fiveStatistics)
    by (vm_compute; reflexivity).
  destruct (listStatistics_counts_add_up classOfFive 1 master
              fiveStatistics Hrun)
    as (Htotal & Hsum & _ & _ & Hranges).
  split; [exact Hrun|]. split; [exact Htotal|].
  split; [exact Hsum | exact Hranges].
Defined.

Lemma submit_then_statistics_witness :
  submit false noUpload 1000%Z classOfFive 1 pupil (answering None sheet) []
  = (fst joined, success 201 (submissionIn (snd joined)))
  /\ exists d d' : Statistics,
       listStatistics classOfFive 1 master = success 200 d
       /\ listStatistics (fst joined) 1 master = success 200 d'
       /\ total d' = S (total d)
       /\ In (Submission._id (submissionIn (snd joined)))
             (map s_id (st_submissions d')).
Proof.
  assert (Hrun : submit false noUpload 1000%Z classOfFive 1 pupil
                   (answering None sheet) []
                 = (fst joined, success 201 (submissionIn (snd joined))))
    by (vm_compute; reflexivity).
  split; [exact Hrun|].
  exact (submit_then_statistics false noUpload 1000%Z classOfFive
           (fst joined) 1 pupil master (answering None sheet) []
           (submissionIn (snd joined)) classOfFive_consistent eq_refl Hrun).
Defined.

Lemma create_questions_for_quizzes_only_witness :
  create false noUpload refuse emptyStore master homeworkBody []
  = (fst homework, success 201 (assignmentIn (snd homework)))
  /\ b_questions homeworkBody = questionList twoQuestions
  /\ Assignment.questions (assignmentIn (snd homework)) = []
  /\ Assignment.totalPoints (assignmentIn (snd homework)) = 0%float
  /\ Assignment.allowAutomaticGrading (assignmentIn (snd homework)) = false.
Proof.
  assert (Hrun : create false noUpload refuse emptyStore master
                   homeworkBody []
                 = (fst homework, success 201 (assignmentIn (snd homework))))
    by (vm_compute; reflexivity).
  assert (Htype : b_type homeworkBody <> Some Assignment.quiz)
    by discriminate.
  destruct (create_questions_for_quizzes_only false noUpload refuse
              emptyStore (fst homework) master homeworkBody []
              (assignmentIn (snd homework)) Htype Hrun)
    as (Hquestions & Htotal & Hauto).
  split; [exact Hrun|]. split; [reflexivity|]. split; [exact Hquestions|].
  split; [exact Htotal | exact (Hauto eq_refl)].
Defined.

Lemma submit_stores_files_witness :
  submit true cloud 1000%Z school 1 pupil
    (answering (Some "see the files") [uploadAnswer]) [essayFile; diskFile]
  = (fst filedCloud, success 201 (submissionIn (snd filedCloud)))
  /\ map filename (Submission.files (submissionIn (snd filedCloud)))
     = ["essay.pdf"]
  /\ Forall2 (filesOfAnswer [essayFile; diskFile]) [uploadAnswer]
             (Submission.answers (submissionIn (snd filedCloud)))
  /\ map (fun a => map filename (Answer.files a))
         (Submission.answers (submissionIn (snd filedCloud)))
     = [["essay.pdf"]].
Proof.
  assert (Hrun : submit true cloud 1000%Z school 1 pupil
                   (answering (Some "see the files") [uploadAnswer])
                   [essayFile; diskFile]
                 = (fst filedCloud,
                    success 201 (submissionIn (snd filedCloud))))
    by (vm_compute; reflexivity).
  destruct (submit_stores_files true cloud 1000%Z school (fst filedCloud) 1
              pupil (answering (Some "see the files") [uploadAnswer])
              [essayFile; diskFile] (submissionIn (snd filedCloud)) Hrun)
    as (Hnames & _ & Hanswers).
  split; [exact Hrun|]. split; [exact Hnames|]. split; [exact Hanswers|].
  reflexivity.
Defined.

Lemma failed_requests_change_nothing_witness :
  snd (submit false noUpload 1000%Z school 1 pupil
         (answering None [anonymous]) [])
  = failure 500 "Failed to submit"
  /\ fst (submit false noUpload 1000%Z school 1 pupil
            (answering None [anonymous]) [])
     = school.
Proof.
  split; [vm_compute; reflexivity|].
  apply (proj1 (failed_requests_change_nothing false noUpload refuse)
           1000%Z school _ 1 pupil (answering None [anonymous]) []
           500 "Failed to submit").
  vm_compute. reflexivity.
Defined.

Lemma saveFiles_all_or_nothing_witness :
  saveFiles true noUpload "ttls_assignments" [diskFile; essayFile] noFile
  = None
  /\ exists added : list File,
       saveFiles true cloud "ttls_assignments" [diskFile; essayFile] noFile
       = Some (noFile ++ added)
       /\ map filename added = ["essay.pdf"].
Proof.
  split.
  - apply (proj1 (saveFiles_all_or_nothing true noUpload "ttls_assignments"
                    [diskFile; essayFile] noFile)).
    split; [reflexivity|].
    apply Exists_cons_tl, Exists_cons_hd. exists "%PDF-1.4". now split.
  - destruct (proj2 (saveFiles_all_or_nothing true cloud "ttls_assignments"
                       [diskFile; essayFile] noFile) _ eq_refl)
      as (added & Hadded & Hnames & _).
    exists added. split; [|exact Hnames].
    rewrite <- Hadded. reflexivity.
Defined.

Lemma routes_do_not_check_ownership_witness :
  gradeManually 5000%Z (fst try1) 2 200 colleague threeForElement
  = gradeManually 5000%Z (fst try1) 2 200 master threeForElement
  /\ submit false noUpload 1000%Z school 1
       {| User.id := 7; User.role_of := User.teacher |}
       (answering None sheet) []
     = submit false noUpload 1000%Z school 1 pupil (answering None sheet) [].
Proof.
  split.
  - apply (proj1 (routes_do_not_check_ownership false noUpload (fst try1)
                    colleague master) eq_refl eq_refl).
  - apply (proj2 (routes_do_not_check_ownership false noUpload school
                    {| User.id := 7; User.role_of := User.teacher |} pupil)
             eq_refl).
Defined.

Lemma getStudentSubmissions_own_witness :
  (exists message : string,
      getStudentSubmissions (fst joined) master None = failure 403 message)
  /\ exists subs : list OwnSubmission,
       getStudentSubmissions (fst joined) pupil None = success 200 subs
       /\ In (submissionIn (snd joined)) (map own_submission subs)
       /\ ~ In (submissionWith 201 1 1 (Some 95%float))
               (map own_submission subs)
       /\ newestFirst (map own_submission subs).
Proof.
  destruct (getStudentSubmissions_own (fst joined) master None)
    as [Hrefused _].
  destruct (getStudentSubmissions_own (fst joined) pupil None)
    as [_ Hown].
  split; [apply Hrefused; discriminate|].
  destruct (Hown eq_refl) as (subs & Hrun & Hmine & Hsorted & _).
  exists subs. split; [exact Hrun|]. split; [|split; [|exact Hsorted]].
  - apply Hmine. split; [|split; [reflexivity | exact I]].
    vm_compute. do 5 right. left. reflexivity.
  - intros Hin. apply Hmine in Hin as (_ & Hstudent & _).
    discriminate Hstudent.
Defined.

Lemma getSubmissions_of_assignment_witness :
  (exists message : string,
      getSubmissions staff (fst joined) 1 pupil = failure 403 message)
  /\ (exists subs : list ReceivedSubmission,
         getSubmissions staff (fst joined) 1 master = success 200 subs
         /\ In (submissionIn (snd joined)) (map received_submission subs)
         /\ newestFirst (map received_submission subs))
  /\ findAssignment (fst joined) 99 = None
  /\ getSubmissions staff (fst joined) 99 master = success 200 [].
Proof.
  destruct (getSubmissions_of_assignment staff (fst joined) 1 pupil)
    as [Hrefused _].
  destruct (getSubmissions_of_assignment staff (fst joined) 1 master)
    as [_ Hlisted].
  destruct (getSubmissions_of_assignment staff (fst joined) 99 master)
    as [_ Hunknown].
  split; [apply Hrefused; reflexivity|]. split; [|split; [reflexivity|]].
  - destruct Hlisted as (subs & Hrun & Hmine & Hsorted & _);
      [discriminate|].
    exists subs. split; [exact Hrun|]. split; [|exact Hsorted].
    apply Hmine. split; [|reflexivity].
    vm_compute. do 5 right. left. reflexivity.
  - destruct Hunknown as (subs & Hrun & _ & _ & _ & _ & Hnone);
      [discriminate|].
    rewrite Hrun. f_equal. apply Hnone.
    intros s Hin Heq. vm_compute in Hin.
    repeat destruct Hin as [<-|Hin]; try discriminate Heq. exact Hin.
Defined.

Lemma protect_bearer_token_witness :
  protect verify staff (Some "Bearer p") = next pupil
  /\ (forall user : User.t,
         protect verify staff (Some "Bearer c") <> next user)
  /\ (forall user : User.t,
         protect verify staff (Some "Bearer x") <> next user).
Proof.
  destruct (protect_bearer_token verify staff) as (_ & _ & Hbearer).
  split; [|split].
  - destruct (Hbearer "p" eq_refl) as [Hnext _]; [discriminate|].
    apply Hnext. split; [reflexivity|].
    intros (doc & Hdoc & Hsuspended). vm_compute in Hdoc.
    injection Hdoc as <-. discriminate Hsuspended.
  - intros user H.
    destruct (Hbearer "c" eq_refl) as [Hnext _]; [discriminate|].
    apply Hnext in H as [Hverify Hnot]. injection Hverify as <-.
    apply Hnot. eexists. split; reflexivity.
  - intros user H.
    destruct (Hbearer "x" eq_refl) as [Hnext _]; [discriminate|].
    apply Hnext in H as [Hverify _]. discriminate Hverify.
Defined.

Lemma homeworkStore_consistent : consistent homeworkStore.
Proof. stored. Defined.

Lemma submit_then_listed_witness :
  submit false noUpload 1000%Z classOfFive 1 pupil (answering None sheet) []
  = (fst joined, success 201 (submissionIn (snd joined)))
  /\ (exists (subs : list OwnSubmission) (a : Assignment.t),
         getStudentSubmissions (fst joined) pupil None = success 200 subs
         /\ findAssignment classOfFive 1 = Some a
         /\ In {| own_submission := submissionIn (snd joined);
                  own_assignment :=
                    Some (1, Assignment.title a, Assignment.type a) |}
               subs)
  /\ exists subs : list ReceivedSubmission,
       getSubmissions staff (fst joined) 1 master = success 200 subs
       /\ In (submissionIn (snd joined)) (map received_submission subs).
Proof.
  assert (Hrun : submit false noUpload 1000%Z classOfFive 1 pupil
                   (answering None sheet) []
                 = (fst joined, success 201 (submissionIn (snd joined))))
    by (vm_compute; reflexivity).
  destruct (submit_then_listed false noUpload 1000%Z classOfFive
              (fst joined) 1 pupil master (answering None sheet) []
              (submissionIn (snd joined)) staff Hrun)
    as [Hown Hreceived].
  split; [exact Hrun|]. split; [exact (Hown eq_refl)|].
  exact (Hreceived eq_refl).
Defined.

Lemma gradeManually_then_statistics_witness :
  gradeManually 5000%Z homeworkStore 1 201 master onlyFeedback
  = (fst remarked, success 200 (submissionIn (snd remarked)))
  /\ exists d d' : Statistics,
       listStatistics homeworkStore 1 master = success 200 d
       /\ listStatistics (fst remarked) 1 master = success 200 d'
       /\ total d' = total d
       /\ graded d' = graded d
       /\ Submission.isGraded (submissionIn (snd remarked)) = true
       /\ hasGrade (submissionIn (snd remarked)) = false.
Proof.
  assert (Hrun : gradeManually 5000%Z homeworkStore 1 201 master
                   onlyFeedback
                 = (fst remarked, success 200 (submissionIn (snd remarked))))
    by (vm_compute; reflexivity).
  split; [exact Hrun|].
  destruct (gradeManually_then_statistics 5000%Z homeworkStore
              (fst remarked) 1 201 master onlyFeedback
              (submissionIn (snd remarked)) homeworkDoc
              homeworkStore_consistent eq_refl Hrun)
    as (found & d & d' & Hfound & Hd & Hd' & Htotal & Hgraded & Hflag & _
        & Hnone).
  assert (Hwas : hasGrade found = false).
  { vm_compute in Hfound. now injection Hfound as <-. }
  assert (Hstill : hasGrade (submissionIn (snd remarked)) = false).
  { apply Hnone. split; [exact Hwas|]. split; [reflexivity | now left]. }
  exists d, d'. rewrite Hwas, Hstill in Hgraded. simpl in Hgraded.
  repeat split; try assumption. lia.
Defined.
